(** * AltitudeEffect: a Rayleigh distillation model of the isotopic altitude
      effect

    Shallow embedding of [MetFun.py], [EqFracFact.py] and the simulation part
    of [AltitudeEffect.py], over the real numbers of the Standard Library.

    Python floats and numpy float64 cells are read as exact reals: rounding,
    overflow and underflow are not modelled there.  What numpy does when a
    float64 division has a zero divisor (store [nan] or [inf] and go on) is
    modelled where the program can reach it, in the mass balance of the
    precipitation composition.

    A few lines of the program give an outcome that depends on the rounding
    of binary64: the comparison with the threshold temperature, a difference
    of two nearly equal numbers, an exact equality of two stored numbers.
    The module [Binary64] evaluates these lines on the primitive floats,
    which are the binary64 numbers of Python and numpy with the same
    rounding. *)

From Stdlib Require Floats.
From Stdlib Require Import Reals Lra Lia List ZArith Bool.
Import ListNotations.

Open Scope R_scope.

(** ** Python and numpy building blocks *)

Module Py.

(** [x ** y] on floats.  For a positive base this is [exp (y * ln x)]; a zero
    base with a positive exponent gives zero.  These are the only two cases
    the embedding covers.  For a zero base with another exponent Python
    raises [ZeroDivisionError] or gives 1, and for a negative base with a
    fractional exponent Python gives a complex number and numpy [nan]; the
    value 0 written here for them is a filler, and every property below that
    depends on the value of a power has a positive base, or a zero base and a
    positive exponent, by its hypotheses. *)
Definition pow (x y : R) : R :=
  if Rlt_dec 0 x then Rpower x y else 0.

(** [int(x)]: truncation toward zero. *)
Definition int (x : R) : Z :=
  if Rle_dec 0 x then Zfloor x else Zceil x.

(** [math.ceil(x)], used by the specification of the grid length. *)
Definition ceil (x : R) : Z := Zceil x.

(** A numpy float64 cell: a finite number, an infinity, or [nan]. *)
Inductive fval : Type :=
| Fin (r : R)
| PosInf
| NegInf
| NaN.

(** numpy's [a / b] on float64: no exception, a special value is stored when
    the divisor is zero. *)
Definition np_div (a b : R) : fval :=
  if Req_dec_T b 0 then
    if Req_dec_T a 0 then NaN
    else if Rlt_dec 0 a then PosInf else NegInf
  else Fin (a / b).

(** [v == 0] on a float64 cell; [nan] and the infinities compare unequal. *)
Definition eq0 (v : fval) : bool :=
  match v with
  | Fin r => if Req_dec_T r 0 then true else false
  | _ => false
  end.

Definition is_finite (v : fval) : Prop := exists r, v = Fin r.

(** [a[i] = v] on an array, for an index known to be in range. *)
Fixpoint upd {A : Type} (l : list A) (i : nat) (v : A) : list A :=
  match l, i with
  | [], _ => []
  | _ :: t, O => v :: t
  | h :: t, S j => h :: upd t j v
  end.

(** [np.zeros] with [n] rows. *)
Definition zeros {A : Type} (z : A) (n : nat) : list A := repeat z n.

(** [np.linspace(start, stop, num)]: [num] evenly spaced samples, both ends
    included. *)
Definition linspace (start stop : R) (num : nat) : list R :=
  map (fun i => start + INR i * ((stop - start) / INR (num - 1))) (seq 0 num).

(** Exceptions the script can raise. *)
Inductive exn : Type := IndexError | ZeroDivisionError | ValueError.

Inductive outcome (A : Type) : Type :=
| Done (a : A)
| Raise (e : exn)
| OutOfFuel.
Arguments Done {A} a.
Arguments Raise {A} e.
Arguments OutOfFuel {A}.

End Py.

(** ** MetFun.py *)

Module MetFun.

Definition m2hPa (m : R) : R :=
  Py.pow (1 - (m / 44307.69396)) (1 / 0.190284) * 1013.25.

Definition hPa2m (hPa : R) : R :=
  (1 - Py.pow (hPa / 1013.25) 0.190284) * 44307.69396.

Definition rhoAir (z T : R) : R :=
  let Rair := 287.058 in
  let T := T + 273.15 in
  let airP := Py.pow (1 - (z / 44307.69396)) (1 / 0.190284) * 1013.25 in
  100 * airP / (Rair * T).

Definition SatVapPress (T : R) : R :=
  6.1121 * exp ((18.678 - T / 234.5) * (T / (257.14 + T))).

(** The exponent of the Buck formula, named for the proofs. *)
Definition buck_exponent (T : R) : R :=
  (18.678 - T / 234.5) * (T / (257.14 + T)).

End MetFun.

(** ** EqFracFact.py *)

Module EqFracFact.

(** The two branches of [alpha18], as functions of the Kelvin temperature. *)
Definition majoube18 (T : R) : R :=
  exp ((1137 / (T ^ 2)) - (0.4156 / T) - 0.0020667).
Definition ellehoj18 (T : R) : R :=
  exp ((8312.58 / (T ^ 2)) - (49.192 / T) + 0.0831).

Definition alpha18 (T : R) : R :=
  let T := T + 273.15 in
  if Rge_dec T 268.16 then majoube18 T else ellehoj18 T.

Definition majoube2 (T : R) : R :=
  exp ((24844 / (T ^ 2)) - (76.248 / T) + 0.052612).
Definition ellehoj2 (T : R) : R :=
  exp ((48888 / (T ^ 2)) - (203.10 / T) + 0.2133).

Definition alpha2 (T : R) : R :=
  let T := T + 273.15 in
  if Rge_dec T 268.16 then majoube2 T else ellehoj2 T.

End EqFracFact.

(** ** AltitudeEffect.py *)

Module AltitudeEffect.

Import Py.

(** The [Settings] cell of the script: simulation parameters, boundary and
    initial conditions, reference ratios. *)
Record settings : Type := {
  MLR : R;
  MinZ : R;
  MaxZ : R;
  Zres : R;
  Tz0 : R;
  P0 : R;
  RH0 : R;
  d18O0 : R;
  dD0 : R;
  VSMOW1816 : R;
  VSMOW21 : R
}.

(** The values written in the script. *)
Definition default : settings := {|
  MLR := 5;
  MinZ := 0;
  MaxZ := 4000;
  Zres := 10;
  Tz0 := 20;
  P0 := 1013.25;
  RH0 := 85 / 100;
  d18O0 := -12;
  dD0 := 10 + (8 * -12);
  VSMOW1816 := 2005.20 * 1e-6;
  VSMOW21 := 155.76 * 1e-6
|}.

(** The arrays of the run.  Two-column arrays are lists of pairs
    (column 0: d18O, column 1: dD). *)
Record profile : Type := {
  VaporConcentration : list R;
  VaporComposition : list (R * R);
  VaporFraction : list R;
  PrecComposition : list (fval * fval);
  RHvector : list R
}.

Definition set_VaporConcentration (p : profile) (z : nat) (v : R) : profile :=
  {| VaporConcentration := upd (VaporConcentration p) z v;
     VaporComposition := VaporComposition p;
     VaporFraction := VaporFraction p;
     PrecComposition := PrecComposition p;
     RHvector := RHvector p |}.

Definition set_VaporComposition (p : profile) (z : nat) (v : R * R) : profile :=
  {| VaporConcentration := VaporConcentration p;
     VaporComposition := upd (VaporComposition p) z v;
     VaporFraction := VaporFraction p;
     PrecComposition := PrecComposition p;
     RHvector := RHvector p |}.

Definition set_VaporFraction (p : profile) (z : nat) (v : R) : profile :=
  {| VaporConcentration := VaporConcentration p;
     VaporComposition := VaporComposition p;
     VaporFraction := upd (VaporFraction p) z v;
     PrecComposition := PrecComposition p;
     RHvector := RHvector p |}.

Definition set_PrecComposition (p : profile) (z : nat) (v : fval * fval) : profile :=
  {| VaporConcentration := VaporConcentration p;
     VaporComposition := VaporComposition p;
     VaporFraction := VaporFraction p;
     PrecComposition := upd (PrecComposition p) z v;
     RHvector := RHvector p |}.

Definition set_RHvector (p : profile) (z : nat) (v : R) : profile :=
  {| VaporConcentration := VaporConcentration p;
     VaporComposition := VaporComposition p;
     VaporFraction := VaporFraction p;
     PrecComposition := PrecComposition p;
     RHvector := upd (RHvector p) z v |}.

Definition with_PrecComposition (p : profile) (a : list (fval * fval)) : profile :=
  {| VaporConcentration := VaporConcentration p;
     VaporComposition := VaporComposition p;
     VaporFraction := VaporFraction p;
     PrecComposition := a;
     RHvector := RHvector p |}.

(** Array reads, [a[z]] and [a[z, k]]. *)
Definition VC (p : profile) (z : nat) : R := nth z (VaporConcentration p) 0.
Definition VF (p : profile) (z : nat) : R := nth z (VaporFraction p) 0.
Definition RH (p : profile) (z : nat) : R := nth z (RHvector p) 0.
Definition VComp (p : profile) (z : nat) : R * R := nth z (VaporComposition p) (0, 0).
Definition Prec (p : profile) (z : nat) : fval * fval :=
  nth z (PrecComposition p) (Fin 0, Fin 0).

Section Run.

Variable c : settings.

(** [np.int((MaxZ - MinZ)/Zres)], the [num] argument of [np.linspace]. *)
Definition num : Z := int ((MaxZ c - MinZ c) / Zres c).

(** [len(Zvector)]. *)
Definition len : nat := Z.to_nat num.

Definition Zvector : list R := linspace (MinZ c) (MaxZ c) len.

Definition Tvector : list R := map (fun z => Tz0 c - (z * MLR c / 1000)) Zvector.

Definition Zv (z : nat) : R := nth z Zvector 0.
Definition Tv (z : nat) : R := nth z Tvector 0.

(** Memory allocation: every array is [np.zeros]. *)
Definition alloc : profile :=
  {| VaporConcentration := zeros 0 len;
     VaporComposition := zeros (0, 0) len;
     VaporFraction := zeros 0 len;
     PrecComposition := zeros (Fin 0, Fin 0) len;
     RHvector := zeros 0 len |}.

Definition R1816_0_VAP : R := ((d18O0 c * 1e-3) + 1) * VSMOW1816 c.
Definition R21_0_VAP : R := ((dD0 c * 1e-3) + 1) * VSMOW21 c.

(** Initial conditions, written at level 0. *)
Definition init : profile :=
  let p := set_VaporConcentration alloc 0
             (1e6 * RH0 c * MetFun.SatVapPress (Tz0 c) / P0 c) in
  let p := set_VaporFraction p 0 1 in
  let p := set_RHvector p 0 (RH0 c) in
  set_VaporComposition p 0 (d18O0 c, dD0 c).

(** The relative humidity computed at level [z] from the arrays as they are
    when the loop body starts. *)
Definition RH_at (p : profile) (z : nat) : R :=
  ((VC p (z - 1) / 1e6) * P0 c) / MetFun.SatVapPress (Tv z).

(** The locals [R1816_VAP] and [R21_VAP] of the condensation branch. *)
Definition R1816_VAP (p : profile) (z : nat) : R :=
  R1816_0_VAP * pow (VF p z) (EqFracFact.alpha18 (Tv z) - 1).
Definition R21_VAP (p : profile) (z : nat) : R :=
  R21_0_VAP * pow (VF p z) (EqFracFact.alpha18 (Tv z) - 1).

(** Mass balance of one column of the precipitation composition. *)
Definition mass_balance (f1 d1 f d : R) : fval :=
  np_div (f1 * d1 - f * d) (f1 - f).

(** The condensation branch of the loop body.  The division by
    [VaporConcentration[0]] is a plain division: the branch is only taken
    with a positive concentration at level 0 (see [fraction_invariant]). *)
Definition condense (p : profile) (z : nat) : profile :=
  let p := set_VaporConcentration p z
             (1e6 * MetFun.SatVapPress (Tv z) / MetFun.m2hPa (INR z)) in
  let p := set_VaporFraction p z (VC p z / VC p 0) in
  let r18 := R1816_VAP p z in
  let r2 := R21_VAP p z in
  let p := set_VaporComposition p z
             ((r18 / VSMOW1816 c - 1) * 1e3, (r2 / VSMOW21 c - 1) * 1e3) in
  set_PrecComposition p z
    (mass_balance (VF p (z - 1)) (fst (VComp p (z - 1))) (VF p z) (fst (VComp p z)),
     mass_balance (VF p (z - 1)) (snd (VComp p (z - 1))) (VF p z) (snd (VComp p z))).

(** The [else] branch of the loop body. *)
Definition carry (p : profile) (z : nat) : profile :=
  let p := set_VaporConcentration p z (VC p (z - 1)) in
  let p := set_VaporFraction p z (VF p (z - 1)) in
  let p := set_VaporComposition p z (VComp p (z - 1)) in
  set_PrecComposition p z (Prec p (z - 1)).

(** One iteration of [for z in range(1, len(Zvector))]. *)
Definition step (p : profile) (z : nat) : profile :=
  let p := set_RHvector p z (RH_at p z) in
  if Rgt_dec (RH p z) 1.05 then condense p z else carry p z.

(** The loop run for the levels [1 .. k]. *)
Definition lift_upto (k : nat) : profile :=
  fold_left step (seq 1 k) init.

(** The whole loop. *)
Definition lift : profile := lift_upto (len - 1).

(** The cleaning loop:
    [while PrecComposition[i, 0] == 0: PrecComposition[i, :] = nan; i = i + 1].
    Reading past the last row raises [IndexError]. *)
Fixpoint clean (fuel : nat) (a : list (fval * fval)) (i : nat)
  : outcome (list (fval * fval) * nat) :=
  match fuel with
  | O => OutOfFuel
  | S fuel' =>
      match nth_error a i with
      | None => Raise IndexError
      | Some (d18, _) =>
          if eq0 d18 then clean fuel' (upd a i (NaN, NaN)) (S i)
          else Done (a, i)
      end
  end.

(** The simulation, from the allocation to the end of the cleaning loop.  The
    result is the final profile and the value of [i].

    The exceptions are those of the exact arithmetic, in the order in which
    the script meets them: the division by [Zres], the negative [num] of
    [np.linspace], the divisions by [257.14 + Tz0] and by [P0] in the initial
    conditions, the read of row 0 of an empty array, and the read past the
    last row in the cleaning loop.  The loop body raises nothing here.  In
    Python it can: [math.exp] raises [OverflowError] when a temperature lies
    within about 8 degrees below -257.14, and [m2hPa] of a level index above
    44307 is a complex number.  [in_domain] excludes the second; the first
    is outside the embedding, as the range of binary64 is. *)
Definition run : outcome (profile * nat) :=
  if Req_dec_T (Zres c) 0 then Raise ZeroDivisionError
  else if (num <? 0)%Z then Raise ValueError
  else if Req_dec_T (257.14 + Tz0 c) 0 then Raise ZeroDivisionError
  else if Req_dec_T (P0 c) 0 then Raise ZeroDivisionError
  else if (num =? 0)%Z then Raise IndexError
  else
    let p := lift in
    match clean (S (length (PrecComposition p))) (PrecComposition p) 0 with
    | Done (a, i) => Done (with_PrecComposition p a, i)
    | Raise e => Raise e
    | OutOfFuel => OutOfFuel
    end.

(** Every array of the profile has [n] rows. *)
Definition rows (n : nat) (p : profile) : Prop :=
  length (VaporConcentration p) = n /\
  length (VaporComposition p) = n /\
  length (VaporFraction p) = n /\
  length (PrecComposition p) = n /\
  length (RHvector p) = n.

(** The checks made before the loop pass: no division by zero in the
    settings, and at least one level. *)
Definition guards_pass : Prop :=
  Zres c <> 0 /\ 257.14 + Tz0 c <> 0 /\ P0 c <> 0 /\ (1 <= len)%nat.

(** Level [z] takes the condensation branch in the run. *)
Definition saturated (z : nat) : Prop :=
  RH_at (lift_upto (z - 1)) z > 1.05.

(** The settings in which every division and every power of the loop body
    is defined over the reals: a positive reference pressure, non-zero
    reference ratios, level indices below the zero of the pressure formula,
    and no temperature at the pole of the Buck formula.  The range of
    binary64 is not part of it: [math.exp] overflows for temperatures within
    about 8 degrees below the pole and underflows to zero within about 5
    degrees above it. *)
Definition in_domain : Prop :=
  0 < P0 c /\ VSMOW1816 c <> 0 /\ VSMOW21 c <> 0 /\
  INR len < 44307.69396 /\
  (forall z, (z < len)%nat -> 257.14 + Tv z <> 0).

End Run.

(** *** Settings used as examples *)

(** The script's settings with a higher pressure at the base and air that is
    already past the condensation threshold there. *)
Definition pressurised : settings := {|
  MLR := 5;
  MinZ := 0;
  MaxZ := 4000;
  Zres := 10;
  Tz0 := 20;
  P0 := 1100;
  RH0 := 1.06;
  d18O0 := -12;
  dD0 := 10 + (8 * -12);
  VSMOW1816 := 2005.20 * 1e-6;
  VSMOW21 := 155.76 * 1e-6
|}.

(** A range that the resolution does not divide. *)
Definition uneven : settings := {|
  MLR := 5;
  MinZ := 0;
  MaxZ := 4005;
  Zres := 10;
  Tz0 := 20;
  P0 := 1013.25;
  RH0 := 85 / 100;
  d18O0 := -12;
  dD0 := 10 + (8 * -12);
  VSMOW1816 := 2005.20 * 1e-6;
  VSMOW21 := 155.76 * 1e-6
|}.

(** Two levels of an isothermal column, with air far past saturation at the
    base: level 1 condenses. *)
Definition isothermal (p0 d18 dD : R) : settings := {|
  MLR := 0;
  MinZ := 0;
  MaxZ := 20;
  Zres := 10;
  Tz0 := 20;
  P0 := p0;
  RH0 := 2;
  d18O0 := d18;
  dD0 := dD;
  VSMOW1816 := 2005.20 * 1e-6;
  VSMOW21 := 155.76 * 1e-6
|}.

(** The same with [dD0 = 10 + (8*d18O0)], as the script sets it. *)
Definition two_levels (p0 : R) (d18 : R) : settings :=
  isothermal p0 d18 (10 + (8 * d18)).



(** The script's settings over the first 100 m only: the air never reaches
    the condensation threshold. *)
Definition low_ridge : settings := {|
  MLR := 5;
  MinZ := 0;
  MaxZ := 100;
  Zres := 10;
  Tz0 := 20;
  P0 := 1013.25;
  RH0 := 85 / 100;
  d18O0 := -12;
  dD0 := 10 + (8 * -12);
  VSMOW1816 := 2005.20 * 1e-6;
  VSMOW21 := 155.76 * 1e-6
|}.

(** The delta of vapor whose absolute ratio is [w] times the ratio of vapor
    with delta [d0]. *)
Definition rayleigh_delta (d0 w : R) : R := ((d0 * 1e-3 + 1) * w - 1) * 1e3.

(** Settings of a column that cools with altitude: the real-number reading
    applies, the initial humidity is positive, the reference pressure is at
    most 1.05 times [m2hPa] of the top level index, the temperatures lie
    between -73.15 and 100 degrees and do not rise with the level, and the
    initial deltas are at least -1000. *)
Definition cooling_column (c : settings) : Prop :=
  in_domain c /\ 0 < RH0 c /\
  P0 c <= 1.05 * MetFun.m2hPa (INR (len c - 1)) /\
  (forall z, (z < len c)%nat -> -73.15 <= Tv c z <= 100) /\
  (forall z, (S z < len c)%nat -> Tv c (S z) <= Tv c z) /\
  -1000 <= d18O0 c /\ -1000 <= dD0 c.

(** Settings [c] with another altitude range and resolution. *)
Definition with_grid (c : settings) (minz maxz zres : R) : settings := {|
  MLR := MLR c;
  MinZ := minz;
  MaxZ := maxz;
  Zres := zres;
  Tz0 := Tz0 c;
  P0 := P0 c;
  RH0 := RH0 c;
  d18O0 := d18O0 c;
  dD0 := dD0 c;
  VSMOW1816 := VSMOW1816 c;
  VSMOW21 := VSMOW21 c
|}.


End AltitudeEffect.

(** ** Lines evaluated in binary64 *)

Module Binary64.

Import PrimFloat.

(** *** EqFracFact.py *)

(** [T = T+273.15], the first line of [alpha18] and of [alpha2]. *)
Definition kelvin (T : float) : float := (T + 273.15)%float.

(** [if T>=268.16:] on the converted temperature; the Majoube formula is
    returned when the test holds, the Ellehoj formula otherwise. *)
Definition uses_majoube (T : float) : bool := (268.16 <=? kelvin T)%float.

(** The selection as the specification words it: Majoube strictly above the
    threshold, Ellehoj at the threshold and below. *)
Definition spec_uses_majoube (T : float) : bool := (268.16 <? kelvin T)%float.

(** *** MetFun.py *)

Section Power.

(** [x ** y] on two floats is the power function of the C library.  It is not
    part of the program, and the language does not fix its last digit: the
    two conversions are written over any such function. *)
Variable pow : float -> float -> float.

Definition m2hPa (m : float) : float :=
  (pow (1 - (m / 44307.69396)) (1 / 0.190284) * 1013.25)%float.

Definition hPa2m (hPa : float) : float :=
  ((1 - pow (hPa / 1013.25) 0.190284) * 44307.69396)%float.

End Power.

(** The doubles around 1: [k] steps of [2^-53] below it, [k] steps of [2^-52]
    above it. *)
Definition below_1 (k : nat) : float :=
  (1 - of_uint63 (Uint63.of_Z (Z.of_nat k)) * 0x1p-53)%float.
Definition above_1 (k : nat) : float :=
  (1 + of_uint63 (Uint63.of_Z (Z.of_nat k)) * 0x1p-52)%float.

(** The [2*n + 1] doubles closest to 1. *)
Definition near_1 (n : nat) : list float :=
  map below_1 (seq 0 (S n)) ++ map above_1 (seq 1 n).

(** [x] is farther from [ref] than the relative tolerance [tol]. *)
Definition off_by (tol ref x : float) : bool :=
  ((x <? ref * (1 - tol)) || (ref * (1 + tol) <? x))%float.

(** *** AltitudeEffect.py *)

Definition VSMOW1816 : float := (2005.20 * 1e-6)%float.
Definition VSMOW21 : float := (155.76 * 1e-6)%float.



(** The mass balance stored in [PrecComposition[z, k]]: an IEEE division,
    which gives an infinity or [nan] when the divisor is zero. *)
Definition mass_balance (f1 d1 f d : float) : float :=
  ((f1 * d1 - f * d) / (f1 - f))%float.

End Binary64.

(** * Properties *)

(** ** Powers and array updates *)

Section PyFacts.

Import Py.

Lemma pow_pos_base (x y : R) : 0 < x -> pow x y = Rpower x y.
Proof.
  intros Hx. unfold pow. destruct (Rlt_dec 0 x) as [_ | Hn]; [reflexivity | contradiction].
Qed.

Lemma pow_gt_0 (x y : R) : 0 < x -> 0 < pow x y.
Proof.
  intros Hx. rewrite pow_pos_base by assumption. unfold Rpower. apply exp_pos.
Qed.

Lemma pow_pow (x y z : R) : 0 < x -> pow (pow x y) z = pow x (y * z).
Proof.
  intros Hx.
  rewrite (pow_pos_base (pow x y)) by (apply pow_gt_0; assumption).
  rewrite !pow_pos_base by assumption. apply Rpower_mult.
Qed.

Lemma pow_1_r (x : R) : 0 < x -> pow x 1 = x.
Proof.
  intros Hx. rewrite pow_pos_base by assumption. apply Rpower_1; assumption.
Qed.

Lemma pow_1_l (y : R) : pow 1 y = 1.
Proof.
  rewrite pow_pos_base by lra. unfold Rpower. rewrite ln_1, Rmult_0_r. apply exp_0.
Qed.

(** A base in (0, 1) raised to a positive exponent stays in (0, 1). *)
Lemma pow_lt_1 (x y : R) : 0 < x < 1 -> 0 < y -> pow x y < 1.
Proof.
  intros [Hx0 Hx1] Hy. rewrite pow_pos_base by assumption.
  unfold Rpower. rewrite <- exp_0. apply exp_increasing.
  assert (Hln : ln x < 0).
  { rewrite <- ln_1. apply ln_increasing; assumption. }
  nra.
Qed.

(** The power is strictly increasing in a positive base, for a positive
    exponent. *)
Lemma pow_lt_base (x x' y : R) : 0 < x -> x < x' -> 0 < y -> pow x y < pow x' y.
Proof.
  intros Hx Hlt Hy. rewrite !pow_pos_base by lra.
  unfold Rpower. apply exp_increasing.
  apply Rmult_lt_compat_l; [assumption | apply ln_increasing; assumption].
Qed.

Lemma length_upd {A : Type} (l : list A) (i : nat) (v : A) :
  length (upd l i v) = length l.
Proof.
  revert i. induction l as [| h t IH]; intros [| j]; simpl; auto.
Qed.

Lemma nth_upd_same {A : Type} (l : list A) (i : nat) (v d : A) :
  (i < length l)%nat -> nth i (upd l i v) d = v.
Proof.
  revert i. induction l as [| h t IH]; intros [| j] Hi; simpl in *; try lia.
  - reflexivity.
  - apply IH. lia.
Qed.

Lemma nth_upd_other {A : Type} (l : list A) (i j : nat) (v d : A) :
  i <> j -> nth j (upd l i v) d = nth j l d.
Proof.
  revert i j. induction l as [| h t IH]; intros [| i] [| j] Hij; simpl; auto.
  contradiction.
Qed.

Lemma nth_zeros {A : Type} (z : A) (n i : nat) : nth i (zeros z n) z = z.
Proof.
  unfold zeros. revert i. induction n as [| n IH]; intros [| i]; simpl; auto.
Qed.

Lemma length_zeros {A : Type} (z : A) (n : nat) : length (zeros z n) = n.
Proof. apply repeat_length. Qed.

Lemma length_linspace (a b : R) (n : nat) : length (linspace a b n) = n.
Proof. unfold linspace. rewrite length_map. apply length_seq. Qed.

Lemma nth_linspace (a b : R) (n i : nat) :
  (i < n)%nat ->
  nth i (linspace a b n) 0 = a + INR i * ((b - a) / INR (n - 1)).
Proof.
  intros Hi. unfold linspace.
  set (f := fun i : nat => a + INR i * ((b - a) / INR (n - 1))).
  rewrite (nth_indep _ 0 (f 0%nat))
    by (rewrite length_map, length_seq; assumption).
  rewrite map_nth, seq_nth by assumption. reflexivity.
Qed.

Lemma int_IZR (z : Z) : int (IZR z) = z.
Proof.
  unfold int. destruct (Rle_dec 0 (IZR z)).
  - apply ZfloorZ.
  - apply Zceil_eq. lra.
Qed.



Lemma np_div_finite (a b : R) : b <> 0 -> np_div a b = Fin (a / b).
Proof.
  intros Hb. unfold np_div. destruct (Req_dec_T b 0); [contradiction | reflexivity].
Qed.

End PyFacts.

(** ** MetFun: the two pressure conversions *)

Section MetFunFacts.

Import MetFun.

Lemma m2hPa_base_pos (z : R) : z < 44307.69396 -> 0 < 1 - z / 44307.69396.
Proof. intros Hz. lra. Qed.

Lemma m2hPa_pos (z : R) : z < 44307.69396 -> 0 < m2hPa z.
Proof.
  intros Hz. unfold m2hPa.
  apply Rmult_lt_0_compat; [| lra].
  apply pow_gt_0, m2hPa_base_pos, Hz.
Qed.

(** Above sea level the pressure is below the sea-level reference. *)
Lemma m2hPa_lt_ref (z : R) : 0 < z < 44307.69396 -> m2hPa z < 1013.25.
Proof.
  intros [Hz0 Hz1]. unfold m2hPa.
  assert (H : Py.pow (1 - z / 44307.69396) (1 / 0.190284) < 1).
  { apply pow_lt_1; lra. }
  lra.
Qed.

(** The pressure strictly decreases with altitude. *)
Lemma m2hPa_decreasing (z z' : R) :
  z < z' -> z' < 44307.69396 -> m2hPa z' < m2hPa z.
Proof.
  intros Hlt Hz'. unfold m2hPa.
  apply Rmult_lt_compat_r; [lra |].
  apply pow_lt_base; lra.
Qed.

Lemma m2hPa_0 : m2hPa 0 = 1013.25.
Proof.
  unfold m2hPa. replace (1 - 0 / 44307.69396) with 1 by lra.
  rewrite pow_1_l. lra.
Qed.

Lemma hPa2m_m2hPa_below_zero_of_formula (z : R) :
  z < 44307.69396 -> hPa2m (m2hPa z) = z.
Proof.
  intros Hz. unfold hPa2m, m2hPa.
  replace (Py.pow (1 - z / 44307.69396) (1 / 0.190284) * 1013.25 / 1013.25)
    with (Py.pow (1 - z / 44307.69396) (1 / 0.190284)) by (field; lra).
  rewrite pow_pow by (apply m2hPa_base_pos; assumption).
  replace (1 / 0.190284 * 0.190284) with 1 by lra.
  rewrite pow_1_r by (apply m2hPa_base_pos; assumption).
  lra.
Qed.

(** C4, amended: over the reals, converting an altitude between 0 and 8000 m
    to a pressure and back returns the altitude exactly:
    [hPa2m (m2hPa z) = z].  Nothing is claimed of the relative error in
    floating point. *)
Theorem hPa2m_m2hPa (z : R) : 0 <= z <= 8000 -> hPa2m (m2hPa z) = z.
Proof.
  intros [_ Hz]. apply hPa2m_m2hPa_below_zero_of_formula. lra.
Qed.

Lemma hPa2m_m2hPa_witness : 0 <= 4000 <= 8000 /\ hPa2m (m2hPa 4000) = 4000.
Proof.
  split; [lra | apply (hPa2m_m2hPa 4000); lra].
Defined.

End MetFunFacts.

(** ** MetFun in binary64: the round trip of a small altitude *)

Section RoundTripInBinary64.

Import PrimFloat.

(** Whatever double among the 20001 closest to 1 the power of [hPa2m]
    evaluates to, the altitude returned is farther than one part in a
    thousand from 1e-9 m: the subtraction from 1 leaves a multiple of [2^-53],
    and the altitudes that can come out are about 4.9e-12 m apart. *)
Lemma hPa2m_near_1e_9 :
  forallb
    (fun w => Binary64.off_by 1e-3 1e-9 ((1 - w) * 44307.69396)%float)
    (Binary64.near_1 10000) = true.
Proof. vm_compute. reflexivity. Qed.

(** The round trip of 1e-13 m returns 0 m, for every power function that
    returns 1 for the base 1, as that of Python does: the base of the power
    in [m2hPa] is rounded to 1, the pressure is 1013.25 hPa exactly, and so
    is the pressure at 0 m. *)
Lemma round_trip_of_1e_13 (pow : float -> float -> float) :
  (forall y, pow 1%float y = 1%float) ->
  Binary64.hPa2m pow (Binary64.m2hPa pow 1e-13) = 0%float.
Proof.
  intros Hpow. unfold Binary64.m2hPa.
  assert (E1 : (1 - 1e-13 / 44307.69396)%float = 1%float) by (vm_compute; reflexivity).
  rewrite E1, Hpow. unfold Binary64.hPa2m.
  assert (E2 : (1 * 1013.25 / 1013.25)%float = 1%float) by (vm_compute; reflexivity).
  rewrite E2, Hpow. vm_compute. reflexivity.
Qed.

(** C4, as claimed, fails in floating point for small altitudes of the
    supported range.  At 1e-13 m the altitude that comes back is 0 m,
    whatever the power function does away from the base 1: the relative
    error is 1.  At 1e-9 m the base of the power in [m2hPa] is rounded to the
    double 203 steps of [2^-53] below 1, where the exact base is 203.29
    steps below; and for every power function whose value in [hPa2m] is one
    of the 20001 doubles closest to 1 (the exact value is about 203 steps
    below 1), the altitude that comes back differs from 1e-9 m by more than
    one part in a thousand, not by less than one in a million. *)
Lemma round_trip_loses_small_altitudes :
  ((1 - 1e-13 / 44307.69396)%float = 1%float /\
   forall pow : float -> float -> float,
     (forall y, pow 1%float y = 1%float) ->
     Binary64.hPa2m pow (Binary64.m2hPa pow 1e-13) = 0%float) /\
  ((1 - 1e-9 / 44307.69396)%float = Binary64.below_1 203 /\
   forall pow : float -> float -> float,
     In (pow (Binary64.m2hPa pow 1e-9 / 1013.25)%float 0.190284%float)
        (Binary64.near_1 10000) ->
     Binary64.off_by 1e-3 1e-9
       (Binary64.hPa2m pow (Binary64.m2hPa pow 1e-9)) = true).
Proof.
  split; split.
  - vm_compute. reflexivity.
  - exact round_trip_of_1e_13.
  - vm_compute. reflexivity.
  - intros pow Hin.
    pose proof hPa2m_near_1e_9 as H. rewrite forallb_forall in H.
    exact (H _ Hin).
Qed.

End RoundTripInBinary64.

(** ** EqFracFact: which formula is used at which temperature *)

Section EqFracFactFacts.

Import EqFracFact.

Lemma majoube18_ellehoj18_differ_at_threshold :
  majoube18 268.16 <> ellehoj18 268.16.
Proof.
  unfold majoube18, ellehoj18. intros H. apply exp_inv in H. lra.
Qed.

Lemma majoube2_ellehoj2_differ_at_threshold :
  majoube2 268.16 <> ellehoj2 268.16.
Proof.
  unfold majoube2, ellehoj2. intros H. apply exp_inv in H. lra.
Qed.

(** C3, amended: both functions convert to Kelvin first; at 268.16 K and
    above they use the Majoube formula, strictly below 268.16 K the Ellehoj
    formula. *)
Theorem alpha_formula_selection (T : R) :
  (T + 273.15 >= 268.16 ->
     alpha18 T = majoube18 (T + 273.15) /\ alpha2 T = majoube2 (T + 273.15)) /\
  (T + 273.15 < 268.16 ->
     alpha18 T = ellehoj18 (T + 273.15) /\ alpha2 T = ellehoj2 (T + 273.15)).
Proof.
  unfold alpha18, alpha2. split; intros HT.
  - destruct (Rge_dec (T + 273.15) 268.16) as [_ | Hn]; [split; reflexivity | contradiction].
  - destruct (Rge_dec (T + 273.15) 268.16) as [Hge | _]; [lra | split; reflexivity].
Qed.

Lemma alpha_formula_selection_witness :
  (alpha18 20 = majoube18 (20 + 273.15) /\
   alpha2 20 = majoube2 (20 + 273.15)) /\
  (alpha18 (-10) = ellehoj18 (-10 + 273.15) /\
   alpha2 (-10) = ellehoj2 (-10 + 273.15)).
Proof.
  split.
  - apply (proj1 (alpha_formula_selection 20)). lra.
  - apply (proj2 (alpha_formula_selection (-10))). lra.
Defined.

End EqFracFactFacts.

(** ** EqFracFact in binary64: the test at the threshold *)

Section ThresholdInBinary64.

Import PrimFloat EqFracFact.

(** C3, as claimed, fails at the threshold.  For the input
    -4.98999999999998 degrees Celsius the sum [T+273.15] is, in binary64,
    exactly the number the program compares with, 268.16; the test
    [T >= 268.16] holds and both functions return the Majoube formula, where
    the claim has the Ellehoj formula; and at 268.16 K the two formulas give
    different values. *)
Lemma threshold_uses_majoube :
  PrimFloat.eqb (Binary64.kelvin (-4.98999999999998)%float) 268.16%float = true /\
  Binary64.uses_majoube (-4.98999999999998)%float = true /\
  Binary64.spec_uses_majoube (-4.98999999999998)%float = false /\
  majoube18 268.16 <> ellehoj18 268.16 /\
  majoube2 268.16 <> ellehoj2 268.16.
Proof.
  split; [vm_compute; reflexivity |].
  split; [vm_compute; reflexivity |].
  split; [vm_compute; reflexivity |].
  split.
  - exact majoube18_ellehoj18_differ_at_threshold.
  - exact majoube2_ellehoj2_differ_at_threshold.
Qed.

End ThresholdInBinary64.

(** ** The loop body *)

Section StepFacts.

Import Py AltitudeEffect.

Variable c : settings.

Ltac arrays :=
  unfold step, condense, carry, RH, VC, VF, VComp, Prec,
    set_RHvector, set_VaporConcentration, set_VaporFraction,
    set_VaporComposition, set_PrecComposition; simpl.

Lemma rows_alloc : rows (len c) (alloc c).
Proof.
  unfold rows, alloc; simpl. rewrite !length_zeros. repeat split.
Qed.

Lemma rows_init : rows (len c) (init c).
Proof.
  unfold rows, init. arrays. rewrite !length_upd, !length_zeros. repeat split.
Qed.

Lemma rows_step (n : nat) (p : profile) (z : nat) :
  rows n p -> rows n (step c p z).
Proof.
  intros (H1 & H2 & H3 & H4 & H5). unfold rows. arrays.
  destruct (Rgt_dec _ 1.05); simpl; rewrite !length_upd; repeat split; assumption.
Qed.

(** The loop body reads the humidity it has just stored. *)
Lemma step_RH (n : nat) (p : profile) (z : nat) :
  rows n p -> (z < n)%nat -> RH (step c p z) z = RH_at c p z.
Proof.
  intros (H1 & H2 & H3 & H4 & H5) Hz. arrays.
  destruct (Rgt_dec _ 1.05); simpl; apply nth_upd_same; lia.
Qed.

(** Which branch is taken is decided by [RH_at]. *)
Lemma step_condense (n : nat) (p : profile) (z : nat) :
  rows n p -> (z < n)%nat -> RH_at c p z > 1.05 ->
  step c p z = condense c (set_RHvector p z (RH_at c p z)) z.
Proof.
  intros (H1 & H2 & H3 & H4 & H5) Hz Hsat. unfold step.
  destruct (Rgt_dec _ 1.05) as [_ | Hn]; [reflexivity |].
  exfalso. apply Hn. unfold RH, set_RHvector; simpl.
  rewrite nth_upd_same by lia. exact Hsat.
Qed.

Lemma step_carry (n : nat) (p : profile) (z : nat) :
  rows n p -> (z < n)%nat -> ~ RH_at c p z > 1.05 ->
  step c p z = carry (set_RHvector p z (RH_at c p z)) z.
Proof.
  intros (H1 & H2 & H3 & H4 & H5) Hz Hsat. unfold step.
  destruct (Rgt_dec _ 1.05) as [Hy | _]; [| reflexivity].
  exfalso. apply Hsat. unfold RH, set_RHvector in Hy; simpl in Hy.
  rewrite nth_upd_same in Hy by lia. exact Hy.
Qed.

(** The loop body writes row [z] only. *)
Lemma step_frame (p : profile) (z j : nat) :
  j <> z ->
  VC (step c p z) j = VC p j /\
  VF (step c p z) j = VF p j /\
  VComp (step c p z) j = VComp p j /\
  Prec (step c p z) j = Prec p j /\
  RH (step c p z) j = RH p j.
Proof.
  intros Hj. arrays.
  destruct (Rgt_dec _ 1.05); simpl;
    repeat split; apply nth_upd_other; congruence.
Qed.

(** What the condensation branch stores in row [z]. *)
Lemma condense_row (n : nat) (p : profile) (z : nat) :
  rows n p -> (1 <= z < n)%nat ->
  let q := condense c p z in
  VC q z = 1e6 * MetFun.SatVapPress (Tv c z) / MetFun.m2hPa (INR z) /\
  VF q z = VC q z / VC p 0 /\
  VComp q z = ((R1816_VAP c q z / VSMOW1816 c - 1) * 1e3,
               (R21_VAP c q z / VSMOW21 c - 1) * 1e3) /\
  Prec q z =
    (mass_balance (VF p (z - 1)) (fst (VComp p (z - 1))) (VF q z) (fst (VComp q z)),
     mass_balance (VF p (z - 1)) (snd (VComp p (z - 1))) (VF q z) (snd (VComp q z))).
Proof.
  intros (H1 & H2 & H3 & H4 & H5) Hz q. subst q.
  arrays. unfold R1816_VAP, R21_VAP, VF; simpl.
  rewrite !nth_upd_same by lia.
  rewrite !(nth_upd_other _ z 0) by lia.
  rewrite !(nth_upd_other _ z (z - 1)) by lia.
  repeat split.
Qed.

(** What the other branch stores in row [z]. *)
Lemma carry_row (n : nat) (p : profile) (z : nat) :
  rows n p -> (1 <= z < n)%nat ->
  let q := carry p z in
  VC q z = VC p (z - 1) /\
  VF q z = VF p (z - 1) /\
  VComp q z = VComp p (z - 1) /\
  Prec q z = Prec p (z - 1).
Proof.
  intros (H1 & H2 & H3 & H4 & H5) Hz q. subst q. arrays.
  rewrite !nth_upd_same by lia.
  repeat split.
Qed.

End StepFacts.

(** ** The loop *)

Section LiftFacts.

Import Py AltitudeEffect.

Variable c : settings.

Lemma lift_upto_0 : lift_upto c 0 = init c.
Proof. reflexivity. Qed.

Lemma lift_upto_S (k : nat) :
  lift_upto c (S k) = step c (lift_upto c k) (S k).
Proof.
  unfold lift_upto. rewrite seq_S, fold_left_app. reflexivity.
Qed.

Lemma rows_lift_upto (k : nat) : rows (len c) (lift_upto c k).
Proof.
  induction k as [| k IH].
  - apply rows_init.
  - rewrite lift_upto_S. apply rows_step, IH.
Qed.

(** Row [j] is final once the loop has passed level [j]. *)
Lemma lift_upto_stable (j k : nat) :
  (j <= k)%nat ->
  VC (lift_upto c k) j = VC (lift_upto c j) j /\
  VF (lift_upto c k) j = VF (lift_upto c j) j /\
  VComp (lift_upto c k) j = VComp (lift_upto c j) j /\
  Prec (lift_upto c k) j = Prec (lift_upto c j) j /\
  RH (lift_upto c k) j = RH (lift_upto c j) j.
Proof.
  induction k as [| k IH]; intros Hj.
  - replace j with 0%nat by lia. repeat split.
  - destruct (Nat.eq_dec j (S k)) as [-> | Hne]; [repeat split |].
    destruct IH as (I1 & I2 & I3 & I4 & I5); [lia |].
    rewrite lift_upto_S.
    destruct (step_frame c (lift_upto c k) (S k) j) as (F1 & F2 & F3 & F4 & F5);
      [assumption |].
    rewrite F1, F2, F3, F4, F5. repeat split; assumption.
Qed.

(** Rows above the current level still hold the allocation zeros. *)
Lemma lift_upto_above (j k : nat) :
  (k < j)%nat ->
  VC (lift_upto c k) j = 0 /\
  VF (lift_upto c k) j = 0 /\
  Prec (lift_upto c k) j = (Fin 0, Fin 0).
Proof.
  induction k as [| k IH]; intros Hj.
  - unfold init, alloc, VC, VF, Prec, set_VaporConcentration, set_VaporFraction,
      set_RHvector, set_VaporComposition; simpl.
    rewrite !nth_upd_other by lia. rewrite !nth_zeros. repeat split.
  - destruct IH as (I1 & I2 & I3); [lia |].
    rewrite lift_upto_S.
    destruct (step_frame c (lift_upto c k) (S k) j) as (F1 & F2 & _ & F4 & _);
      [lia |].
    rewrite F1, F2, F4. repeat split; assumption.
Qed.

(** Level 0 after the initial conditions. *)
Lemma init_row_0 :
  (1 <= len c)%nat ->
  VC (init c) 0 = 1e6 * RH0 c * MetFun.SatVapPress (Tz0 c) / P0 c /\
  VF (init c) 0 = 1 /\
  VComp (init c) 0 = (d18O0 c, dD0 c) /\
  Prec (init c) 0 = (Fin 0, Fin 0) /\
  RH (init c) 0 = RH0 c.
Proof.
  intros Hn.
  unfold init, alloc, VC, VF, VComp, Prec, RH, set_VaporConcentration,
    set_VaporFraction, set_RHvector, set_VaporComposition; simpl.
  rewrite !nth_upd_same by (rewrite length_zeros; lia).
  rewrite nth_zeros. repeat split.
Qed.

Lemma lift_row_0 (k : nat) :
  (1 <= len c)%nat ->
  VC (lift_upto c k) 0 = 1e6 * RH0 c * MetFun.SatVapPress (Tz0 c) / P0 c /\
  VF (lift_upto c k) 0 = 1 /\
  VComp (lift_upto c k) 0 = (d18O0 c, dD0 c).
Proof.
  intros Hn.
  destruct (lift_upto_stable 0 k) as (S1 & S2 & S3 & _); [lia |].
  destruct (init_row_0 Hn) as (I1 & I2 & I3 & _).
  rewrite S1, S2, S3, lift_upto_0. repeat split; assumption.
Qed.

(** A level that condenses: the rows the loop leaves there. *)
Lemma level_condense (z : nat) :
  (1 <= z < len c)%nat -> saturated c z ->
  let p := lift_upto c (z - 1) in
  let q := lift_upto c z in
  VC q z = 1e6 * MetFun.SatVapPress (Tv c z) / MetFun.m2hPa (INR z) /\
  VF q z = VC q z / VC p 0 /\
  VComp q z = ((R1816_VAP c q z / VSMOW1816 c - 1) * 1e3,
               (R21_VAP c q z / VSMOW21 c - 1) * 1e3) /\
  Prec q z =
    (mass_balance (VF p (z - 1)) (fst (VComp p (z - 1))) (VF q z) (fst (VComp q z)),
     mass_balance (VF p (z - 1)) (snd (VComp p (z - 1))) (VF q z) (snd (VComp q z))).
Proof.
  intros Hz Hsat p q. subst p q.
  destruct z as [| k]; [lia |].
  replace (S k - 1)%nat with k in * by lia.
  unfold saturated in Hsat. replace (S k - 1)%nat with k in Hsat by lia.
  rewrite lift_upto_S.
  rewrite (step_condense c (len c) _ (S k) (rows_lift_upto k)) by (lia || assumption).
  pose proof (condense_row c (len c)
                (set_RHvector (lift_upto c k) (S k) (RH_at c (lift_upto c k) (S k)))
                (S k)) as H.
  replace (S k - 1)%nat with k in H by lia.
  apply H; [| lia].
  destruct (rows_lift_upto k) as (H1 & H2 & H3 & H4 & H5).
  unfold rows, set_RHvector; simpl. rewrite length_upd. repeat split; assumption.
Qed.

(** A level that does not condense: the rows of the level below are copied. *)
Lemma level_carry (z : nat) :
  (1 <= z < len c)%nat -> ~ saturated c z ->
  let p := lift_upto c (z - 1) in
  let q := lift_upto c z in
  VC q z = VC p (z - 1) /\
  VF q z = VF p (z - 1) /\
  VComp q z = VComp p (z - 1) /\
  Prec q z = Prec p (z - 1).
Proof.
  intros Hz Hsat p q. subst p q.
  destruct z as [| k]; [lia |].
  unfold saturated in Hsat. replace (S k - 1)%nat with k in * by lia.
  rewrite lift_upto_S.
  rewrite (step_carry c (len c) _ (S k) (rows_lift_upto k)) by (lia || assumption).
  pose proof (carry_row (len c)
                (set_RHvector (lift_upto c k) (S k) (RH_at c (lift_upto c k) (S k)))
                (S k)) as H.
  replace (S k - 1)%nat with k in H by lia.
  apply H; [| lia].
  destruct (rows_lift_upto k) as (H1 & H2 & H3 & H4 & H5).
  unfold rows, set_RHvector; simpl. rewrite length_upd. repeat split; assumption.
Qed.

(** The rows of the finished loop, read at level [z]. *)
Lemma lift_at (z : nat) :
  (z < len c)%nat ->
  VC (lift c) z = VC (lift_upto c z) z /\
  VF (lift c) z = VF (lift_upto c z) z /\
  VComp (lift c) z = VComp (lift_upto c z) z /\
  Prec (lift c) z = Prec (lift_upto c z) z /\
  RH (lift c) z = RH (lift_upto c z) z.
Proof.
  intros Hz. unfold lift. apply lift_upto_stable. lia.
Qed.

End LiftFacts.

(** ** Bounds on the exponential and on the Buck formula *)

Section NumericFacts.

Import MetFun.

Lemma exp_le_inv (x : R) : x < 1 -> exp x <= 1 / (1 - x).
Proof.
  intros Hx.
  pose proof (exp_ineq1_le (- x)) as H.
  pose proof (exp_pos x) as Hp.
  rewrite exp_Ropp in H.
  assert (Hinv : / exp x = 1 / exp x) by (unfold Rdiv; ring).
  apply Rmult_le_reg_r with (r := 1 - x); [lra |].
  replace (1 / (1 - x) * (1 - x)) with 1 by (field; lra).
  apply Rmult_le_reg_r with (r := / exp x); [apply Rinv_0_lt_compat; assumption |].
  replace (exp x * (1 - x) * / exp x) with (1 - x) by (field; lra).
  lra.
Qed.

Lemma ln_le_minus_1 (t : R) : 0 < t -> ln t <= t - 1.
Proof.
  intros Ht. pose proof (exp_ineq1_le (ln t)) as H.
  rewrite exp_ln in H by assumption. lra.
Qed.

Lemma SatVapPress_buck (T : R) : SatVapPress T = 6.1121 * exp (buck_exponent T).
Proof. reflexivity. Qed.

Lemma SatVapPress_pos (T : R) : 0 < SatVapPress T.
Proof.
  unfold SatVapPress. apply Rmult_lt_0_compat; [lra | apply exp_pos].
Qed.

Lemma SatVapPress_ratio (a b : R) :
  SatVapPress a / SatVapPress b = exp (buck_exponent a - buck_exponent b).
Proof.
  rewrite !SatVapPress_buck.
  unfold Rminus. rewrite exp_plus, exp_Ropp.
  field. split; [apply Rgt_not_eq, exp_pos | lra].
Qed.

(** The pressure at the level index 399 is still above 1013.25/1.05 hPa. *)
Lemma m2hPa_399 : 1013.25 <= 1.05 * m2hPa 399.
Proof.
  unfold m2hPa.
  set (b := 1 - 399 / 44307.69396).
  assert (Hb : 0 < b) by (unfold b; lra).
  rewrite pow_pos_base by assumption.
  unfold Rpower.
  set (y := - (1 / 0.190284 * ln b)).
  assert (Hy : y <= 0.04776).
  { unfold y.
    pose proof (ln_le_minus_1 (1 / b)) as Hl.
    assert (Hib : 0 < 1 / b) by (apply Rdiv_lt_0_compat; lra).
    specialize (Hl Hib).
    replace (1 / b) with (/ b) in Hl by (field; lra).
    rewrite ln_Rinv in Hl by assumption.
    assert (Hc : 1 / 0.190284 * (/ b - 1) <= 0.04776).
    { unfold b. lra. }
    assert (He : 0 < 1 / 0.190284) by lra.
    nra. }
  assert (Hexp : exp y <= 1.05).
  { replace y with (y / 2 + y / 2) by lra. rewrite exp_plus.
    pose proof (exp_le_inv (y / 2)) as Hh.
    assert (Hlt : y / 2 < 1) by lra. specialize (Hh Hlt).
    pose proof (exp_pos (y / 2)) as Hp.
    assert (Hq : 1 / (1 - y / 2) <= 1.0246).
    { apply Rmult_le_reg_r with (r := 1 - y / 2); [lra |].
      replace (1 / (1 - y / 2) * (1 - y / 2)) with 1 by (field; lra). lra. }
    nra. }
  replace (1 / 0.190284 * ln b) with (- y) by (unfold y; lra).
  rewrite exp_Ropp.
  pose proof (exp_pos y) as Hp.
  assert (Hinv : / 1.05 <= / exp y).
  { apply Rinv_le_contravar; assumption. }
  lra.
Qed.

End NumericFacts.

(** ** The altitude grid and the temperature profile *)

Section GridFacts.

Import Py AltitudeEffect.

Variable c : settings.

Lemma length_Zvector : length (Zvector c) = len c.
Proof. apply length_linspace. Qed.

Lemma length_Tvector : length (Tvector c) = len c.
Proof. unfold Tvector. rewrite length_map. apply length_Zvector. Qed.

Lemma Zv_eq (z : nat) :
  (z < len c)%nat ->
  Zv c z = MinZ c + INR z * ((MaxZ c - MinZ c) / INR (len c - 1)).
Proof. intros Hz. unfold Zv, Zvector. apply nth_linspace, Hz. Qed.

Lemma Tv_eq (z : nat) :
  (z < len c)%nat -> Tv c z = Tz0 c - (Zv c z * MLR c / 1000).
Proof.
  intros Hz. unfold Tv, Tvector, Zv.
  set (f := fun z : R => Tz0 c - z * MLR c / 1000).
  rewrite (nth_indep _ 0 (f 0)) by (rewrite length_map, length_Zvector; assumption).
  rewrite map_nth. reflexivity.
Qed.

Lemma Zv_first : (1 <= len c)%nat -> Zv c 0 = MinZ c.
Proof. intros Hn. rewrite Zv_eq by lia. simpl. lra. Qed.

Lemma Zv_last : (2 <= len c)%nat -> Zv c (len c - 1) = MaxZ c.
Proof.
  intros Hn. rewrite Zv_eq by lia.
  assert (H : 0 < INR (len c - 1)) by (apply lt_0_INR; lia).
  field. lra.
Qed.

(** Consecutive samples are [(MaxZ - MinZ)/(len - 1)] apart. *)
Lemma Zv_spacing (z : nat) :
  (S z < len c)%nat ->
  Zv c (S z) - Zv c z = (MaxZ c - MinZ c) / INR (len c - 1).
Proof.
  intros Hz. rewrite !Zv_eq by lia. rewrite S_INR. lra.
Qed.

Lemma Zv_increasing (z : nat) :
  MinZ c < MaxZ c -> (S z < len c)%nat -> Zv c z < Zv c (S z).
Proof.
  intros Hm Hz. pose proof (Zv_spacing z Hz) as Hs.
  assert (H : 0 < INR (len c - 1)) by (apply lt_0_INR; lia).
  assert (Hd : 0 < (MaxZ c - MinZ c) / INR (len c - 1)).
  { apply Rdiv_lt_0_compat; lra. }
  lra.
Qed.

End GridFacts.

Section GridExamples.

Import Py AltitudeEffect.

Lemma num_default : num default = 400%Z.
Proof.
  unfold num; simpl. replace ((4000 - 0) / 10) with 400 by lra. apply int_IZR.
Qed.

Lemma len_default : len default = 400%nat.
Proof. unfold len. rewrite num_default. reflexivity. Qed.

Lemma len_pressurised : len pressurised = 400%nat.
Proof. exact len_default. Qed.

Lemma num_isothermal (p0 d18 dD : R) : num (isothermal p0 d18 dD) = 2%Z.
Proof.
  unfold num; simpl. replace ((20 - 0) / 10) with 2 by lra. apply int_IZR.
Qed.

Lemma len_isothermal (p0 d18 dD : R) : len (isothermal p0 d18 dD) = 2%nat.
Proof. unfold len. rewrite num_isothermal. reflexivity. Qed.

Lemma len_two_levels (p0 d18 : R) : len (two_levels p0 d18) = 2%nat.
Proof. apply len_isothermal. Qed.

Lemma num_low_ridge : num low_ridge = 10%Z.
Proof.
  unfold num; simpl. replace ((100 - 0) / 10) with 10 by lra. apply int_IZR.
Qed.

Lemma len_low_ridge : len low_ridge = 10%nat.
Proof. unfold len. rewrite num_low_ridge. reflexivity. Qed.

(** [int] truncates: 400.5 gives 400 where the ceiling is 401. *)
Lemma num_uneven : num uneven = 400%Z /\ ceil ((MaxZ uneven - MinZ uneven) / Zres uneven) = 401%Z.
Proof.
  unfold num, int, ceil; simpl.
  destruct (Rle_dec 0 ((4005 - 0) / 10)) as [_ | Hn]; [| lra].
  split; [apply Zfloor_eq | apply Zceil_eq]; lra.
Qed.

Lemma INR_399 : INR 399 = 399.
Proof. rewrite INR_IZR_INZ. reflexivity. Qed.

(** C9, on the script's own settings: the grid has the 400 levels of the
    claim, from 0 m to 4000 m, and its samples are 4000/399 m apart, about
    10.025 m, not the vertical resolution [Zres = 10] m: [np.linspace]
    divides the range into [num - 1] intervals, and the script passes the
    number of intervals of width [Zres] as [num]. *)
Theorem default_grid_spacing_is_not_Zres :
  length (Zvector default) = 400%nat /\
  Zv default 0 = 0 /\
  Zv default 399 = 4000 /\
  Zv default 1 - Zv default 0 = 4000 / 399 /\
  Zv default 399 - Zv default 398 = 4000 / 399 /\
  Zv default 1 - Zv default 0 <> Zres default.
Proof.
  assert (Hs : forall z, (S z < 400)%nat ->
                         Zv default (S z) - Zv default z = 4000 / 399).
  { intros z Hz. rewrite Zv_spacing by (rewrite len_default; lia).
    rewrite len_default. change (400 - 1)%nat with 399%nat. rewrite INR_399.
    simpl. lra. }
  split; [rewrite length_Zvector; apply len_default |].
  split; [rewrite Zv_first by (rewrite len_default; lia); reflexivity |].
  split.
  { pose proof (Zv_last default) as H. rewrite len_default in H.
    change (400 - 1)%nat with 399%nat in H. rewrite H by lia. reflexivity. }
  split; [apply Hs; lia |].
  split; [apply (Hs 398%nat); lia |].
  rewrite Hs by lia. simpl. lra.
Qed.

End GridExamples.

(** ** The residual vapor fraction along the grid *)

Section FractionFacts.

Import Py MetFun AltitudeEffect.

Variable c : settings.
Hypothesis Hdom : in_domain c.
Hypothesis Hlen : (1 <= len c)%nat.

Lemma saturated_dec (z : nat) : {saturated c z} + {~ saturated c z}.
Proof. unfold saturated. apply Rgt_dec. Qed.

(** A level condenses only if the vapor concentration below it exceeds the
    saturation value at the reference pressure by 5%. *)
Lemma saturated_lower_bound (z : nat) :
  saturated c z ->
  1.05 * 1e6 * SatVapPress (Tv c z) / P0 c < VC (lift_upto c (z - 1)) (z - 1).
Proof.
  unfold saturated, RH_at. intros Hs.
  destruct Hdom as (HP & _).
  pose proof (SatVapPress_pos (Tv c z)) as HS.
  set (x := VC (lift_upto c (z - 1)) (z - 1)) in *.
  apply Rmult_lt_reg_r with (r := P0 c / (1e6 * SatVapPress (Tv c z))).
  - apply Rdiv_lt_0_compat; [assumption | nra].
  - replace (1.05 * 1e6 * SatVapPress (Tv c z) / P0 c *
             (P0 c / (1e6 * SatVapPress (Tv c z)))) with 1.05 by (field; lra).
    replace (x * (P0 c / (1e6 * SatVapPress (Tv c z))))
      with (x / 1e6 * P0 c / SatVapPress (Tv c z)) by (field; lra).
    exact Hs.
Qed.

Lemma saturated_below_pos (z : nat) :
  saturated c z -> 0 < VC (lift_upto c (z - 1)) (z - 1).
Proof.
  intros Hs. pose proof (saturated_lower_bound z Hs) as H.
  destruct Hdom as (HP & _).
  pose proof (SatVapPress_pos (Tv c z)) as HS.
  assert (0 < 1.05 * 1e6 * SatVapPress (Tv c z) / P0 c).
  { apply Rdiv_lt_0_compat; [nra | assumption]. }
  lra.
Qed.

(** The fraction stored at a level is the concentration there relative to
    level 0, and a positive concentration anywhere means a positive one at
    level 0. *)
Lemma fraction_invariant (z : nat) :
  (z < len c)%nat ->
  VF (lift_upto c z) z * VC (init c) 0 = VC (lift_upto c z) z /\
  (0 < VC (lift_upto c z) z -> 0 < VC (init c) 0).
Proof.
  induction z as [| z IH]; intros Hz.
  - rewrite lift_upto_0.
    destruct (init_row_0 c Hlen) as (_ & I2 & _). rewrite I2.
    split; [lra | tauto].
  - destruct IH as (IH1 & IH2); [lia |].
    destruct (lift_row_0 c z Hlen) as (Z1 & _).
    destruct (init_row_0 c Hlen) as (Z0 & _).
    destruct (saturated_dec (S z)) as [Hs | Hs].
    + pose proof (saturated_below_pos _ Hs) as Hpos.
      destruct (level_condense c (S z)) as (_ & C2 & _); [lia | assumption |].
      replace (S z - 1)%nat with z in * by lia.
      specialize (IH2 Hpos).
      rewrite C2, Z1, <- Z0.
      split; [field; lra | intros _; assumption].
    + destruct (level_carry c (S z)) as (C1 & C2 & _); [lia | assumption |].
      replace (S z - 1)%nat with z in * by lia.
      rewrite C1, C2. split; assumption.
Qed.

(** One level up, the fraction does not grow, as long as the pressure at the
    level index is at least [P0/1.05]. *)
Lemma fraction_step (z : nat) :
  (S z < len c)%nat ->
  P0 c <= 1.05 * m2hPa (INR (S z)) ->
  VF (lift_upto c (S z)) (S z) <= VF (lift_upto c z) z.
Proof.
  intros Hz HP.
  destruct (saturated_dec (S z)) as [Hs | Hs].
  - pose proof (saturated_below_pos _ Hs) as Hpos.
    pose proof (saturated_lower_bound _ Hs) as Hlow.
    destruct (level_condense c (S z)) as (C1 & _); [lia | assumption |].
    replace (S z - 1)%nat with z in * by lia.
    destruct (fraction_invariant z) as (I1 & I2); [lia |].
    destruct (fraction_invariant (S z)) as (J1 & _); [lia |].
    specialize (I2 Hpos).
    destruct Hdom as (HP0 & _ & _ & Hidx & _).
    pose proof (SatVapPress_pos (Tv c (S z))) as HS.
    assert (Hm : 0 < m2hPa (INR (S z))).
    { apply m2hPa_pos. apply Rle_lt_trans with (r2 := INR (len c)); [| assumption].
      apply le_INR. lia. }
    assert (Hvc : VC (lift_upto c (S z)) (S z) <= VC (lift_upto c z) z).
    { rewrite C1. apply Rlt_le. eapply Rle_lt_trans; [| exact Hlow].
      apply Rmult_le_reg_r with (r := m2hPa (INR (S z)) * P0 c); [nra |].
      replace (1e6 * SatVapPress (Tv c (S z)) / m2hPa (INR (S z)) *
               (m2hPa (INR (S z)) * P0 c))
        with (1e6 * SatVapPress (Tv c (S z)) * P0 c) by (field; lra).
      replace (1.05 * 1e6 * SatVapPress (Tv c (S z)) / P0 c *
               (m2hPa (INR (S z)) * P0 c))
        with (1e6 * SatVapPress (Tv c (S z)) * (1.05 * m2hPa (INR (S z))))
        by (field; lra).
      apply Rmult_le_compat_l; [nra | exact HP]. }
    apply Rmult_le_reg_r with (r := VC (init c) 0); [assumption |].
    rewrite I1, J1. exact Hvc.
  - destruct (level_carry c (S z)) as (_ & C2 & _); [lia | assumption |].
    replace (S z - 1)%nat with z in * by lia.
    rewrite C2. lra.
Qed.

End FractionFacts.

Section FractionClaim.

Import Py MetFun AltitudeEffect.

(** C2, amended: when the reference pressure [P0] is at most 1.05 times the
    pressure [m2hPa] gives for the index of the top level, the residual vapor
    fraction is 1 at level 0 and does not increase from any level to the
    next. *)
Theorem vapor_fraction_non_increasing (c : settings) :
  in_domain c -> (1 <= len c)%nat ->
  P0 c <= 1.05 * m2hPa (INR (len c - 1)) ->
  VF (lift c) 0 = 1 /\
  forall z, (1 <= z < len c)%nat -> VF (lift c) z <= VF (lift c) (z - 1).
Proof.
  intros Hdom Hlen HP. split.
  - unfold lift. apply (lift_row_0 c (len c - 1) Hlen).
  - intros z Hz.
    destruct (lift_at c z) as (_ & A2 & _); [lia |].
    destruct (lift_at c (z - 1)) as (_ & B2 & _); [lia |].
    rewrite A2, B2.
    destruct z as [| k]; [lia |].
    replace (S k - 1)%nat with k by lia.
    apply fraction_step; try assumption; [lia |].
    eapply Rle_trans; [exact HP |].
    apply Rmult_le_compat_l; [lra |].
    destruct (Nat.eq_dec (S k) (len c - 1)) as [-> | Hne]; [lra |].
    apply Rlt_le, m2hPa_decreasing.
    + apply lt_INR. lia.
    + destruct Hdom as (_ & _ & _ & Hidx & _).
      apply Rlt_trans with (r2 := INR (len c)); [apply lt_INR; lia | assumption].
Qed.

End FractionClaim.

(** ** The script's settings *)

Section DefaultFacts.

Import Py MetFun AltitudeEffect.

Lemma Zv_default (z : nat) :
  (z < 400)%nat -> Zv default z = INR z * (4000 / 399).
Proof.
  intros Hz. rewrite Zv_eq by (rewrite len_default; assumption).
  rewrite len_default. change (400 - 1)%nat with 399%nat. rewrite INR_399.
  simpl. lra.
Qed.

Lemma Tv_default (z : nat) :
  (z < 400)%nat -> Tv default z = 20 - INR z * (4000 / 399) * 5 / 1000.
Proof.
  intros Hz. rewrite Tv_eq by (rewrite len_default; assumption).
  rewrite Zv_default by assumption. simpl. lra.
Qed.

Lemma INR_lt_400 (z : nat) : (z < 400)%nat -> 0 <= INR z <= 399.
Proof.
  intros Hz. split; [apply pos_INR |].
  rewrite <- INR_399. apply le_INR. lia.
Qed.

(** Between the base and the top the temperature stays in [0, 20]. *)
Lemma Tv_default_range (z : nat) : (z < 400)%nat -> 0 <= Tv default z <= 20.
Proof.
  intros Hz. rewrite Tv_default by assumption.
  pose proof (INR_lt_400 z Hz). lra.
Qed.

Lemma in_domain_default : in_domain default.
Proof.
  unfold in_domain. rewrite len_default.
  split; [simpl; lra |]. split; [simpl; lra |]. split; [simpl; lra |]. split.
  - rewrite INR_IZR_INZ. simpl. lra.
  - intros z Hz. pose proof (Tv_default_range z Hz). lra.
Qed.

Lemma in_domain_pressurised : in_domain pressurised.
Proof.
  unfold in_domain. rewrite len_pressurised.
  split; [simpl; lra |]. split; [simpl; lra |]. split; [simpl; lra |]. split.
  - rewrite INR_IZR_INZ. simpl. lra.
  - intros z Hz. change (Tv pressurised z) with (Tv default z).
    pose proof (Tv_default_range z Hz). lra.
Qed.

Lemma vapor_fraction_non_increasing_witness :
  VF (lift default) 0 = 1 /\
  forall z, (1 <= z < len default)%nat ->
            VF (lift default) z <= VF (lift default) (z - 1).
Proof.
  apply (vapor_fraction_non_increasing default).
  - exact in_domain_default.
  - rewrite len_default. lia.
  - rewrite len_default. change (400 - 1)%nat with 399%nat. rewrite INR_399.
    exact m2hPa_399.
Defined.

Lemma Tv_pressurised_1 : Tv pressurised 1 = 20 - 1 * (4000 / 399) * 5 / 1000.
Proof.
  change (Tv pressurised 1) with (Tv default 1).
  rewrite Tv_default by lia. reflexivity.
Qed.

Lemma pressurised_level_1_saturated : saturated pressurised 1.
Proof.
  unfold saturated, RH_at. change (1 - 1)%nat with 0%nat. rewrite lift_upto_0.
  destruct (init_row_0 pressurised) as (I1 & _); [rewrite len_pressurised; lia |].
  rewrite I1, Tv_pressurised_1. simpl.
  set (T1 := 20 - 1 * (4000 / 399) * 5 / 1000).
  pose proof (SatVapPress_pos T1) as HS1.
  pose proof (SatVapPress_pos 20) as HS.
  replace (1e6 * 1.06 * SatVapPress 20 / 1100 / 1e6 * 1100 / SatVapPress T1)
    with (1.06 * (SatVapPress 20 / SatVapPress T1)) by (field; lra).
  rewrite SatVapPress_ratio.
  assert (Hg : 0 <= buck_exponent 20 - buck_exponent T1).
  { unfold buck_exponent, T1. lra. }
  pose proof (exp_ineq1_le (buck_exponent 20 - buck_exponent T1)).
  lra.
Qed.

(** C2, as claimed, fails for other settings than the script's: with
    [P0 = 1100] and [RH0 = 1.06] level 1 condenses and its vapor fraction is
    above the 1 of level 0. *)
Lemma pressurised_fraction_increases :
  in_domain pressurised /\
  VF (lift pressurised) 0 = 1 /\
  1 < VF (lift pressurised) 1 /\
  ~ VF (lift pressurised) 1 <= VF (lift pressurised) (1 - 1).
Proof.
  assert (Hlen : (1 <= len pressurised)%nat) by (rewrite len_pressurised; lia).
  assert (H0 : VF (lift pressurised) 0 = 1).
  { unfold lift. apply (lift_row_0 pressurised _ Hlen). }
  assert (H1 : 1 < VF (lift pressurised) 1).
  { destruct (lift_at pressurised 1) as (_ & A2 & _); [rewrite len_pressurised; lia |].
    rewrite A2.
    destruct (level_condense pressurised 1) as (C1 & C2 & _);
      [rewrite len_pressurised; lia | exact pressurised_level_1_saturated |].
    change (1 - 1)%nat with 0%nat in C2. rewrite lift_upto_0 in C2.
    destruct (init_row_0 pressurised Hlen) as (I1 & _).
    rewrite C2, C1, I1, Tv_pressurised_1. simpl.
    set (T1 := 20 - 1 * (4000 / 399) * 5 / 1000).
    pose proof (SatVapPress_pos T1) as HS1.
    pose proof (SatVapPress_pos 20) as HS.
    assert (Hm0 : 0 < m2hPa 1) by (apply m2hPa_pos; lra).
    assert (Hm1 : m2hPa 1 < 1013.25) by (apply m2hPa_lt_ref; lra).
    replace (1e6 * SatVapPress T1 / m2hPa 1 / (1e6 * 1.06 * SatVapPress 20 / 1100))
      with (1100 / 1.06 * (SatVapPress T1 / SatVapPress 20) / m2hPa 1)
      by (field; lra).
    rewrite SatVapPress_ratio.
    assert (Hg : -0.01 <= buck_exponent T1 - buck_exponent 20).
    { unfold buck_exponent, T1. lra. }
    pose proof (exp_ineq1_le (buck_exponent T1 - buck_exponent 20)) as He.
    apply Rmult_lt_reg_r with (r := m2hPa 1); [assumption |].
    replace (1100 / 1.06 * exp (buck_exponent T1 - buck_exponent 20) / m2hPa 1 * m2hPa 1)
      with (1100 / 1.06 * exp (buck_exponent T1 - buck_exponent 20)) by (field; lra).
    lra. }
  split; [exact in_domain_pressurised |].
  split; [exact H0 |]. split; [exact H1 |].
  change (1 - 1)%nat with 0%nat. rewrite H0. lra.
Qed.

End DefaultFacts.

(** ** The cleaning loop *)

Section CleanFacts.

Import Py AltitudeEffect.

Lemma nth_error_in_range {A : Type} (l : list A) (i : nat) (d : A) :
  (i < length l)%nat -> nth_error l i = Some (nth i l d).
Proof.
  revert i. induction l as [| h t IH]; intros [| i] Hi; simpl in *; try lia.
  - reflexivity.
  - apply IH. lia.
Qed.

(** The loop stops at the first row whose d18O is not zero, having
    overwritten the rows before it and no other. *)
Lemma clean_stops (fuel : nat) :
  forall (a : list (fval * fval)) (i f : nat),
    (i <= f < length a)%nat ->
    (forall j, (i <= j < f)%nat -> eq0 (fst (nth j a (Fin 0, Fin 0))) = true) ->
    eq0 (fst (nth f a (Fin 0, Fin 0))) = false ->
    (f - i < fuel)%nat ->
    exists a',
      clean fuel a i = Done (a', f) /\
      length a' = length a /\
      (forall j, (i <= j < f)%nat -> nth j a' (Fin 0, Fin 0) = (NaN, NaN)) /\
      (forall j, (j < i \/ f <= j)%nat -> nth j a' (Fin 0, Fin 0) = nth j a (Fin 0, Fin 0)).
Proof.
  induction fuel as [| fuel IH]; intros a i f Hif Hzero Hstop Hfuel; [lia |].
  simpl. rewrite (nth_error_in_range a i (Fin 0, Fin 0)) by lia.
  destruct (nth i a (Fin 0, Fin 0)) as [d18 d2] eqn:Hrow.
  destruct (Nat.eq_dec i f) as [-> | Hne].
  - rewrite Hrow in Hstop. simpl in Hstop. rewrite Hstop.
    exists a. split; [reflexivity |]. split; [reflexivity |].
    split; [intros j Hj; lia | intros j Hj; reflexivity].
  - assert (Hz : eq0 d18 = true).
    { specialize (Hzero i). rewrite Hrow in Hzero. apply Hzero. lia. }
    rewrite Hz.
    destruct (IH (upd a i (NaN, NaN)) (S i) f) as (a' & Hrun & Hlen & Hnan & Hkeep).
    + rewrite length_upd. lia.
    + intros j Hj. rewrite nth_upd_other by lia. apply Hzero. lia.
    + rewrite nth_upd_other by lia. exact Hstop.
    + lia.
    + exists a'. split; [exact Hrun |]. split; [rewrite Hlen; apply length_upd |].
      split.
      * intros j Hj. destruct (Nat.eq_dec j i) as [-> | Hji].
        -- rewrite Hkeep by lia. apply nth_upd_same. lia.
        -- apply Hnan. lia.
      * intros j Hj. rewrite Hkeep by lia. apply nth_upd_other. lia.
Qed.

(** When every remaining row has a zero d18O the loop reads past the last
    row. *)
Lemma clean_overrun (fuel : nat) :
  forall (a : list (fval * fval)) (i : nat),
    (i <= length a)%nat ->
    (forall j, (i <= j < length a)%nat -> eq0 (fst (nth j a (Fin 0, Fin 0))) = true) ->
    (length a - i < fuel)%nat ->
    clean fuel a i = Raise IndexError.
Proof.
  induction fuel as [| fuel IH]; intros a i Hi Hzero Hfuel; [lia |].
  simpl. destruct (Nat.eq_dec i (length a)) as [-> | Hne].
  - assert (H : nth_error a (length a) = None) by (apply nth_error_None; lia).
    rewrite H. reflexivity.
  - rewrite (nth_error_in_range a i (Fin 0, Fin 0)) by lia.
    destruct (nth i a (Fin 0, Fin 0)) as [d18 d2] eqn:Hrow.
    assert (Hz : eq0 d18 = true).
    { specialize (Hzero i). rewrite Hrow in Hzero. apply Hzero. lia. }
    rewrite Hz. apply IH.
    + rewrite length_upd. lia.
    + rewrite length_upd. intros j Hj. rewrite nth_upd_other by lia.
      apply Hzero. lia.
    + rewrite length_upd. lia.
Qed.

Variable c : settings.

Lemma run_unfold :
  guards_pass c ->
  run c =
    match clean (S (length (PrecComposition (lift c)))) (PrecComposition (lift c)) 0 with
    | Done (a, i) => Done (with_PrecComposition (lift c) a, i)
    | Raise e => Raise e
    | OutOfFuel => OutOfFuel
    end.
Proof.
  intros (G1 & G2 & G3 & G4). unfold run.
  destruct (Req_dec_T (Zres c) 0) as [E | _]; [contradiction |].
  assert (Hnum : (1 <= num c)%Z) by (unfold len in G4; lia).
  destruct (num c <? 0)%Z eqn:E1; [apply Z.ltb_lt in E1; lia |].
  destruct (Req_dec_T (257.14 + Tz0 c) 0) as [E | _]; [contradiction |].
  destruct (Req_dec_T (P0 c) 0) as [E | _]; [contradiction |].
  destruct (num c =? 0)%Z eqn:E2; [apply Z.eqb_eq in E2; lia |].
  reflexivity.
Qed.

Lemma length_Prec_lift : length (PrecComposition (lift c)) = len c.
Proof.
  unfold lift. destruct (rows_lift_upto c (len c - 1)) as (_ & _ & _ & H & _).
  exact H.
Qed.

(** The run ends normally when some row of the precipitation array has a
    non-zero d18O; [i] is the first such row, the rows before it hold [nan]
    and the other rows are those of the loop. *)
Lemma run_done (f : nat) :
  guards_pass c -> (f < len c)%nat ->
  (forall j, (j < f)%nat -> eq0 (fst (Prec (lift c) j)) = true) ->
  eq0 (fst (Prec (lift c) f)) = false ->
  exists p,
    run c = Done (p, f) /\
    (forall j, (j < f)%nat -> Prec p j = (NaN, NaN)) /\
    (forall j, (f <= j)%nat -> Prec p j = Prec (lift c) j) /\
    VaporFraction p = VaporFraction (lift c) /\
    VaporConcentration p = VaporConcentration (lift c) /\
    VaporComposition p = VaporComposition (lift c).
Proof.
  intros HG Hf Hzero Hstop. rewrite (run_unfold HG).
  destruct (clean_stops (S (length (PrecComposition (lift c))))
              (PrecComposition (lift c)) 0 f) as (a' & Hrun & Hlen & Hnan & Hkeep).
  - rewrite length_Prec_lift. lia.
  - intros j Hj. apply Hzero. lia.
  - exact Hstop.
  - rewrite length_Prec_lift. lia.
  - rewrite Hrun. eexists. split; [reflexivity |].
    unfold Prec, with_PrecComposition; simpl.
    repeat split.
    + intros j Hj. apply Hnan. lia.
    + intros j Hj. apply Hkeep. lia.
Qed.

(** The run raises [IndexError] when every row has a zero d18O. *)
Lemma run_overrun :
  guards_pass c ->
  (forall j, (j < len c)%nat -> eq0 (fst (Prec (lift c) j)) = true) ->
  run c = Raise IndexError.
Proof.
  intros HG Hzero. rewrite (run_unfold HG).
  rewrite clean_overrun; [reflexivity | lia | | lia].
  rewrite length_Prec_lift. intros j Hj. apply Hzero. lia.
Qed.

End CleanFacts.

(** ** The precipitation composition *)

Section PrecipitationFacts.

Import Py MetFun AltitudeEffect.

Variable c : settings.
Hypothesis Hlen : (1 <= len c)%nat.

(** Below the first condensation every row repeats the initial conditions. *)
Lemma carry_prefix (k : nat) :
  (k < len c)%nat ->
  (forall z, (1 <= z <= k)%nat -> ~ saturated c z) ->
  VC (lift_upto c k) k = VC (init c) 0 /\
  VF (lift_upto c k) k = 1 /\
  VComp (lift_upto c k) k = (d18O0 c, dD0 c) /\
  Prec (lift_upto c k) k = (Fin 0, Fin 0).
Proof.
  induction k as [| k IH]; intros Hk Hdry.
  - rewrite lift_upto_0.
    destruct (init_row_0 c Hlen) as (_ & I2 & I3 & I4 & _).
    repeat split; assumption.
  - destruct IH as (I1 & I2 & I3 & I4); [lia | intros z Hz; apply Hdry; lia |].
    destruct (level_carry c (S k)) as (C1 & C2 & C3 & C4);
      [lia | apply Hdry; lia |].
    replace (S k - 1)%nat with k in * by lia.
    rewrite C1, C2, C3, C4. repeat split; assumption.
Qed.

(** While nothing has condensed, the humidity computed at a level is the
    initial one scaled by the ratio of the saturation pressures. *)
Lemma RH_at_before_condensation (z : nat) :
  P0 c <> 0 -> (1 <= z < len c)%nat ->
  (forall j, (1 <= j < z)%nat -> ~ saturated c j) ->
  RH_at c (lift_upto c (z - 1)) z =
    RH0 c * (SatVapPress (Tz0 c) / SatVapPress (Tv c z)).
Proof.
  intros HP Hz Hdry. unfold RH_at.
  destruct (carry_prefix (z - 1)) as (I1 & _);
    [lia | intros j Hj; apply Hdry; lia |].
  destruct (init_row_0 c Hlen) as (Z0 & _).
  rewrite I1, Z0.
  pose proof (SatVapPress_pos (Tv c z)) as HS.
  field. split; lra.
Qed.

Lemma never_saturated :
  P0 c <> 0 ->
  (forall z, (1 <= z < len c)%nat ->
             RH0 c * (SatVapPress (Tz0 c) / SatVapPress (Tv c z)) <= 1.05) ->
  forall z, (1 <= z < len c)%nat -> ~ saturated c z.
Proof.
  intros HP Hlow z. induction z as [z IH] using lt_wf_ind. intros Hz Hs.
  unfold saturated in Hs.
  rewrite RH_at_before_condensation in Hs; try assumption.
  - specialize (Hlow z Hz). lra.
  - intros j Hj. apply IH; lia.
Qed.

(** Below any level, either nothing condenses or some level does. *)
Lemma saturated_below_dec (k : nat) :
  (forall z, (1 <= z < k)%nat -> ~ saturated c z) \/
  exists z, (1 <= z < k)%nat /\ saturated c z.
Proof.
  induction k as [| k IHk]; [left; intros z Hz; lia |].
  destruct IHk as [Hnone | (z & Hz & Hsz)].
  - destruct (Nat.eq_dec k 0) as [-> | Hk0]; [left; intros z Hz; lia |].
    destruct (saturated_dec c k) as [Hsk | Hsk].
    + right. exists k. split; [lia | assumption].
    + left. intros z Hz. destruct (Nat.eq_dec z k) as [-> | Hne];
        [assumption | apply Hnone; lia].
  - right. exists z. split; [lia | assumption].
Qed.

(** A first level of condensation exists as soon as some level condenses. *)
Lemma first_saturated (k : nat) :
  (1 <= k)%nat -> saturated c k ->
  exists f, (1 <= f <= k)%nat /\ saturated c f /\
            forall z, (1 <= z < f)%nat -> ~ saturated c z.
Proof.
  induction k as [k IH] using lt_wf_ind. intros Hk Hs.
  destruct (saturated_below_dec k) as [Hnone | (z & Hz & Hsz)].
  - exists k. repeat split; try lia; assumption.
  - destruct (IH z) as (f & Hf & Hsf & Hmin); [lia | lia | assumption |].
    exists f. repeat split; try lia; assumption.
Qed.

(** From the first condensation on, every row of the precipitation array
    holds finite numbers, provided no condensing level repeats the vapor
    fraction of the level below. *)
Lemma finite_from_first (f : nat) :
  (1 <= f < len c)%nat -> saturated c f ->
  (forall z, (f <= z < len c)%nat -> saturated c z ->
             VF (lift_upto c (z - 1)) (z - 1) <> VF (lift_upto c z) z) ->
  forall z, (f <= z < len c)%nat ->
    is_finite (fst (Prec (lift_upto c z) z)) /\
    is_finite (snd (Prec (lift_upto c z) z)).
Proof.
  intros Hf Hsf Hnd z. induction z as [| z IH]; intros Hz; [lia |].
  destruct (saturated_dec c (S z)) as [Hs | Hs].
  - destruct (level_condense c (S z)) as (_ & _ & _ & C4); [lia | assumption |].
    specialize (Hnd (S z) Hz Hs).
    replace (S z - 1)%nat with z in * by lia.
    rewrite C4. unfold mass_balance, fst, snd.
    rewrite !np_div_finite by (intros E; apply Hnd; lra).
    split; eexists; reflexivity.
  - destruct (level_carry c (S z)) as (_ & _ & _ & C4); [lia | assumption |].
    replace (S z - 1)%nat with z in * by lia.
    rewrite C4. apply IH.
    destruct (Nat.eq_dec f (S z)) as [-> | Hne]; [contradiction | lia].
Qed.

End PrecipitationFacts.

Section PrecipitationClaims.

Import Py MetFun AltitudeEffect.

Lemma eq0_zero : eq0 (Fin 0) = true.
Proof. simpl. destruct (Req_dec_T 0 0); [reflexivity | contradiction]. Qed.

Lemma eq0_Fin_nonzero (x : R) : x <> 0 -> eq0 (Fin x) = false.
Proof. intros Hx. simpl. destruct (Req_dec_T x 0); [contradiction | reflexivity]. Qed.


(** The rows of the finished loop below the first condensation. *)
Lemma lift_before_first (c : settings) (f z : nat) :
  (1 <= len c)%nat -> (z < f)%nat -> (f <= len c)%nat ->
  (forall j, (1 <= j < f)%nat -> ~ saturated c j) ->
  VC (lift c) z = VC (init c) 0 /\
  VF (lift c) z = 1 /\
  VComp (lift c) z = (d18O0 c, dD0 c) /\
  Prec (lift c) z = (Fin 0, Fin 0).
Proof.
  intros Hlen Hz Hf Hdry.
  destruct (lift_at c z) as (A1 & A2 & A3 & A4 & _); [lia |].
  rewrite A1, A2, A3, A4.
  apply carry_prefix; [assumption | lia |].
  intros j Hj. apply Hdry. lia.
Qed.





(** C10: when no level ever condenses, every row of the precipitation array
    still holds the allocation zeros after the loop, and the cleaning loop
    reads past the last row: the run raises [IndexError]. *)
Theorem run_without_condensation_raises_IndexError (c : settings) :
  in_domain c -> guards_pass c ->
  (forall z, (1 <= z < len c)%nat -> ~ saturated c z) ->
  (forall z, (z < len c)%nat -> Prec (lift c) z = (Fin 0, Fin 0)) /\
  run c = Raise IndexError.
Proof.
  intros _ HG Hdry.
  assert (Hlen : (1 <= len c)%nat) by (destruct HG as (_ & _ & _ & H); exact H).
  assert (Hzero : forall z, (z < len c)%nat -> Prec (lift c) z = (Fin 0, Fin 0)).
  { intros z Hz.
    destruct (lift_before_first c (len c) z) as (_ & _ & _ & B4); try lia.
    - intros j Hj. apply Hdry. lia.
    - exact B4. }
  split; [exact Hzero |].
  apply run_overrun; [assumption |].
  intros j Hj. rewrite Hzero by assumption. apply eq0_zero.
Qed.

End PrecipitationClaims.

(** ** Two levels of an isothermal column *)

Section Isothermal.

Import Py MetFun EqFracFact AltitudeEffect.

Variables p0 d18 dD : R.
Hypothesis Hp0 : 0 < p0.

Lemma Tv_isothermal (z : nat) : (z < 2)%nat -> Tv (isothermal p0 d18 dD) z = 20.
Proof.
  intros Hz. rewrite Tv_eq by (rewrite len_isothermal; assumption).
  simpl. lra.
Qed.

Lemma in_domain_isothermal : in_domain (isothermal p0 d18 dD).
Proof.
  unfold in_domain. rewrite len_isothermal.
  split; [exact Hp0 |]. split; [simpl; lra |]. split; [simpl; lra |]. split.
  - simpl. lra.
  - intros z Hz. rewrite Tv_isothermal by assumption. lra.
Qed.

Lemma guards_pass_isothermal : guards_pass (isothermal p0 d18 dD).
Proof.
  unfold guards_pass. rewrite len_isothermal. simpl.
  repeat split; try lra. lia.
Qed.

Lemma isothermal_saturated_1 : saturated (isothermal p0 d18 dD) 1.
Proof.
  unfold saturated.
  rewrite RH_at_before_condensation.
  - rewrite Tv_isothermal by lia. simpl.
    pose proof (SatVapPress_pos 20) as HS.
    replace (SatVapPress 20 / SatVapPress 20) with 1 by (field; lra). lra.
  - rewrite len_isothermal. lia.
  - simpl. lra.
  - rewrite len_isothermal. lia.
  - intros j Hj. lia.
Qed.

(** Level 1 condenses; its vapor fraction is [P0 / (2 * m2hPa 1)]. *)
Lemma isothermal_row_1 :
  let c := isothermal p0 d18 dD in
  VF (lift c) 0 = 1 /\
  VComp (lift c) 0 = (d18, dD) /\
  VF (lift c) 1 = p0 / (2 * m2hPa 1) /\
  VComp (lift c) 1 =
    ((R1816_0_VAP c * pow (VF (lift c) 1) (alpha18 20 - 1) / VSMOW1816 c - 1) * 1e3,
     (R21_0_VAP c * pow (VF (lift c) 1) (alpha18 20 - 1) / VSMOW21 c - 1) * 1e3) /\
  Prec (lift c) 1 =
    (mass_balance 1 d18 (VF (lift c) 1) (fst (VComp (lift c) 1)),
     mass_balance 1 dD (VF (lift c) 1) (snd (VComp (lift c) 1))).
Proof.
  intros c.
  assert (Hlen : (1 <= len c)%nat) by (unfold c; rewrite len_isothermal; lia).
  destruct (lift_at c 0) as (_ & Z2 & Z3 & _);
    [unfold c; rewrite len_isothermal; lia |].
  destruct (lift_at c 1) as (_ & A2 & A3 & A4 & _);
    [unfold c; rewrite len_isothermal; lia |].
  destruct (level_condense c 1) as (C1 & C2 & C3 & C4);
    [unfold c; rewrite len_isothermal; lia | apply isothermal_saturated_1 |].
  change (1 - 1)%nat with 0%nat in *. rewrite lift_upto_0 in *.
  destruct (init_row_0 c Hlen) as (I1 & I2 & I3 & _).
  rewrite Z2, Z3, A2, A3, A4, I2, I3.
  assert (HVF : VF (lift_upto c 1) 1 = p0 / (2 * m2hPa 1)).
  { rewrite C2, C1, I1. unfold c at 2 3 4. rewrite Tv_isothermal by lia. simpl.
    pose proof (SatVapPress_pos 20) as HS.
    assert (Hm : 0 < m2hPa 1) by (apply m2hPa_pos; lra).
    field. repeat split; lra. }
  split; [reflexivity |]. split; [reflexivity |]. split; [exact HVF |].
  rewrite C4, I2, I3. split; [| reflexivity].
  rewrite C3. unfold R1816_VAP, R21_VAP.
  unfold c at 3 7. rewrite Tv_isothermal by lia. reflexivity.
Qed.

End Isothermal.

Section TwoLevels.

Import Py MetFun EqFracFact AltitudeEffect.

Variables p0 d18 : R.
Hypothesis Hp0 : 0 < p0.

Lemma Tv_two_levels (z : nat) : (z < 2)%nat -> Tv (two_levels p0 d18) z = 20.
Proof. apply Tv_isothermal. Qed.

Lemma in_domain_two_levels : in_domain (two_levels p0 d18).
Proof. apply in_domain_isothermal, Hp0. Qed.

Lemma guards_pass_two_levels : guards_pass (two_levels p0 d18).
Proof. apply guards_pass_isothermal, Hp0. Qed.

Lemma two_levels_saturated_1 : saturated (two_levels p0 d18) 1.
Proof. apply isothermal_saturated_1, Hp0. Qed.

(** Level 1 condenses; its vapor fraction is [P0 / (2 * m2hPa 1)]. *)
Lemma two_levels_row_1 :
  let c := two_levels p0 d18 in
  VF (lift c) 0 = 1 /\
  VComp (lift c) 0 = (d18, 10 + 8 * d18) /\
  VF (lift c) 1 = p0 / (2 * m2hPa 1) /\
  VComp (lift c) 1 =
    ((R1816_0_VAP c * pow (VF (lift c) 1) (alpha18 20 - 1) / VSMOW1816 c - 1) * 1e3,
     (R21_0_VAP c * pow (VF (lift c) 1) (alpha18 20 - 1) / VSMOW21 c - 1) * 1e3) /\
  Prec (lift c) 1 =
    (mass_balance 1 d18 (VF (lift c) 1) (fst (VComp (lift c) 1)),
     mass_balance 1 (10 + 8 * d18) (VF (lift c) 1) (snd (VComp (lift c) 1))).
Proof. exact (isothermal_row_1 p0 d18 (10 + 8 * d18) Hp0). Qed.

End TwoLevels.

Section TwoLevelsExamples.

Import Py MetFun EqFracFact AltitudeEffect.

Lemma ln_ge (t : R) : 0 < t -> 1 - 1 / t <= ln t.
Proof.
  intros Ht.
  assert (Hi : 0 < / t) by (apply Rinv_0_lt_compat; assumption).
  pose proof (ln_le_minus_1 (/ t) Hi) as H.
  rewrite ln_Rinv in H by assumption.
  unfold Rdiv. lra.
Qed.

(** A lower bound on the pressure one index above the base. *)
Lemma m2hPa_1_bounds : 1013 <= m2hPa 1 < 1013.25.
Proof.
  split; [| apply m2hPa_lt_ref; lra].
  unfold m2hPa.
  set (b := 1 - 1 / 44307.69396).
  assert (Hb : 0 < b) by (unfold b; lra).
  rewrite pow_pos_base by assumption. unfold Rpower.
  pose proof (ln_ge b Hb) as Hl.
  assert (Hc : -0.00003 <= 1 - 1 / b) by (unfold b; lra).
  pose proof (exp_ineq1_le (1 / 0.190284 * ln b)) as He.
  assert (Hk : 1 / 0.190284 <= 6) by lra.
  assert (Hk0 : 0 < 1 / 0.190284) by lra.
  assert (Hprod : -0.00018 <= 1 / 0.190284 * ln b) by nra.
  lra.
Qed.


Lemma lift_isothermal (p0 d18 dD : R) :
  lift (isothermal p0 d18 dD) =
  step (isothermal p0 d18 dD) (init (isothermal p0 d18 dD)) 1.
Proof. unfold lift. rewrite len_isothermal. reflexivity. Qed.

Lemma lift_two_levels (p0 d18 : R) :
  lift (two_levels p0 d18) =
  step (two_levels p0 d18) (init (two_levels p0 d18)) 1.
Proof. apply lift_isothermal. Qed.




End TwoLevelsExamples.

(** ** A column whose level 1 condenses with a smaller vapor fraction *)

Section CondensingColumn.

Import Py MetFun EqFracFact AltitudeEffect.

Lemma alpha18_20_bounds : 0 < alpha18 20 - 1 <= 0.0099.
Proof.
  unfold alpha18.
  destruct (Rge_dec (20 + 273.15) 268.16) as [_ | Hn]; [| lra].
  unfold majoube18.
  set (q := 1137 / (20 + 273.15) ^ 2 - 0.4156 / (20 + 273.15) - 0.0020667).
  assert (Hq : 0.0097 <= q <= 0.0098) by (unfold q; lra).
  pose proof (exp_ineq1_le q) as Hlo.
  pose proof (exp_le_inv q) as Hhi.
  assert (Hlt : q < 1) by lra. specialize (Hhi Hlt).
  assert (Hinv : 1 / (1 - q) <= 1.0099).
  { apply Rmult_le_reg_r with (r := 1 - q); [lra |].
    replace (1 / (1 - q) * (1 - q)) with 1 by (field; lra). lra. }
  lra.
Qed.

(** A small positive exponent moves a base in [1/2, 1) by little. *)
Lemma pow_small_exponent (x y : R) :
  0.5 <= x < 1 -> 0 < y -> 1 - y <= pow x y < 1.
Proof.
  intros Hx Hy. split; [| apply pow_lt_1; lra].
  rewrite pow_pos_base by lra. unfold Rpower.
  pose proof (ln_ge x) as Hl.
  assert (Hx0 : 0 < x) by lra. specialize (Hl Hx0).
  assert (Hi : 1 / x <= 2).
  { apply Rmult_le_reg_r with (r := x); [lra |].
    replace (1 / x * x) with 1 by (field; lra). lra. }
  pose proof (exp_ineq1_le (y * ln x)) as He.
  assert (Hprod : - y <= y * ln x) by nra.
  lra.
Qed.

Lemma condensing_fraction_bounds :
  0.5 < VF (lift (two_levels 1013.25 (-12))) 1 <= 0.5002.
Proof.
  assert (Hp : 0 < 1013.25) by lra.
  destruct (two_levels_row_1 1013.25 (-12) Hp) as (_ & _ & R3 & _).
  rewrite R3. pose proof m2hPa_1_bounds as Hm.
  split.
  - apply Rmult_lt_reg_r with (r := 2 * m2hPa 1); [lra |].
    replace (1013.25 / (2 * m2hPa 1) * (2 * m2hPa 1)) with 1013.25 by (field; lra).
    lra.
  - apply Rmult_le_reg_r with (r := 2 * m2hPa 1); [lra |].
    replace (1013.25 / (2 * m2hPa 1) * (2 * m2hPa 1)) with 1013.25 by (field; lra).
    lra.
Qed.

Lemma condensing_composition_bounds :
  -21.8 <= fst (VComp (lift (two_levels 1013.25 (-12))) 1) < -12.
Proof.
  assert (Hp : 0 < 1013.25) by lra.
  destruct (two_levels_row_1 1013.25 (-12) Hp) as (_ & _ & _ & R4 & _).
  pose proof condensing_fraction_bounds as HF.
  pose proof alpha18_20_bounds as HA.
  rewrite R4. unfold fst.
  pose proof (pow_small_exponent
                (VF (lift (two_levels 1013.25 (-12))) 1) (alpha18 20 - 1)) as HP.
  assert (Hx : 0.5 <= VF (lift (two_levels 1013.25 (-12))) 1 < 1) by lra.
  specialize (HP Hx (proj1 HA)).
  set (w := pow (VF (lift (two_levels 1013.25 (-12))) 1) (alpha18 20 - 1)) in *.
  unfold R1816_0_VAP; simpl.
  replace (((-12 * 1e-3 + 1) * (2005.20 * 1e-6) * w / (2005.20 * 1e-6) - 1) * 1e3)
    with ((0.988 * w - 1) * 1000) by lra.
  lra.
Qed.


End CondensingColumn.

(** ** The first 100 m of the script's column *)

Section LowRidge.

Import Py MetFun AltitudeEffect.

Lemma Tv_low_ridge (z : nat) :
  (z < 10)%nat -> 19.5 <= Tv low_ridge z <= 20.
Proof.
  intros Hz.
  rewrite Tv_eq by (rewrite len_low_ridge; assumption).
  rewrite Zv_eq by (rewrite len_low_ridge; assumption).
  rewrite len_low_ridge. change (10 - 1)%nat with 9%nat.
  assert (H9 : INR 9 = 9) by (rewrite INR_IZR_INZ; reflexivity).
  rewrite H9. simpl MLR; simpl MinZ; simpl MaxZ; simpl Tz0.
  assert (Hi : 0 <= INR z <= 9).
  { split; [apply pos_INR |]. rewrite <- H9. apply le_INR. lia. }
  lra.
Qed.

(** Over half a degree below 20 degrees the Buck exponent drops by less than
    0.04. *)
Lemma buck_exponent_near_20 (T : R) :
  19.5 <= T <= 20 -> buck_exponent 20 - buck_exponent T <= 0.04.
Proof.
  intros HT. unfold buck_exponent.
  assert (HB : 0.0704 <= T / (257.14 + T)).
  { apply Rmult_le_reg_r with (r := 257.14 + T); [lra |].
    replace (T / (257.14 + T) * (257.14 + T)) with T by (field; lra). lra. }
  assert (HA : 18.678 - 20 / 234.5 <= 18.678 - T / 234.5) by lra.
  assert (HA0 : 18.59 <= 18.678 - 20 / 234.5) by lra.
  assert (H20 : (18.678 - 20 / 234.5) * (20 / (257.14 + 20)) <= 1.342) by lra.
  nra.
Qed.

Lemma in_domain_low_ridge : in_domain low_ridge.
Proof.
  unfold in_domain. rewrite len_low_ridge.
  split; [simpl; lra |]. split; [simpl; lra |]. split; [simpl; lra |]. split.
  - rewrite INR_IZR_INZ. simpl. lra.
  - intros z Hz. pose proof (Tv_low_ridge z Hz). lra.
Qed.

Lemma guards_pass_low_ridge : guards_pass low_ridge.
Proof.
  unfold guards_pass. rewrite len_low_ridge. simpl.
  repeat split; try lra. lia.
Qed.

Lemma low_ridge_never_saturated (z : nat) :
  (1 <= z < len low_ridge)%nat -> ~ saturated low_ridge z.
Proof.
  apply never_saturated.
  - rewrite len_low_ridge. lia.
  - simpl. lra.
  - intros k Hk. rewrite len_low_ridge in Hk.
    rewrite SatVapPress_ratio. simpl Tz0; simpl RH0.
    pose proof (Tv_low_ridge k) as HT.
    assert (Hk' : (k < 10)%nat) by lia. specialize (HT Hk').
    pose proof (buck_exponent_near_20 _ HT) as Hg.
    set (x := buck_exponent 20 - buck_exponent (Tv low_ridge k)) in *.
    pose proof (exp_le_inv x) as He.
    assert (Hx : x < 1) by lra. specialize (He Hx).
    assert (Hinv : 1 / (1 - x) <= 1.05).
    { apply Rmult_le_reg_r with (r := 1 - x); [lra |].
      replace (1 / (1 - x) * (1 - x)) with 1 by (field; lra). lra. }
    lra.
Qed.

Lemma run_without_condensation_raises_IndexError_witness :
  (forall z, (z < len low_ridge)%nat -> Prec (lift low_ridge) z = (Fin 0, Fin 0)) /\
  run low_ridge = Raise IndexError.
Proof.
  apply (run_without_condensation_raises_IndexError low_ridge).
  - exact in_domain_low_ridge.
  - exact guards_pass_low_ridge.
  - exact low_ridge_never_saturated.
Defined.

End LowRidge.

(** ** The two transitions of the loop body *)

Section Transitions.

Import Py MetFun EqFracFact AltitudeEffect.

Variable c : settings.

Lemma rows_set_RHvector (n : nat) (p : profile) (z : nat) (v : R) :
  rows n p -> rows n (set_RHvector p z v).
Proof.
  intros (H1 & H2 & H3 & H4 & H5). unfold rows, set_RHvector; simpl.
  rewrite length_upd. repeat split; assumption.
Qed.

Lemma step_saturated_row (n : nat) (p : profile) (z : nat) :
  rows n p -> (1 <= z < n)%nat -> RH_at c p z > 1.05 ->
  let q := step c p z in
  VC q z = 1e6 * SatVapPress (Tv c z) / m2hPa (INR z) /\
  VF q z = VC q z / VC p 0 /\
  VComp q z = ((R1816_VAP c q z / VSMOW1816 c - 1) * 1e3,
               (R21_VAP c q z / VSMOW21 c - 1) * 1e3) /\
  Prec q z =
    (mass_balance (VF p (z - 1)) (fst (VComp p (z - 1))) (VF q z) (fst (VComp q z)),
     mass_balance (VF p (z - 1)) (snd (VComp p (z - 1))) (VF q z) (snd (VComp q z))).
Proof.
  intros Hrows Hz Hsat q. subst q.
  rewrite (step_condense c n p z Hrows) by (lia || assumption).
  apply (condense_row c n (set_RHvector p z (RH_at c p z)) z);
    [apply rows_set_RHvector; assumption | assumption].
Qed.

Lemma step_unsaturated_row (n : nat) (p : profile) (z : nat) :
  rows n p -> (1 <= z < n)%nat -> ~ RH_at c p z > 1.05 ->
  let q := step c p z in
  VC q z = VC p (z - 1) /\
  VF q z = VF p (z - 1) /\
  VComp q z = VComp p (z - 1) /\
  Prec q z = Prec p (z - 1).
Proof.
  intros Hrows Hz Hsat q. subst q.
  rewrite (step_carry c n p z Hrows) by (lia || assumption).
  apply (carry_row n (set_RHvector p z (RH_at c p z)) z);
    [apply rows_set_RHvector; assumption | assumption].
Qed.

(** In the Saturated transition the new vapor concentration divides by
    [m2hPa] of the level index [z], not of the altitude [Zvector[z]]. *)
Lemma saturated_concentration_uses_level_index (n : nat) (p : profile) (z : nat) :
  rows n p -> (1 <= z < n)%nat -> RH_at c p z > 1.05 ->
  VC (step c p z) z = 1e6 * SatVapPress (Tv c z) / m2hPa (INR z).
Proof.
  intros Hrows Hz Hsat.
  apply (step_saturated_row n p z Hrows Hz Hsat).
Qed.

(** C7: in the Saturated transition at a level [z] below the zero of the
    pressure formula, with a positive vapor concentration at level 0, the
    vapor fraction stored at [z] is the new concentration over the
    concentration of level 0 and is positive, and the delta stored for each
    isotope is its new absolute ratio converted with its VSMOW constant,
    where the new absolute ratio is the level-0 ratio
    [((d0*1e-3)+1)*VSMOW] times the vapor fraction of [z] raised to
    [alpha18(Tvector[z]) - 1]: [alpha18] is in the exponent for both
    isotopes, and the base ratio is that of level 0. *)
Theorem saturated_vapor_ratios (n : nat) (p : profile) (z : nat) :
  rows n p -> (1 <= z < n)%nat -> RH_at c p z > 1.05 ->
  0 < VC p 0 -> INR z < 44307.69396 ->
  let q := step c p z in
  VF q z = 1e6 * SatVapPress (Tv c z) / m2hPa (INR z) / VC p 0 /\
  0 < VF q z /\
  VComp q z =
    (((((d18O0 c * 1e-3) + 1) * VSMOW1816 c
        * pow (VF q z) (alpha18 (Tv c z) - 1)) / VSMOW1816 c - 1) * 1e3,
     ((((dD0 c * 1e-3) + 1) * VSMOW21 c
        * pow (VF q z) (alpha18 (Tv c z) - 1)) / VSMOW21 c - 1) * 1e3).
Proof.
  intros Hrows Hz Hsat Hpos Hidx q.
  destruct (step_saturated_row n p z Hrows Hz Hsat) as (C1 & C2 & C3 & _).
  fold q in C1, C2, C3.
  assert (HVF : VF q z = 1e6 * SatVapPress (Tv c z) / m2hPa (INR z) / VC p 0).
  { rewrite C2, C1. reflexivity. }
  split; [exact HVF |]. split.
  - rewrite HVF.
    pose proof (SatVapPress_pos (Tv c z)) as HS.
    pose proof (m2hPa_pos (INR z) Hidx) as Hm.
    apply Rdiv_lt_0_compat; [| assumption].
    apply Rdiv_lt_0_compat; [| assumption]. lra.
  - rewrite C3. reflexivity.
Qed.

(** C8: in the Unsaturated transition the vapor concentration, the vapor
    fraction, both vapor deltas and both precipitation deltas of level [z]
    are those of level [z - 1], and the rows of every other level are left as
    they were. *)
Theorem unsaturated_copies_level_below (n : nat) (p : profile) (z : nat) :
  rows n p -> (1 <= z < n)%nat -> ~ RH_at c p z > 1.05 ->
  let q := step c p z in
  (VC q z = VC p (z - 1) /\
   VF q z = VF p (z - 1) /\
   VComp q z = VComp p (z - 1) /\
   Prec q z = Prec p (z - 1)) /\
  (forall j, j <> z ->
     VC q j = VC p j /\
     VF q j = VF p j /\
     VComp q j = VComp p j /\
     Prec q j = Prec p j /\
     RH q j = RH p j).
Proof.
  intros Hrows Hz Hsat q. split.
  - apply (step_unsaturated_row n p z Hrows Hz Hsat).
  - intros j Hj. apply step_frame, Hj.
Qed.


End Transitions.

(** ** The transitions on the example settings *)

Section TransitionExamples.

Import Py MetFun EqFracFact AltitudeEffect.

Lemma saturated_vapor_ratios_witness :
  let c := two_levels 1013.25 (-12) in
  let q := step c (init c) 1 in
  VF q 1 = 1e6 * SatVapPress (Tv c 1) / m2hPa (INR 1) / VC (init c) 0 /\
  0 < VF q 1 /\
  VComp q 1 =
    (((((d18O0 c * 1e-3) + 1) * VSMOW1816 c
        * pow (VF q 1) (alpha18 (Tv c 1) - 1)) / VSMOW1816 c - 1) * 1e3,
     ((((dD0 c * 1e-3) + 1) * VSMOW21 c
        * pow (VF q 1) (alpha18 (Tv c 1) - 1)) / VSMOW21 c - 1) * 1e3).
Proof.
  intros c.
  apply (saturated_vapor_ratios c 2 (init c) 1).
  - pose proof (rows_init c) as H. unfold c in H at 1.
    rewrite len_two_levels in H. exact H.
  - lia.
  - apply (two_levels_saturated_1 1013.25 (-12)). lra.
  - assert (Hlen : (1 <= len c)%nat) by (unfold c; rewrite len_two_levels; lia).
    destruct (init_row_0 c Hlen) as (I1 & _). rewrite I1. simpl.
    pose proof (SatVapPress_pos 20) as HS.
    apply Rdiv_lt_0_compat; lra.
  - simpl. lra.
Defined.

(** At 19.5 degrees and above, air at 85% humidity at 20 degrees stays below
    the condensation threshold. *)
Lemma humidity_below_threshold (T : R) :
  19.5 <= T <= 20 -> 85 / 100 * (SatVapPress 20 / SatVapPress T) <= 1.05.
Proof.
  intros HT. rewrite SatVapPress_ratio.
  pose proof (buck_exponent_near_20 T HT) as Hg.
  set (x := buck_exponent 20 - buck_exponent T) in *.
  pose proof (exp_le_inv x) as He.
  assert (Hx : x < 1) by lra. specialize (He Hx).
  assert (Hinv : 1 / (1 - x) <= 1.05).
  { apply Rmult_le_reg_r with (r := 1 - x); [lra |].
    replace (1 / (1 - x) * (1 - x)) with 1 by (field; lra). lra. }
  lra.
Qed.

Lemma default_level_1_unsaturated : ~ RH_at default (init default) 1 > 1.05.
Proof.
  assert (Hlen : (1 <= len default)%nat) by (rewrite len_default; lia).
  pose proof (RH_at_before_condensation default Hlen 1) as H.
  change (lift_upto default (1 - 1)) with (init default) in H.
  rewrite H.
  - simpl RH0; simpl Tz0.
    assert (HT : 19.5 <= Tv default 1 <= 20).
    { rewrite Tv_default by lia. simpl. lra. }
    pose proof (humidity_below_threshold _ HT). lra.
  - simpl. lra.
  - rewrite len_default. lia.
  - intros j Hj. lia.
Qed.

Lemma unsaturated_copies_level_below_witness :
  let p := init default in
  let q := step default p 1 in
  (VC q 1 = VC p (1 - 1) /\
   VF q 1 = VF p (1 - 1) /\
   VComp q 1 = VComp p (1 - 1) /\
   Prec q 1 = Prec p (1 - 1)) /\
  (forall j, j <> 1%nat ->
     VC q j = VC p j /\
     VF q j = VF p j /\
     VComp q j = VComp p j /\
     Prec q j = Prec p j /\
     RH q j = RH p j).
Proof.
  intros p.
  apply (unsaturated_copies_level_below default 400 p 1).
  - pose proof (rows_init default) as H. rewrite len_default in H. exact H.
  - lia.
  - exact default_level_1_unsaturated.
Defined.







End TransitionExamples.

(** ** Divergences *)

Section Divergences.

Import Py MetFun EqFracFact AltitudeEffect.

(** Without condensation below it, the top level of the script's column
    condenses: at 0 degrees the humidity computed from the initial
    concentration is far above the threshold. *)
Lemma default_top_saturated :
  (forall z, (1 <= z < 399)%nat -> ~ saturated default z) ->
  saturated default 399.
Proof.
  intros Hdry. unfold saturated.
  assert (Hlen : (1 <= len default)%nat) by (rewrite len_default; lia).
  rewrite (RH_at_before_condensation default Hlen 399);
    [| simpl; lra | rewrite len_default; lia | assumption].
  rewrite Tv_default by lia. rewrite INR_399. simpl RH0; simpl Tz0.
  replace (20 - 399 * (4000 / 399) * 5 / 1000) with 0 by lra.
  rewrite SatVapPress_ratio.
  assert (Hg : 1.3 <= buck_exponent 20 - buck_exponent 0).
  { unfold buck_exponent. lra. }
  pose proof (exp_ineq1_le (buck_exponent 20 - buck_exponent 0)). lra.
Qed.

Lemma default_condenses : exists z, (1 <= z < 400)%nat /\ saturated default z.
Proof.
  assert (Hlen : (1 <= len default)%nat) by (rewrite len_default; lia).
  destruct (saturated_below_dec default Hlen 399) as [Hnone | (z & Hz & Hs)].
  - exists 399%nat. split; [lia | apply default_top_saturated, Hnone].
  - exists z. split; [lia | assumption].
Qed.

(** Above the base, the pressure at the altitude of a level is lower than the
    pressure at its index taken as an altitude. *)
Lemma default_pressure_differs (z : nat) :
  (1 <= z < 400)%nat -> m2hPa (Zv default z) < m2hPa (INR z).
Proof.
  intros Hz. rewrite Zv_default by lia.
  pose proof (INR_lt_400 z (proj2 Hz)) as Hi.
  assert (H1 : 1 <= INR z) by (change 1 with (INR 1); apply le_INR; lia).
  apply m2hPa_decreasing; lra.
Qed.

(** At every level of the script's column that condenses, the stored vapor
    concentration is the saturation pressure over [m2hPa] of the level index,
    which is not the value at the pressure of the level's altitude. *)
Lemma default_condensing_level_concentration (z : nat) :
  (1 <= z < len default)%nat -> saturated default z ->
  VC (lift default) z = 1e6 * SatVapPress (Tv default z) / m2hPa (INR z) /\
  VC (lift default) z <>
    1e6 * SatVapPress (Tv default z) / m2hPa (Zv default z).
Proof.
  intros Hz Hs.
  destruct (lift_at default z) as (A1 & _); [lia |].
  destruct (level_condense default z Hz Hs) as (C1 & _).
  rewrite A1, C1. split; [reflexivity |].
  rewrite len_default in Hz.
  pose proof (default_pressure_differs z Hz) as Hlt.
  pose proof (SatVapPress_pos (Tv default z)) as HS.
  assert (Hm : 0 < m2hPa (Zv default z)).
  { apply m2hPa_pos. rewrite Zv_default by lia.
    pose proof (INR_lt_400 z (proj2 Hz)). lra. }
  intros E.
  assert (Hinv : / m2hPa (INR z) = / m2hPa (Zv default z)).
  { apply Rmult_eq_reg_l with (r := 1e6 * SatVapPress (Tv default z)); [| nra].
    exact E. }
  apply Rinv_eq_reg in Hinv. lra.
Qed.

(** C1, on the script's own settings: some level [z >= 1] condenses, and the
    vapor concentration stored there is [1e6 * SatVapPress(Tvector[z])] over
    [m2hPa(z)], the pressure at the level index, and differs from the value
    over [m2hPa(Zvector[z])], the pressure at the altitude of the level. *)
Theorem default_concentration_not_at_altitude_pressure :
  exists z, (1 <= z < len default)%nat /\ saturated default z /\
    VC (lift default) z = 1e6 * SatVapPress (Tv default z) / m2hPa (INR z) /\
    VC (lift default) z <>
      1e6 * SatVapPress (Tv default z) / m2hPa (Zv default z).
Proof.
  destruct default_condenses as (z & Hz & Hs).
  rewrite <- len_default in Hz.
  exists z. split; [exact Hz |]. split; [exact Hs |].
  apply default_condensing_level_concentration; assumption.
Qed.

End Divergences.

(** ** Equal vapor fractions in binary64 *)

Section EqualFractionsInBinary64.

Import PrimFloat AltitudeEffect.


End EqualFractionsInBinary64.

(** ** Monotonicity of the powers and of the fractionation factor *)

Section PowerFacts.

Import Py MetFun EqFracFact AltitudeEffect.

Lemma buck_exponent_0 : buck_exponent 0 = 0.
Proof. unfold buck_exponent. lra. Qed.

(** For a base in (0, 1) the power decreases as the exponent grows. *)
Lemma pow_lt_exponent (x y y' : R) :
  0 < x < 1 -> y < y' -> pow x y' < pow x y.
Proof.
  intros [Hx0 Hx1] Hy. rewrite !pow_pos_base by assumption.
  unfold Rpower. apply exp_increasing.
  assert (Hln : ln x < 0).
  { rewrite <- ln_1. apply ln_increasing; assumption. }
  nra.
Qed.

(** The Majoube factor for 18O decreases with the temperature. *)
Lemma majoube18_decreasing (K K' : R) :
  200 <= K -> K < K' -> K' <= 400 -> majoube18 K' < majoube18 K.
Proof.
  intros HK Hlt HK'. unfold majoube18. apply exp_increasing.
  set (u := / K). set (u' := / K').
  assert (Hu : / 400 <= u') by (apply Rinv_le_contravar; lra).
  assert (Huu : u' < u) by (apply Rinv_lt_contravar; nra).
  assert (Hu0 : u <= / 200) by (apply Rinv_le_contravar; lra).
  replace (1137 / K' ^ 2 - 0.4156 / K' - 0.0020667)
    with (1137 * (u' * u') - 0.4156 * u' - 0.0020667) by (unfold u'; field; lra).
  replace (1137 / K ^ 2 - 0.4156 / K - 0.0020667)
    with (1137 * (u * u) - 0.4156 * u - 0.0020667) by (unfold u; field; lra).
  assert (H400 : / 400 = 0.0025) by lra.
  nra.
Qed.

End PowerFacts.

(** * Further properties of the meteorological functions *)

Section MetFunMore.

Import MetFun.

Lemma pow_0_l (y : R) : Py.pow 0 y = 0.
Proof.
  unfold Py.pow. destruct (Rlt_dec 0 0) as [H | _]; [lra | reflexivity].
Qed.

(** X1: the other round trip: for every positive pressure, converting it to
    an altitude and back gives the pressure again. *)
Theorem m2hPa_hPa2m (p : R) : 0 < p -> m2hPa (hPa2m p) = p.
Proof.
  intros Hp. unfold m2hPa, hPa2m.
  assert (Hx : 0 < p / 1013.25) by (apply Rdiv_lt_0_compat; lra).
  replace (1 - (1 - Py.pow (p / 1013.25) 0.190284) * 44307.69396 / 44307.69396)
    with (Py.pow (p / 1013.25) 0.190284) by (field; lra).
  rewrite pow_pow by assumption.
  replace (0.190284 * (1 / 0.190284)) with 1 by lra.
  rewrite pow_1_r by assumption. lra.
Qed.

Lemma m2hPa_hPa2m_witness : 0 < 616.4 /\ m2hPa (hPa2m 616.4) = 616.4.
Proof.
  split; [lra | apply (m2hPa_hPa2m 616.4); lra].
Defined.

(** X2: between sea level and the zero of the formula the pressure is
    positive, at most the 1013.25 hPa of sea level, and strictly decreasing
    with the altitude; at 44307.69396 m it is zero. *)
Theorem m2hPa_range (z z' : R) :
  0 <= z -> z < z' -> z' < 44307.69396 ->
  0 < m2hPa z' /\ m2hPa z' < m2hPa z /\ m2hPa z <= 1013.25 /\
  m2hPa 44307.69396 = 0.
Proof.
  intros Hz Hlt Hz'. split; [apply m2hPa_pos; assumption |].
  split; [apply m2hPa_decreasing; assumption |]. split.
  - destruct (Req_dec_T z 0) as [-> | Hne].
    + rewrite m2hPa_0. lra.
    + apply Rlt_le, m2hPa_lt_ref. lra.
  - unfold m2hPa.
    replace (1 - 44307.69396 / 44307.69396) with 0 by lra.
    rewrite pow_0_l. lra.
Qed.

Lemma m2hPa_range_witness :
  0 < m2hPa 4000 /\ m2hPa 4000 < m2hPa 0 /\ m2hPa 0 <= 1013.25 /\
  m2hPa 44307.69396 = 0.
Proof.
  apply (m2hPa_range 0 4000); lra.
Defined.

(** X3: the altitude given for a pressure strictly decreases as the pressure
    grows; it is 0 at 1013.25 hPa, so positive below that pressure and
    negative above it, and it is 44307.69396 m at zero pressure. *)
Theorem hPa2m_decreasing (p p' : R) :
  0 < p -> p < p' ->
  hPa2m p' < hPa2m p /\ hPa2m 1013.25 = 0 /\ hPa2m 0 = 44307.69396.
Proof.
  intros Hp Hlt. unfold hPa2m. split; [| split].
  - assert (H : Py.pow (p / 1013.25) 0.190284 < Py.pow (p' / 1013.25) 0.190284).
    { apply pow_lt_base; [apply Rdiv_lt_0_compat; lra | | lra].
      apply Rmult_lt_compat_r; lra. }
    lra.
  - replace (1013.25 / 1013.25) with 1 by lra. rewrite pow_1_l. lra.
  - replace (0 / 1013.25) with 0 by lra. rewrite pow_0_l. lra.
Qed.

Lemma hPa2m_decreasing_witness :
  hPa2m 1013.25 < hPa2m 616.4 /\ hPa2m 1013.25 = 0 /\ hPa2m 0 = 44307.69396.
Proof.
  apply (hPa2m_decreasing 616.4 1013.25); lra.
Defined.

Lemma rhoAir_m2hPa (z T : R) :
  rhoAir z T = 100 * m2hPa z / (287.058 * (T + 273.15)).
Proof. reflexivity. Qed.

(** X4: above absolute zero and below the zero of the pressure formula the
    air density is positive, it is the gas law applied to the pressure
    [m2hPa] gives for the altitude, and it strictly decreases both with the
    altitude and with the temperature. *)
Theorem rhoAir_monotone (z z' T T' : R) :
  z < z' -> z' < 44307.69396 -> -273.15 < T -> T < T' ->
  0 < rhoAir z' T' /\
  rhoAir z T = 100 * m2hPa z / (287.058 * (T + 273.15)) /\
  rhoAir z' T < rhoAir z T /\
  rhoAir z T' < rhoAir z T.
Proof.
  intros Hz Hz' HT HTT'.
  rewrite !rhoAir_m2hPa.
  assert (Hm : 0 < m2hPa z) by (apply m2hPa_pos; lra).
  assert (Hm' : 0 < m2hPa z') by (apply m2hPa_pos; lra).
  pose proof (m2hPa_decreasing z z' Hz Hz') as Hdec.
  assert (HK : 0 < 287.058 * (T + 273.15)) by nra.
  assert (HK' : 0 < 287.058 * (T' + 273.15)) by nra.
  split; [apply Rdiv_lt_0_compat; lra |].
  split; [reflexivity |]. split.
  - apply Rmult_lt_compat_r; [apply Rinv_0_lt_compat; assumption | lra].
  - apply Rmult_lt_compat_l; [lra |].
    apply Rinv_lt_contravar; [nra | nra].
Qed.

Lemma rhoAir_monotone_witness :
  0 < rhoAir 4000 15 /\
  rhoAir 0 0 = 100 * m2hPa 0 / (287.058 * (0 + 273.15)) /\
  rhoAir 4000 0 < rhoAir 0 0 /\
  rhoAir 0 15 < rhoAir 0 0.
Proof.
  apply (rhoAir_monotone 0 4000 0 15); lra.
Defined.

(** The exponent of the Buck formula grows with the temperature, between its
    pole at -257.14 and 500 degrees. *)
Lemma buck_exponent_increasing (T T' : R) :
  -257.14 < T -> T < T' -> T' <= 500 -> buck_exponent T < buck_exponent T'.
Proof.
  intros HT Hlt HT'. unfold buck_exponent.
  set (d := 257.14 + T). set (d' := 257.14 + T').
  assert (Hd : 0 < d) by (unfold d; lra).
  assert (Hd' : 0 < d') by (unfold d'; lra).
  assert (Hdd : 0 < d * d') by nra.
  apply Rmult_lt_reg_r with (r := d * d'); [assumption |].
  replace ((18.678 - T / 234.5) * (T / d) * (d * d'))
    with ((18.678 - T / 234.5) * T * d') by (field; lra).
  replace ((18.678 - T' / 234.5) * (T' / d') * (d * d'))
    with ((18.678 - T' / 234.5) * T' * d) by (field; lra).
  assert (Hup : d * d' <= 757.14 * 757.14) by (unfold d, d'; nra).
  assert (Hkey : (18.678 - T' / 234.5) * T' * d - (18.678 - T / 234.5) * T * d'
                 = (T' - T) * (18.678 * 257.14 + 257.14 * 257.14 / 234.5
                               - d * d' / 234.5)).
  { unfold d, d'. field_simplify; lra. }
  assert (Hpos : 0 < 18.678 * 257.14 + 257.14 * 257.14 / 234.5 - d * d' / 234.5)
    by lra.
  assert (Hprod : 0 < (T' - T) * (18.678 * 257.14 + 257.14 * 257.14 / 234.5
                                  - d * d' / 234.5))
    by (apply Rmult_lt_0_compat; lra).
  lra.
Qed.

(** X5: between -100 and 500 degrees the saturation vapor pressure is
    positive and strictly increases with the temperature; it is 6.1121 hPa at
    0 degrees. *)
Theorem SatVapPress_increasing (T T' : R) :
  -100 <= T -> T < T' -> T' <= 500 ->
  0 < SatVapPress T /\ SatVapPress T < SatVapPress T' /\ SatVapPress 0 = 6.1121.
Proof.
  intros HT Hlt HT'. split; [apply SatVapPress_pos |]. split.
  - rewrite !SatVapPress_buck.
    apply Rmult_lt_compat_l; [lra |].
    apply exp_increasing, buck_exponent_increasing; [lra | assumption | assumption].
  - rewrite SatVapPress_buck, buck_exponent_0, exp_0. lra.
Qed.

Lemma SatVapPress_increasing_witness :
  0 < SatVapPress 0 /\ SatVapPress 0 < SatVapPress 20 /\ SatVapPress 0 = 6.1121.
Proof.
  apply (SatVapPress_increasing 0 20); lra.
Defined.

End MetFunMore.

(** * Further properties of the fractionation factors *)

Section EqFracFactMore.

Import EqFracFact.

(** The exponents of the four formulas, in the inverse temperature. *)
Lemma majoube18_inv (K : R) :
  K <> 0 -> majoube18 K = exp (1137 * (/ K * / K) - 0.4156 * / K - 0.0020667).
Proof. intros HK. unfold majoube18. f_equal. field. assumption. Qed.

Lemma ellehoj18_inv (K : R) :
  K <> 0 -> ellehoj18 K = exp (8312.58 * (/ K * / K) - 49.192 * / K + 0.0831).
Proof. intros HK. unfold ellehoj18. f_equal. field. assumption. Qed.

Lemma majoube2_inv (K : R) :
  K <> 0 -> majoube2 K = exp (24844 * (/ K * / K) - 76.248 * / K + 0.052612).
Proof. intros HK. unfold majoube2. f_equal. field. assumption. Qed.

Lemma ellehoj2_inv (K : R) :
  K <> 0 -> ellehoj2 K = exp (48888 * (/ K * / K) - 203.10 * / K + 0.2133).
Proof. intros HK. unfold ellehoj2. f_equal. field. assumption. Qed.

Lemma inv_bounds (K lo hi : R) :
  0 < lo -> lo <= K -> K <= hi -> / hi <= / K <= / lo.
Proof.
  intros Hlo H1 H2. split; apply Rinv_le_contravar; lra.
Qed.

Lemma exp_gt_1 (x : R) : 0 < x -> 1 < exp x.
Proof. intros Hx. rewrite <- exp_0. apply exp_increasing, Hx. Qed.

(** X6: for every temperature between -73.15 and 100 degrees both
    fractionation factors are greater than 1, on either formula. *)
Theorem alpha_gt_1 (T : R) :
  -73.15 <= T -> T <= 100 -> 1 < alpha18 T /\ 1 < alpha2 T.
Proof.
  intros HT HT'. unfold alpha18, alpha2. cbv zeta.
  set (K := T + 273.15).
  assert (HK : 0 < K) by (unfold K; lra).
  assert (HKhi : K <= 373.15) by (unfold K; lra).
  assert (Hu0 : 0 < / K) by (apply Rinv_0_lt_compat; assumption).
  destruct (Rge_dec K 268.16) as [Hge | Hlt].
  - destruct (inv_bounds K 268.16 373.15) as (Hlo & Hhi); try lra.
    assert (Hc : 0.00267 <= / 373.15) by lra.
    rewrite majoube18_inv, majoube2_inv by lra.
    split; apply exp_gt_1; nra.
  - rewrite ellehoj18_inv, ellehoj2_inv by lra.
    split; apply exp_gt_1.
    + pose proof (Rle_0_sqr (/ K - 0.00296)) as Hsq. unfold Rsqr in Hsq. nra.
    + pose proof (Rle_0_sqr (/ K - 0.00208)) as Hsq. unfold Rsqr in Hsq. nra.
Qed.

Lemma alpha_gt_1_witness :
  (1 < alpha18 20 /\ 1 < alpha2 20) /\ (1 < alpha18 (-30) /\ 1 < alpha2 (-30)).
Proof.
  split; [apply (alpha_gt_1 20) | apply (alpha_gt_1 (-30))]; lra.
Defined.

Lemma majoube2_decreasing (K K' : R) :
  200 <= K -> K < K' -> K' <= 400 -> majoube2 K' < majoube2 K.
Proof.
  intros HK Hlt HK'. rewrite !majoube2_inv by lra. apply exp_increasing.
  destruct (inv_bounds K' 200 400) as (Hlo & _); try lra.
  assert (Huu : / K' < / K) by (apply Rinv_lt_contravar; nra).
  assert (H400 : / 400 = 0.0025) by lra.
  nra.
Qed.

Lemma ellehoj18_decreasing (K K' : R) :
  200 <= K -> K < K' -> K' <= 268.16 -> ellehoj18 K' < ellehoj18 K.
Proof.
  intros HK Hlt HK'. rewrite !ellehoj18_inv by lra. apply exp_increasing.
  destruct (inv_bounds K' 200 268.16) as (Hlo & _); try lra.
  assert (Huu : / K' < / K) by (apply Rinv_lt_contravar; nra).
  assert (Hc : 0.0037 <= / 268.16) by lra.
  nra.
Qed.

Lemma ellehoj2_decreasing (K K' : R) :
  200 <= K -> K < K' -> K' <= 268.16 -> ellehoj2 K' < ellehoj2 K.
Proof.
  intros HK Hlt HK'. rewrite !ellehoj2_inv by lra. apply exp_increasing.
  destruct (inv_bounds K' 200 268.16) as (Hlo & _); try lra.
  assert (Huu : / K' < / K) by (apply Rinv_lt_contravar; nra).
  assert (Hc : 0.0037 <= / 268.16) by lra.
  nra.
Qed.

(** At the switch the ice formulas give the larger values. *)
Lemma threshold_jump :
  majoube18 268.16 < ellehoj18 268.16 /\ majoube2 268.16 < ellehoj2 268.16.
Proof.
  unfold majoube18, ellehoj18, majoube2, ellehoj2.
  split; apply exp_increasing; lra.
Qed.

(** X7: between -73.15 and 100 degrees both fractionation factors strictly
    decrease as the temperature rises, also across the switch between the two
    formulas. *)
Theorem alpha_decreasing (T T' : R) :
  -73.15 <= T -> T < T' -> T' <= 100 ->
  alpha18 T' < alpha18 T /\ alpha2 T' < alpha2 T.
Proof.
  intros HT Hlt HT'. unfold alpha18, alpha2. cbv zeta.
  set (K := T + 273.15). set (K' := T' + 273.15).
  assert (HK : 200 <= K) by (unfold K; lra).
  assert (HKK : K < K') by (unfold K, K'; lra).
  assert (HK' : K' <= 373.15) by (unfold K'; lra).
  destruct threshold_jump as (J18 & J2).
  destruct (Rge_dec K 268.16) as [Hge | Hn];
    destruct (Rge_dec K' 268.16) as [Hge' | Hn'].
  - split; [apply majoube18_decreasing | apply majoube2_decreasing]; lra.
  - lra.
  - assert (H18 : majoube18 K' <= majoube18 268.16).
    { destruct (Req_dec_T K' 268.16) as [-> | Hne]; [lra |].
      apply Rlt_le, majoube18_decreasing; lra. }
    assert (H2 : majoube2 K' <= majoube2 268.16).
    { destruct (Req_dec_T K' 268.16) as [-> | Hne]; [lra |].
      apply Rlt_le, majoube2_decreasing; lra. }
    pose proof (ellehoj18_decreasing K 268.16) as E18.
    pose proof (ellehoj2_decreasing K 268.16) as E2.
    assert (Hlt' : K < 268.16) by lra.
    specialize (E18 HK Hlt' (Rle_refl _)). specialize (E2 HK Hlt' (Rle_refl _)).
    lra.
  - split; [apply ellehoj18_decreasing | apply ellehoj2_decreasing]; lra.
Qed.

Lemma alpha_decreasing_witness :
  alpha18 20 < alpha18 (-30) /\ alpha2 20 < alpha2 (-30).
Proof.
  apply (alpha_decreasing (-30) 20); lra.
Defined.

(** X8: between -73.15 and 100 degrees the deuterium factor is greater than
    the 18O factor. *)
Theorem alpha2_gt_alpha18 (T : R) :
  -73.15 <= T -> T <= 100 -> alpha18 T < alpha2 T.
Proof.
  intros HT HT'. unfold alpha18, alpha2. cbv zeta.
  set (K := T + 273.15).
  assert (HK : 200 <= K) by (unfold K; lra).
  assert (HKhi : K <= 373.15) by (unfold K; lra).
  destruct (Rge_dec K 268.16) as [Hge | Hlt].
  - destruct (inv_bounds K 268.16 373.15) as (Hlo & Hhi); try lra.
    assert (Hc : 0.00267 <= / 373.15) by lra.
    rewrite majoube18_inv, majoube2_inv by lra.
    apply exp_increasing. nra.
  - destruct (inv_bounds K 200 268.16) as (Hlo & Hhi); try lra.
    assert (Hc : 0.0037 <= / 268.16) by lra.
    assert (Hc' : / 200 = 0.005) by lra.
    rewrite ellehoj18_inv, ellehoj2_inv by lra.
    apply exp_increasing. nra.
Qed.

Lemma alpha2_gt_alpha18_witness : alpha18 20 < alpha2 20.
Proof.
  apply (alpha2_gt_alpha18 20); lra.
Defined.

End EqFracFactMore.

(** * Further properties of the simulation *)

(** ** Grid and temperatures *)

Section GridMore.

Import Py MetFun AltitudeEffect.

Lemma len_of_multiple (c : settings) (n : nat) :
  Zres c <> 0 -> MaxZ c - MinZ c = INR n * Zres c -> len c = n.
Proof.
  intros Hr Hm. unfold len, num. rewrite Hm.
  replace (INR n * Zres c / Zres c) with (INR n) by (field; assumption).
  rewrite INR_IZR_INZ, int_IZR. apply Nat2Z.id.
Qed.

(** X9: when the range is [n >= 2] times a positive resolution, the grid has
    [n] samples and consecutive samples are [Zres * n / (n - 1)] apart, which
    is more than [Zres]. *)
Theorem grid_coarser_than_Zres (c : settings) (n z : nat) :
  (2 <= n)%nat -> 0 < Zres c -> MaxZ c - MinZ c = INR n * Zres c ->
  (S z < n)%nat ->
  len c = n /\
  Zv c (S z) - Zv c z = Zres c * INR n / INR (n - 1) /\
  Zres c < Zv c (S z) - Zv c z.
Proof.
  intros Hn Hr Hm Hz.
  assert (Hlen : len c = n) by (apply len_of_multiple; [lra | assumption]).
  split; [exact Hlen |].
  assert (Hs : Zv c (S z) - Zv c z = Zres c * INR n / INR (n - 1)).
  { rewrite Zv_spacing by (rewrite Hlen; assumption).
    rewrite Hlen, Hm. unfold Rdiv. ring. }
  split; [exact Hs |]. rewrite Hs.
  assert (H1 : 0 < INR (n - 1)) by (apply lt_0_INR; lia).
  assert (H2 : INR n = INR (n - 1) + 1).
  { replace n with (S (n - 1)) at 1 by lia. apply S_INR. }
  rewrite H2.
  apply Rmult_lt_reg_r with (r := INR (n - 1)); [assumption |].
  replace (Zres c * (INR (n - 1) + 1) / INR (n - 1) * INR (n - 1))
    with (Zres c * (INR (n - 1) + 1)) by (field; lra).
  nra.
Qed.

Lemma INR_400 : INR 400 = 400.
Proof. rewrite INR_IZR_INZ. reflexivity. Qed.

Lemma grid_coarser_than_Zres_witness :
  len default = 400%nat /\
  Zv default 1 - Zv default 0 = Zres default * INR 400 / INR (400 - 1) /\
  Zres default < Zv default 1 - Zv default 0.
Proof.
  apply (grid_coarser_than_Zres default 400 0).
  - lia.
  - simpl. lra.
  - rewrite INR_400. simpl. lra.
  - lia.
Defined.

(** X26: a grid of one level holds the minimum altitude alone.  For a
    minimum altitude below the maximum and a grid of at least two levels,
    the first sample is the minimum altitude, the last sample is the maximum
    altitude, and every sample is above the one before it, by
    [(MaxZ - MinZ)/(len(Zvector) - 1)]. *)
Theorem grid_endpoints (c : settings) :
  (len c = 1%nat -> Zvector c = [MinZ c]) /\
  (MinZ c < MaxZ c -> (2 <= len c)%nat ->
   Zv c 0 = MinZ c /\
   Zv c (len c - 1) = MaxZ c /\
   forall z, (S z < len c)%nat ->
     Zv c z < Zv c (S z) /\
     Zv c (S z) - Zv c z = (MaxZ c - MinZ c) / INR (len c - 1)).
Proof.
  split.
  - intros H1. unfold Zvector, linspace. rewrite H1. simpl.
    f_equal. lra.
  - intros Hm Hn. split; [apply Zv_first; lia |].
    split; [apply Zv_last; assumption |].
    intros z Hz. split; [apply Zv_increasing; assumption | apply Zv_spacing; assumption].
Qed.

Lemma grid_endpoints_witness :
  Zvector (with_grid default 0 10 10) = [0] /\
  (Zv default 0 = MinZ default /\
   Zv default (len default - 1) = MaxZ default /\
   forall z, (S z < len default)%nat ->
     Zv default z < Zv default (S z) /\
     Zv default (S z) - Zv default z
       = (MaxZ default - MinZ default) / INR (len default - 1)).
Proof.
  split.
  - apply (proj1 (grid_endpoints (with_grid default 0 10 10))).
    unfold len, num; simpl. replace ((10 - 0) / 10) with 1 by lra.
    rewrite int_IZR. reflexivity.
  - apply (proj2 (grid_endpoints default)).
    + simpl. lra.
    + rewrite len_default. lia.
Defined.

(** X10: the temperature of level 0 is [Tz0 - MinZ*MLR/1000], which is [Tz0]
    only when the column starts at altitude 0 or the lapse rate is 0; from a
    level to the next the temperature drops by the lapse rate times the grid
    spacing, so with a positive lapse rate and [MinZ < MaxZ] the profile is
    strictly decreasing. *)
Theorem temperature_profile (c : settings) :
  (2 <= len c)%nat ->
  Tv c 0 = Tz0 c - MinZ c * MLR c / 1000 /\
  (forall z, (S z < len c)%nat ->
     Tv c z - Tv c (S z)
     = MLR c / 1000 * ((MaxZ c - MinZ c) / INR (len c - 1))) /\
  (0 < MLR c -> MinZ c < MaxZ c ->
   forall z, (S z < len c)%nat -> Tv c (S z) < Tv c z).
Proof.
  intros Hn.
  assert (Hstep : forall z, (S z < len c)%nat ->
            Tv c z - Tv c (S z)
            = MLR c / 1000 * ((MaxZ c - MinZ c) / INR (len c - 1))).
  { intros z Hz. rewrite !Tv_eq by lia.
    pose proof (Zv_spacing c z Hz) as Hs.
    replace (Tz0 c - Zv c z * MLR c / 1000 - (Tz0 c - Zv c (S z) * MLR c / 1000))
      with (MLR c / 1000 * (Zv c (S z) - Zv c z)) by lra.
    rewrite Hs. reflexivity. }
  split; [| split; [exact Hstep |]].
  - rewrite Tv_eq by lia. rewrite Zv_first by lia. reflexivity.
  - intros HM Hm z Hz. specialize (Hstep z Hz).
    assert (H1 : 0 < INR (len c - 1)) by (apply lt_0_INR; lia).
    assert (H2 : 0 < (MaxZ c - MinZ c) / INR (len c - 1))
      by (apply Rdiv_lt_0_compat; lra).
    assert (H3 : 0 < MLR c / 1000 * ((MaxZ c - MinZ c) / INR (len c - 1)))
      by (apply Rmult_lt_0_compat; lra).
    lra.
Qed.

Lemma temperature_profile_witness :
  Tv default 0 = Tz0 default - MinZ default * MLR default / 1000 /\
  (forall z, (S z < len default)%nat ->
     Tv default z - Tv default (S z)
     = MLR default / 1000
       * ((MaxZ default - MinZ default) / INR (len default - 1))) /\
  (0 < MLR default -> MinZ default < MaxZ default ->
   forall z, (S z < len default)%nat -> Tv default (S z) < Tv default z).
Proof.
  apply (temperature_profile default). rewrite len_default. lia.
Defined.

End GridMore.

(** ** Errors raised before the loop *)

Section RunErrors.

Import Py MetFun AltitudeEffect.

Lemma int_small (x : R) : -1 < x < 1 -> int x = 0%Z.
Proof.
  intros Hx. unfold int. destruct (Rle_dec 0 x).
  - apply Zfloor_eq. lra.
  - apply Zceil_eq. lra.
Qed.


Lemma int_le_minus_1 (x : R) : x <= -1 -> (int x <= -1)%Z.
Proof.
  intros Hx. unfold int. destruct (Rle_dec 0 x) as [H | _]; [lra |].
  replace (-1)%Z with (Zceil (-1)) by (apply Zceil_eq; lra).
  apply Zceil_le. exact Hx.
Qed.

(** X11: when the resolution is not zero and the range is shorter than one
    resolution step, in either direction, [int] truncates the number of
    samples to 0 and the grid is empty; when moreover the base temperature is
    above the pole of the Buck formula, -257.14 degrees, and the reference
    pressure is not zero, the right-hand side of the first initial condition
    is computed and its assignment to row 0 raises [IndexError]. *)
Theorem empty_grid_raises_IndexError (c : settings) :
  Zres c <> 0 -> -1 < (MaxZ c - MinZ c) / Zres c < 1 ->
  -257.14 < Tz0 c -> P0 c <> 0 ->
  Zvector c = [] /\ run c = Raise IndexError.
Proof.
  intros Hr Hq HT' HP.
  assert (HT : 257.14 + Tz0 c <> 0) by lra.
  assert (Hnum : num c = 0%Z) by (apply int_small; exact Hq).
  split.
  - unfold Zvector, len. rewrite Hnum. reflexivity.
  - unfold run. rewrite Hnum.
    destruct (Req_dec_T (Zres c) 0) as [E | _]; [contradiction |].
    destruct (Req_dec_T (257.14 + Tz0 c) 0) as [E | _]; [contradiction |].
    destruct (Req_dec_T (P0 c) 0) as [E | _]; [contradiction |].
    reflexivity.
Qed.

Lemma empty_grid_raises_IndexError_witness :
  (Zvector (with_grid default 0 5 10) = [] /\
   run (with_grid default 0 5 10) = Raise IndexError) /\
  (Zvector (with_grid default 0 (-5) 10) = [] /\
   run (with_grid default 0 (-5) 10) = Raise IndexError).
Proof.
  split.
  - apply (empty_grid_raises_IndexError (with_grid default 0 5 10)); simpl; lra.
  - apply (empty_grid_raises_IndexError (with_grid default 0 (-5) 10)); simpl; lra.
Defined.

(** X12: when the range is at least one resolution step in the wrong
    direction, [np.linspace] is asked for a negative number of samples and
    raises [ValueError]. *)
Theorem reversed_range_raises_ValueError (c : settings) :
  Zres c <> 0 -> (MaxZ c - MinZ c) / Zres c <= -1 ->
  run c = Raise ValueError.
Proof.
  intros Hr Hq.
  assert (Hnum : (num c <= -1)%Z) by (apply int_le_minus_1; exact Hq).
  unfold run.
  destruct (Req_dec_T (Zres c) 0) as [E | _]; [contradiction |].
  destruct (num c <? 0)%Z eqn:E; [reflexivity |].
  apply Z.ltb_ge in E. lia.
Qed.

Lemma reversed_range_raises_ValueError_witness :
  run (with_grid default 4000 0 10) = Raise ValueError.
Proof.
  apply (reversed_range_raises_ValueError (with_grid default 4000 0 10)); simpl; lra.
Defined.



End RunErrors.

(** ** How a run ends *)

Section RunOutcome.

Import Py MetFun AltitudeEffect.

(** What the arrays look like when the cleaning loop has ended normally. *)
Lemma clean_done_inv (fuel : nat) :
  forall (a a' : list (fval * fval)) (i f : nat),
    clean fuel a i = Done (a', f) ->
    (i <= f < length a)%nat /\
    length a' = length a /\
    (forall j, (i <= j < f)%nat ->
       nth j a' (Fin 0, Fin 0) = (NaN, NaN) /\
       eq0 (fst (nth j a (Fin 0, Fin 0))) = true) /\
    eq0 (fst (nth f a (Fin 0, Fin 0))) = false /\
    (forall j, (j < i \/ f <= j)%nat ->
       nth j a' (Fin 0, Fin 0) = nth j a (Fin 0, Fin 0)).
Proof.
  induction fuel as [| fuel IH]; intros a a' i f Hrun; [discriminate |].
  simpl in Hrun.
  destruct (nth_error a i) as [[d18 d2] |] eqn:E; [| discriminate].
  assert (Hlt : (i < length a)%nat).
  { apply nth_error_Some. rewrite E. discriminate. }
  assert (Hrow : nth i a (Fin 0, Fin 0) = (d18, d2)).
  { apply nth_error_nth. exact E. }
  destruct (eq0 d18) eqn:Ez.
  - apply IH in Hrun. destruct Hrun as (Hf & Hlen & Hnan & Hstop & Hkeep).
    rewrite length_upd in Hf, Hlen.
    split; [lia |]. split; [exact Hlen |]. split; [| split].
    + intros j Hj. destruct (Nat.eq_dec j i) as [-> | Hne].
      * split; [| rewrite Hrow; exact Ez].
        rewrite Hkeep by lia. apply nth_upd_same. exact Hlt.
      * destruct (Hnan j) as (N1 & N2); [lia |].
        rewrite nth_upd_other in N2 by lia. split; assumption.
    + rewrite nth_upd_other in Hstop by lia. exact Hstop.
    + intros j Hj. rewrite Hkeep by lia. apply nth_upd_other. lia.
  - injection Hrun as <- <-.
    split; [lia |]. split; [reflexivity |]. split; [| split].
    + intros j Hj. lia.
    + rewrite Hrow. exact Ez.
    + intros j Hj. reflexivity.
Qed.

Lemma run_Done_guards (c : settings) (x : profile * nat) :
  run c = Done x -> guards_pass c.
Proof.
  unfold run, guards_pass. intros H.
  destruct (Req_dec_T (Zres c) 0) as [E | Hr]; [discriminate |].
  destruct (num c <? 0)%Z eqn:E1; [discriminate |].
  destruct (Req_dec_T (257.14 + Tz0 c) 0) as [E | HT]; [discriminate |].
  destruct (Req_dec_T (P0 c) 0) as [E | HP]; [discriminate |].
  destruct (num c =? 0)%Z eqn:E2; [discriminate |].
  apply Z.ltb_ge in E1. apply Z.eqb_neq in E2.
  repeat split; try assumption. unfold len. lia.
Qed.

End RunOutcome.

Section NormalEnd.

Import Py MetFun AltitudeEffect.

(** Level 0 always keeps the zero of the allocation in the precipitation
    array. *)
Lemma lift_Prec_0 (c : settings) :
  (1 <= len c)%nat -> Prec (lift c) 0 = (Fin 0, Fin 0).
Proof.
  intros Hlen.
  destruct (lift_at c 0) as (_ & _ & _ & A4 & _); [lia |].
  destruct (init_row_0 c Hlen) as (_ & _ & _ & I4 & _).
  rewrite A4, lift_upto_0. exact I4.
Qed.

(** A row that differs from the row below it was written by the condensation
    branch. *)
Lemma changed_row_is_saturated (c : settings) (i : nat) :
  (1 <= i < len c)%nat ->
  Prec (lift c) i <> Prec (lift c) (i - 1) -> saturated c i.
Proof.
  intros Hi Hne.
  destruct (saturated_dec c i) as [Hs | Hs]; [exact Hs | exfalso].
  destruct (lift_at c i) as (_ & _ & _ & A4 & _); [lia |].
  destruct (lift_at c (i - 1)) as (_ & _ & _ & B4 & _); [lia |].
  destruct (level_carry c i Hi Hs) as (_ & _ & _ & C4).
  apply Hne. rewrite A4, B4. exact C4.
Qed.

(** X15: when a run ends normally with index [i], then [i] is a level of the
    grid above level 0 that took the condensation branch; the precipitation
    rows below [i] hold [nan], the d18O of row [i] is not zero, the rows from
    [i] on are those the loop computed, and the other arrays are those of
    the loop. *)
Theorem run_normal_end (c : settings) (p : profile) (i : nat) :
  run c = Done (p, i) ->
  (1 <= i < len c)%nat /\
  saturated c i /\
  (forall j, (j < i)%nat -> Prec p j = (NaN, NaN)) /\
  eq0 (fst (Prec p i)) = false /\
  (forall j, (i <= j)%nat -> Prec p j = Prec (lift c) j) /\
  VaporConcentration p = VaporConcentration (lift c) /\
  VaporFraction p = VaporFraction (lift c) /\
  VaporComposition p = VaporComposition (lift c) /\
  RHvector p = RHvector (lift c).
Proof.
  intros Hrun.
  pose proof (run_Done_guards c _ Hrun) as HG.
  assert (Hlen : (1 <= len c)%nat) by (destruct HG as (_ & _ & _ & H); exact H).
  rewrite (run_unfold c HG) in Hrun.
  destruct (clean (S (length (PrecComposition (lift c))))
              (PrecComposition (lift c)) 0) as [[a f] | e |] eqn:E;
    try discriminate.
  injection Hrun as <- <-.
  apply clean_done_inv in E.
  destruct E as (Hf & Hlena & Hnan & Hstop & Hkeep).
  rewrite length_Prec_lift in Hf.
  fold (Prec (lift c) f) in Hstop.
  assert (Hf1 : (1 <= f)%nat).
  { destruct (Nat.eq_dec f 0) as [-> | Hne]; [| lia].
    rewrite (lift_Prec_0 c Hlen) in Hstop. cbn [fst] in Hstop.
    rewrite eq0_zero in Hstop. discriminate. }
  split; [lia |]. split.
  - apply changed_row_is_saturated; [lia |].
    intros Heq. destruct (Hnan (f - 1)%nat) as (_ & Hz); [lia |].
    fold (Prec (lift c) (f - 1)) in Hz. rewrite <- Heq, Hstop in Hz.
    discriminate.
  - unfold Prec, with_PrecComposition; simpl.
    split; [intros j Hj; apply Hnan; lia |].
    split; [rewrite Hkeep by lia; exact Hstop |].
    split; [intros j Hj; apply Hkeep; lia |].
    repeat split.
Qed.

(** The column [two_levels 1013.25 (-12)] ends normally, with index 1. *)
Lemma condensing_column_run_ends :
  exists p, run (two_levels 1013.25 (-12)) = Done (p, 1%nat).
Proof.
  assert (Hp : 0 < 1013.25) by lra.
  destruct (two_levels_row_1 1013.25 (-12) Hp) as (_ & _ & _ & _ & R5).
  pose proof condensing_fraction_bounds as HF.
  pose proof condensing_composition_bounds as HC.
  set (c := two_levels 1013.25 (-12)) in *.
  destruct (run_done c 1) as (p & Hrun & _).
  - apply guards_pass_two_levels, Hp.
  - unfold c. rewrite len_two_levels. lia.
  - intros j Hj. assert (Hj0 : j = 0%nat) by lia. subst j.
    rewrite lift_Prec_0 by (unfold c; rewrite len_two_levels; lia).
    cbn [fst]. apply eq0_zero.
  - rewrite R5. cbn [fst snd]. unfold mass_balance.
    rewrite np_div_finite by lra.
    apply eq0_Fin_nonzero.
    set (v := VF (lift c) 1) in *. set (d := fst (VComp (lift c) 1)) in *.
    assert (Hnum : 1 * -12 - v * d < 0) by nra.
    assert (Hden : 0 < 1 - v) by lra.
    intros E.
    apply Rmult_eq_compat_r with (r := 1 - v) in E.
    unfold Rdiv in E. rewrite Rmult_assoc, Rinv_l, Rmult_1_r, Rmult_0_l in E by lra.
    lra.
  - exists p. exact Hrun.
Qed.

Lemma run_normal_end_witness :
  exists p,
    run (two_levels 1013.25 (-12)) = Done (p, 1%nat) /\
    (1 <= 1 < len (two_levels 1013.25 (-12)))%nat /\
    saturated (two_levels 1013.25 (-12)) 1 /\
    (forall j, (j < 1)%nat -> Prec p j = (NaN, NaN)) /\
    eq0 (fst (Prec p 1)) = false /\
    (forall j, (1 <= j)%nat -> Prec p j = Prec (lift (two_levels 1013.25 (-12))) j) /\
    VaporConcentration p = VaporConcentration (lift (two_levels 1013.25 (-12))) /\
    VaporFraction p = VaporFraction (lift (two_levels 1013.25 (-12))) /\
    VaporComposition p = VaporComposition (lift (two_levels 1013.25 (-12))) /\
    RHvector p = RHvector (lift (two_levels 1013.25 (-12))).
Proof.
  destruct condensing_column_run_ends as (p & Hrun).
  exists p. split; [exact Hrun |].
  apply (run_normal_end (two_levels 1013.25 (-12)) p 1 Hrun).
Defined.

(** X16: whatever the number of iterations, the loop leaves level 0 as the
    initial conditions wrote it: the concentration computed from [RH0], the
    fraction 1, the initial deltas, the humidity [RH0], and the zeros of the
    allocation in the precipitation array. *)
Theorem base_level_untouched (c : settings) (k : nat) :
  (1 <= len c)%nat ->
  VC (lift_upto c k) 0 = 1e6 * RH0 c * SatVapPress (Tz0 c) / P0 c /\
  VF (lift_upto c k) 0 = 1 /\
  VComp (lift_upto c k) 0 = (d18O0 c, dD0 c) /\
  RH (lift_upto c k) 0 = RH0 c /\
  Prec (lift_upto c k) 0 = (Fin 0, Fin 0).
Proof.
  intros Hlen.
  destruct (lift_upto_stable c 0 k) as (S1 & S2 & S3 & S4 & S5); [lia |].
  destruct (init_row_0 c Hlen) as (I1 & I2 & I3 & I4 & I5).
  rewrite S1, S2, S3, S4, S5, lift_upto_0. repeat split; assumption.
Qed.

Lemma base_level_untouched_witness :
  VC (lift_upto default 399) 0
    = 1e6 * RH0 default * SatVapPress (Tz0 default) / P0 default /\
  VF (lift_upto default 399) 0 = 1 /\
  VComp (lift_upto default 399) 0 = (d18O0 default, dD0 default) /\
  RH (lift_upto default 399) 0 = RH0 default /\
  Prec (lift_upto default 399) 0 = (Fin 0, Fin 0).
Proof.
  apply (base_level_untouched default 399). rewrite len_default. lia.
Defined.

End NormalEnd.

(** ** Concentration and fraction along the column *)

Section ColumnBounds.

Import Py MetFun EqFracFact AltitudeEffect.

Variable c : settings.
Hypothesis Hdom : in_domain c.
Hypothesis Hlen : (1 <= len c)%nat.

Lemma P0_pos : 0 < P0 c.
Proof. destruct Hdom as (H & _). exact H. Qed.

Lemma level_index_below_zero (z : nat) :
  (z < len c)%nat -> INR z < 44307.69396.
Proof.
  intros Hz. destruct Hdom as (_ & _ & _ & Hidx & _).
  apply Rlt_trans with (r2 := INR (len c)); [apply lt_INR; lia | assumption].
Qed.

(** The pressure condition at the top level holds at every level. *)
Lemma pressure_condition_at_level (z : nat) :
  P0 c <= 1.05 * m2hPa (INR (len c - 1)) ->
  (z < len c)%nat -> P0 c <= 1.05 * m2hPa (INR z).
Proof.
  intros HP Hz. eapply Rle_trans; [exact HP |].
  apply Rmult_le_compat_l; [lra |].
  destruct (Nat.eq_dec z (len c - 1)) as [-> | Hne]; [lra |].
  apply Rlt_le, m2hPa_decreasing; [apply lt_INR; lia |].
  apply level_index_below_zero. lia.
Qed.

Lemma initial_concentration_pos :
  0 < RH0 c -> 0 < VC (init c) 0.
Proof.
  intros HR. destruct (init_row_0 c Hlen) as (I1 & _). rewrite I1.
  pose proof P0_pos. pose proof (SatVapPress_pos (Tz0 c)).
  apply Rdiv_lt_0_compat; [| assumption].
  apply Rmult_lt_0_compat; [lra | assumption].
Qed.

Lemma concentration_pos (z : nat) :
  0 < RH0 c -> (z < len c)%nat -> 0 < VC (lift_upto c z) z.
Proof.
  intros HR. induction z as [| z IH]; intros Hz.
  - rewrite lift_upto_0. apply initial_concentration_pos, HR.
  - destruct (saturated_dec c (S z)) as [Hs | Hs].
    + destruct (level_condense c (S z)) as (C1 & _); [lia | assumption |].
      rewrite C1.
      pose proof (SatVapPress_pos (Tv c (S z))).
      pose proof (m2hPa_pos (INR (S z)) (level_index_below_zero (S z) Hz)).
      apply Rdiv_lt_0_compat; lra.
    + destruct (level_carry c (S z)) as (C1 & _); [lia | assumption |].
      replace (S z - 1)%nat with z in C1 by lia.
      rewrite C1. apply IH. lia.
Qed.

(** One level up the concentration does not grow, under the pressure
    condition. *)
Lemma concentration_step (z : nat) :
  (S z < len c)%nat -> P0 c <= 1.05 * m2hPa (INR (S z)) ->
  VC (lift_upto c (S z)) (S z) <= VC (lift_upto c z) z.
Proof.
  intros Hz HP.
  destruct (saturated_dec c (S z)) as [Hs | Hs].
  - pose proof (saturated_lower_bound c Hdom _ Hs) as Hlow.
    destruct (level_condense c (S z)) as (C1 & _); [lia | assumption |].
    replace (S z - 1)%nat with z in * by lia.
    pose proof P0_pos as HP0.
    pose proof (SatVapPress_pos (Tv c (S z))) as HS.
    pose proof (m2hPa_pos (INR (S z)) (level_index_below_zero (S z) Hz)) as Hm.
    rewrite C1. apply Rlt_le. eapply Rle_lt_trans; [| exact Hlow].
    apply Rmult_le_reg_r with (r := m2hPa (INR (S z)) * P0 c); [nra |].
    replace (1e6 * SatVapPress (Tv c (S z)) / m2hPa (INR (S z)) *
             (m2hPa (INR (S z)) * P0 c))
      with (1e6 * SatVapPress (Tv c (S z)) * P0 c) by (field; lra).
    replace (1.05 * 1e6 * SatVapPress (Tv c (S z)) / P0 c *
             (m2hPa (INR (S z)) * P0 c))
      with (1e6 * SatVapPress (Tv c (S z)) * (1.05 * m2hPa (INR (S z))))
      by (field; lra).
    apply Rmult_le_compat_l; [nra | exact HP].
  - destruct (level_carry c (S z)) as (C1 & _); [lia | assumption |].
    replace (S z - 1)%nat with z in C1 by lia.
    rewrite C1. lra.
Qed.

Lemma concentration_below_initial (z : nat) :
  P0 c <= 1.05 * m2hPa (INR (len c - 1)) ->
  (z < len c)%nat -> VC (lift_upto c z) z <= VC (init c) 0.
Proof.
  intros HP. induction z as [| z IH]; intros Hz.
  - rewrite lift_upto_0. lra.
  - eapply Rle_trans; [| apply IH; lia].
    apply concentration_step; [assumption |].
    apply pressure_condition_at_level; assumption.
Qed.

Lemma fraction_bounds (z : nat) :
  0 < RH0 c -> P0 c <= 1.05 * m2hPa (INR (len c - 1)) ->
  (z < len c)%nat -> 0 < VF (lift_upto c z) z <= 1.
Proof.
  intros HR HP Hz.
  destruct (fraction_invariant c Hdom Hlen z Hz) as (I1 & _).
  pose proof (initial_concentration_pos HR) as H0.
  pose proof (concentration_pos z HR Hz) as Hpos.
  pose proof (concentration_below_initial z HP Hz) as Hle.
  split.
  - apply Rmult_lt_reg_r with (r := VC (init c) 0); [assumption |].
    rewrite I1. lra.
  - apply Rmult_le_reg_r with (r := VC (init c) 0); [assumption |].
    rewrite I1. lra.
Qed.

End ColumnBounds.

Section ColumnBoundsClaims.

Import Py MetFun EqFracFact AltitudeEffect.

(** X17: at a level that condenses, the initial humidity was positive and
    the stored vapor fraction is
    [P0 * SatVapPress(T[z]) / (RH0 * SatVapPress(Tz0) * m2hPa(z))], a positive
    number: the initial concentration cancels the factor 1e6. *)
Theorem condensing_level_fraction (c : settings) (z : nat) :
  in_domain c -> (1 <= z < len c)%nat -> saturated c z ->
  0 < RH0 c /\
  VF (lift c) z =
    P0 c * SatVapPress (Tv c z)
    / (RH0 c * SatVapPress (Tz0 c) * m2hPa (INR z)) /\
  0 < VF (lift c) z.
Proof.
  intros Hdom Hz Hs.
  assert (Hlen : (1 <= len c)%nat) by lia.
  pose proof (P0_pos c Hdom) as HP0.
  pose proof (SatVapPress_pos (Tz0 c)) as HS0.
  pose proof (SatVapPress_pos (Tv c z)) as HS.
  assert (Hm : 0 < m2hPa (INR z)).
  { apply m2hPa_pos. apply (level_index_below_zero c); auto. lia. }
  pose proof (saturated_below_pos c Hdom z Hs) as Hbelow.
  destruct (fraction_invariant c Hdom Hlen (z - 1)) as (_ & I2); [lia |].
  specialize (I2 Hbelow).
  destruct (init_row_0 c Hlen) as (I1 & _).
  assert (HR : 0 < RH0 c).
  { rewrite I1 in I2.
    destruct (Rlt_dec 0 (RH0 c)) as [H | H]; [exact H | exfalso].
    assert (Hle : 1e6 * RH0 c * SatVapPress (Tz0 c) / P0 c <= 0).
    { unfold Rdiv. assert (0 < / P0 c) by (apply Rinv_0_lt_compat; assumption).
      assert (RH0 c * SatVapPress (Tz0 c) <= 0) by nra. nra. }
    lra. }
  destruct (lift_at c z) as (_ & A2 & _); [lia |].
  destruct (level_condense c z Hz Hs) as (C1 & C2 & _).
  destruct (lift_row_0 c (z - 1) Hlen) as (Z1 & _).
  assert (HVF : VF (lift c) z =
                P0 c * SatVapPress (Tv c z)
                / (RH0 c * SatVapPress (Tz0 c) * m2hPa (INR z))).
  { rewrite A2, C2, C1, Z1. field. repeat split; lra. }
  split; [exact HR |]. split; [exact HVF |].
  rewrite HVF. apply Rdiv_lt_0_compat; [nra |].
  apply Rmult_lt_0_compat; [nra | assumption].
Qed.

Lemma condensing_level_fraction_witness :
  0 < RH0 (two_levels 1013.25 (-12)) /\
  VF (lift (two_levels 1013.25 (-12))) 1 =
    P0 (two_levels 1013.25 (-12))
    * SatVapPress (Tv (two_levels 1013.25 (-12)) 1)
    / (RH0 (two_levels 1013.25 (-12))
       * SatVapPress (Tz0 (two_levels 1013.25 (-12))) * m2hPa (INR 1)) /\
  0 < VF (lift (two_levels 1013.25 (-12))) 1.
Proof.
  assert (Hp : 0 < 1013.25) by lra.
  apply (condensing_level_fraction (two_levels 1013.25 (-12)) 1).
  - apply in_domain_two_levels, Hp.
  - rewrite len_two_levels. lia.
  - apply two_levels_saturated_1, Hp.
Defined.

(** X18: with a positive initial humidity, and a reference pressure of at
    most 1.05 times [m2hPa] of the top level index, at every level the vapor
    concentration is positive, at most that of the level below and at most
    the initial one, and the vapor fraction lies in (0, 1]. *)
Theorem vapor_bounds (c : settings) (z : nat) :
  in_domain c -> 0 < RH0 c ->
  P0 c <= 1.05 * m2hPa (INR (len c - 1)) ->
  (z < len c)%nat ->
  0 < VC (lift c) z /\
  VC (lift c) z <= VC (lift c) (z - 1) /\
  VC (lift c) z <= VC (lift c) 0 /\
  0 < VF (lift c) z <= 1.
Proof.
  intros Hdom HR HP Hz.
  assert (Hlen : (1 <= len c)%nat) by lia.
  destruct (lift_at c z) as (A1 & A2 & _); [lia |].
  destruct (lift_at c (z - 1)) as (B1 & _); [lia |].
  destruct (lift_at c 0) as (Z1 & _); [lia |].
  rewrite A1, A2, B1, Z1, lift_upto_0.
  split; [apply concentration_pos; assumption |].
  split; [| split].
  - destruct z as [| k]; [simpl; rewrite lift_upto_0; lra |].
    replace (S k - 1)%nat with k by lia.
    apply concentration_step; try assumption.
    apply pressure_condition_at_level; assumption.
  - apply concentration_below_initial; assumption.
  - apply fraction_bounds; assumption.
Qed.

Lemma vapor_bounds_witness :
  0 < VC (lift default) 399 /\
  VC (lift default) 399 <= VC (lift default) (399 - 1) /\
  VC (lift default) 399 <= VC (lift default) 0 /\
  0 < VF (lift default) 399 <= 1.
Proof.
  apply (vapor_bounds default 399).
  - exact in_domain_default.
  - simpl. lra.
  - rewrite len_default. change (400 - 1)%nat with 399%nat. rewrite INR_399.
    exact m2hPa_399.
  - rewrite len_default. lia.
Defined.

End ColumnBoundsClaims.

(** ** The vapor and precipitation deltas along a cooling column *)

Section Composition.

Import Py MetFun EqFracFact AltitudeEffect.

Lemma pow_0_r (x : R) : 0 < x -> pow x 0 = 1.
Proof.
  intros Hx. rewrite pow_pos_base by assumption.
  unfold Rpower. rewrite Rmult_0_l. apply exp_0.
Qed.

Lemma pow_le_base (x x' y : R) :
  0 < x -> x <= x' -> 0 <= y -> pow x y <= pow x' y.
Proof.
  intros Hx Hle Hy.
  destruct (Req_dec_T x x') as [-> | Hne]; [lra |].
  destruct (Req_dec_T y 0) as [-> | Hy0].
  - rewrite !pow_0_r by lra. lra.
  - apply Rlt_le, pow_lt_base; lra.
Qed.

Lemma pow_le_exponent (x y y' : R) :
  0 < x <= 1 -> y <= y' -> pow x y' <= pow x y.
Proof.
  intros [Hx0 Hx1] Hy.
  destruct (Req_dec_T x 1) as [-> | Hne]; [rewrite !pow_1_l; lra |].
  destruct (Req_dec_T y y') as [-> | Hyy]; [lra |].
  apply Rlt_le, pow_lt_exponent; lra.
Qed.

Lemma pow_le_1 (x y : R) : 0 < x <= 1 -> 0 <= y -> pow x y <= 1.
Proof.
  intros Hx Hy. rewrite <- (pow_0_r x) by lra.
  apply pow_le_exponent; assumption.
Qed.

(** [alpha18] is above 1 and does not grow with the temperature. *)
Lemma alpha18_above_1 (T : R) : -73.15 <= T <= 100 -> 1 < alpha18 T.
Proof.
  intros HT. unfold alpha18. cbv zeta.
  set (K := T + 273.15).
  assert (HK : 200 <= K <= 373.15) by (unfold K; lra).
  destruct (Rge_dec K 268.16) as [Hge | Hlt].
  - destruct (inv_bounds K 268.16 373.15) as (Hlo & Hhi); try lra.
    assert (Hc : 0.00267 <= / 373.15) by lra.
    rewrite majoube18_inv by lra. apply exp_gt_1. nra.
  - rewrite ellehoj18_inv by lra. apply exp_gt_1.
    pose proof (Rle_0_sqr (/ K - 0.00296)) as Hsq. unfold Rsqr in Hsq. nra.
Qed.

Lemma alpha18_antitone (T T' : R) :
  -73.15 <= T -> T <= T' -> T' <= 100 -> alpha18 T' <= alpha18 T.
Proof.
  intros HT Hle HT'.
  destruct (Req_dec_T T T') as [-> | Hne]; [lra |].
  apply Rlt_le. unfold alpha18. cbv zeta.
  set (K := T + 273.15). set (K' := T' + 273.15).
  assert (HK : 200 <= K) by (unfold K; lra).
  assert (HKK : K < K') by (unfold K, K'; lra).
  assert (HK' : K' <= 373.15) by (unfold K'; lra).
  destruct threshold_jump as (J18 & _).
  destruct (Rge_dec K 268.16) as [Hge | Hn];
    destruct (Rge_dec K' 268.16) as [Hge' | Hn'].
  - apply majoube18_decreasing; lra.
  - lra.
  - assert (H18 : majoube18 K' <= majoube18 268.16).
    { destruct (Req_dec_T K' 268.16) as [-> | Hne']; [lra |].
      apply Rlt_le, majoube18_decreasing; lra. }
    pose proof (ellehoj18_decreasing K 268.16) as E18.
    assert (Hlt' : K < 268.16) by lra.
    specialize (E18 HK Hlt' (Rle_refl _)). lra.
  - apply ellehoj18_decreasing; lra.
Qed.

Lemma rayleigh_delta_1 (d0 : R) : rayleigh_delta d0 1 = d0.
Proof. unfold rayleigh_delta. lra. Qed.

Lemma rayleigh_delta_monotone (d0 w w' : R) :
  -1000 <= d0 -> w <= w' -> rayleigh_delta d0 w <= rayleigh_delta d0 w'.
Proof.
  intros Hd Hw. unfold rayleigh_delta.
  assert (H : 0 <= d0 * 1e-3 + 1) by lra. nra.
Qed.

Variable c : settings.
Hypothesis Hcol : cooling_column c.

Lemma cooling_in_domain : in_domain c.
Proof. destruct Hcol as (H & _). exact H. Qed.

(** What the condensation branch stores as deltas, in one expression. *)
Lemma condensed_composition (z : nat) :
  (1 <= z < len c)%nat -> saturated c z ->
  VComp (lift_upto c z) z =
    (rayleigh_delta (d18O0 c)
       (pow (VF (lift_upto c z) z) (alpha18 (Tv c z) - 1)),
     rayleigh_delta (dD0 c)
       (pow (VF (lift_upto c z) z) (alpha18 (Tv c z) - 1))).
Proof.
  intros Hz Hs.
  destruct cooling_in_domain as (_ & HV18 & HV2 & _).
  destruct (level_condense c z Hz Hs) as (_ & _ & C3 & _).
  rewrite C3. unfold R1816_VAP, R21_VAP, R1816_0_VAP, R21_0_VAP, rayleigh_delta.
  f_equal; field; assumption.
Qed.

(** At every level the deltas are those of Rayleigh distillation at the
    level's vapor fraction, with an exponent between 0 and [alpha18 - 1] of
    the level's temperature. *)
Lemma composition_invariant (z : nat) :
  (z < len c)%nat ->
  exists y, 0 <= y <= alpha18 (Tv c z) - 1 /\
    VComp (lift_upto c z) z =
      (rayleigh_delta (d18O0 c) (pow (VF (lift_upto c z) z) y),
       rayleigh_delta (dD0 c) (pow (VF (lift_upto c z) z) y)).
Proof.
  destruct Hcol as (Hdom & HR & HP & HT & Hmono & Hd18 & HdD).
  induction z as [| z IH]; intros Hz.
  - exists 0. pose proof (alpha18_above_1 (Tv c 0) (HT 0%nat Hz)).
    split; [lra |].
    rewrite lift_upto_0.
    destruct (init_row_0 c) as (_ & I2 & I3 & _); [lia |].
    rewrite I2, I3, pow_1_l, !rayleigh_delta_1. reflexivity.
  - destruct IH as (y & Hy & Hcomp); [lia |].
    destruct (saturated_dec c (S z)) as [Hs | Hs].
    + exists (alpha18 (Tv c (S z)) - 1).
      pose proof (alpha18_above_1 (Tv c (S z)) (HT (S z) Hz)).
      split; [lra |]. apply condensed_composition; [lia | assumption].
    + exists y.
      destruct (level_carry c (S z)) as (_ & C2 & C3 & _); [lia | assumption |].
      replace (S z - 1)%nat with z in * by lia.
      rewrite C2, C3. split; [| exact Hcomp].
      pose proof (alpha18_antitone (Tv c (S z)) (Tv c z)) as Ha.
      assert (Hz' : (z < len c)%nat) by lia.
      pose proof (HT (S z) Hz). pose proof (HT z Hz').
      specialize (Ha ltac:(lra) (Hmono z Hz) ltac:(lra)). lra.
Qed.

(** From a level to the next the deltas of the vapor do not grow. *)
Lemma composition_step (z : nat) :
  (S z < len c)%nat ->
  fst (VComp (lift_upto c (S z)) (S z)) <= fst (VComp (lift_upto c z) z) /\
  snd (VComp (lift_upto c (S z)) (S z)) <= snd (VComp (lift_upto c z) z).
Proof.
  intros Hz.
  destruct Hcol as (Hdom & HR & HP & HT & Hmono & Hd18 & HdD).
  assert (Hlen : (1 <= len c)%nat) by lia.
  destruct (saturated_dec c (S z)) as [Hs | Hs].
  - destruct (composition_invariant z) as (y & Hy & Hcomp); [lia |].
    rewrite Hcomp, condensed_composition by (lia || assumption).
    cbn [fst snd].
    pose proof (fraction_bounds c Hdom Hlen (S z) HR HP Hz) as HF'.
    assert (Hz' : (z < len c)%nat) by lia.
    pose proof (fraction_bounds c Hdom Hlen z HR HP Hz') as HF.
    assert (Hstep : VF (lift_upto c (S z)) (S z) <= VF (lift_upto c z) z).
    { apply fraction_step; try assumption.
      apply pressure_condition_at_level; assumption. }
    pose proof (alpha18_antitone (Tv c (S z)) (Tv c z)) as Ha.
    pose proof (HT (S z) Hz). pose proof (HT z Hz').
    specialize (Ha ltac:(lra) (Hmono z Hz) ltac:(lra)).
    assert (Hw : pow (VF (lift_upto c (S z)) (S z)) (alpha18 (Tv c (S z)) - 1)
                 <= pow (VF (lift_upto c z) z) y).
    { eapply Rle_trans.
      - apply (pow_le_base _ (VF (lift_upto c z) z)); lra.
      - apply pow_le_exponent; lra. }
    split; apply rayleigh_delta_monotone; assumption.
  - destruct (level_carry c (S z)) as (_ & _ & C3 & _); [lia | assumption |].
    replace (S z - 1)%nat with z in * by lia.
    rewrite C3. lra.
Qed.

Lemma composition_below_initial (z : nat) :
  (z < len c)%nat ->
  fst (VComp (lift_upto c z) z) <= d18O0 c /\
  snd (VComp (lift_upto c z) z) <= dD0 c.
Proof.
  induction z as [| z IH]; intros Hz.
  - rewrite lift_upto_0.
    destruct (init_row_0 c) as (_ & _ & I3 & _); [lia |].
    rewrite I3. cbn [fst snd]. lra.
  - destruct IH as (I1 & I2); [lia |].
    destruct (composition_step z Hz) as (S1 & S2). lra.
Qed.

End Composition.

Section StrictCondensation.

Import Py MetFun EqFracFact AltitudeEffect.

Variable c : settings.
Hypothesis Hdom : in_domain c.
Hypothesis HP : P0 c <= 1.05 * m2hPa (INR (len c - 1)).

(** Under the pressure condition a level that condenses ends with strictly
    less vapor than the level below. *)
Lemma condensation_lowers_concentration (z : nat) :
  (1 <= z < len c)%nat -> saturated c z ->
  VC (lift_upto c z) z < VC (lift_upto c (z - 1)) (z - 1).
Proof.
  intros Hz Hs.
  assert (Hlen : (1 <= len c)%nat) by lia.
  pose proof (saturated_lower_bound c Hdom z Hs) as Hlow.
  destruct (level_condense c z Hz Hs) as (C1 & _).
  pose proof (P0_pos c Hdom) as HP0.
  pose proof (SatVapPress_pos (Tv c z)) as HS.
  assert (Hm : 0 < m2hPa (INR z)).
  { apply m2hPa_pos. apply (level_index_below_zero c); auto. lia. }
  assert (HPz : P0 c <= 1.05 * m2hPa (INR z)).
  { apply pressure_condition_at_level; auto. lia. }
  rewrite C1. eapply Rle_lt_trans; [| exact Hlow].
  apply Rmult_le_reg_r with (r := m2hPa (INR z) * P0 c); [nra |].
  replace (1e6 * SatVapPress (Tv c z) / m2hPa (INR z) * (m2hPa (INR z) * P0 c))
    with (1e6 * SatVapPress (Tv c z) * P0 c) by (field; lra).
  replace (1.05 * 1e6 * SatVapPress (Tv c z) / P0 c * (m2hPa (INR z) * P0 c))
    with (1e6 * SatVapPress (Tv c z) * (1.05 * m2hPa (INR z))) by (field; lra).
  apply Rmult_le_compat_l; [nra | exact HPz].
Qed.

Lemma condensation_lowers_fraction (z : nat) :
  (1 <= z < len c)%nat -> saturated c z ->
  VF (lift_upto c z) z < VF (lift_upto c (z - 1)) (z - 1).
Proof.
  intros Hz Hs.
  assert (Hlen : (1 <= len c)%nat) by lia.
  pose proof (condensation_lowers_concentration z Hz Hs) as Hvc.
  pose proof (saturated_below_pos c Hdom z Hs) as Hpos.
  destruct (fraction_invariant c Hdom Hlen (z - 1)) as (I1 & I2); [lia |].
  destruct (fraction_invariant c Hdom Hlen z) as (J1 & _); [lia |].
  specialize (I2 Hpos).
  apply Rmult_lt_reg_r with (r := VC (init c) 0); [assumption |].
  rewrite I1, J1. exact Hvc.
Qed.

End StrictCondensation.

Section CompositionClaims.

Import Py MetFun EqFracFact AltitudeEffect.

(** X19: along a cooling column the deltas of the vapor never increase from
    a level to the next, and so never exceed the initial deltas. *)
Theorem vapor_deltas_non_increasing (c : settings) (z : nat) :
  cooling_column c -> (1 <= z < len c)%nat ->
  fst (VComp (lift c) z) <= fst (VComp (lift c) (z - 1)) /\
  snd (VComp (lift c) z) <= snd (VComp (lift c) (z - 1)) /\
  fst (VComp (lift c) z) <= d18O0 c /\
  snd (VComp (lift c) z) <= dD0 c.
Proof.
  intros Hcol Hz.
  destruct (lift_at c z) as (_ & _ & A3 & _); [lia |].
  destruct (lift_at c (z - 1)) as (_ & _ & B3 & _); [lia |].
  rewrite A3, B3.
  destruct (composition_below_initial c Hcol z) as (I1 & I2); [lia |].
  destruct z as [| k]; [lia |].
  replace (S k - 1)%nat with k by lia.
  destruct (composition_step c Hcol k) as (S1 & S2); [lia |].
  repeat split; assumption.
Qed.

Lemma cooling_column_default : cooling_column default.
Proof.
  unfold cooling_column. rewrite len_default.
  split; [exact in_domain_default |].
  split; [simpl; lra |].
  split; [change (400 - 1)%nat with 399%nat; rewrite INR_399; exact m2hPa_399 |].
  split; [intros z Hz; pose proof (Tv_default_range z Hz); lra |].
  split; [| simpl; lra].
  intros z Hz. rewrite !Tv_default by lia. rewrite S_INR. lra.
Qed.

Lemma vapor_deltas_non_increasing_witness :
  fst (VComp (lift default) 399) <= fst (VComp (lift default) (399 - 1)) /\
  snd (VComp (lift default) 399) <= snd (VComp (lift default) (399 - 1)) /\
  fst (VComp (lift default) 399) <= d18O0 default /\
  snd (VComp (lift default) 399) <= dD0 default.
Proof.
  apply (vapor_deltas_non_increasing default 399).
  - exact cooling_column_default.
  - rewrite len_default. lia.
Defined.

(** X20: along a cooling column, at every level that condenses both deltas
    of the precipitation are finite and at least the deltas of the vapor of
    the level below: what condenses is not lighter than the vapor it
    leaves. *)
Theorem precipitation_not_lighter_than_vapor (c : settings) (z : nat) :
  cooling_column c -> (1 <= z < len c)%nat -> saturated c z ->
  exists x18 x2,
    Prec (lift c) z = (Fin x18, Fin x2) /\
    fst (VComp (lift c) (z - 1)) <= x18 /\
    snd (VComp (lift c) (z - 1)) <= x2.
Proof.
  intros Hcol Hz Hs.
  pose proof Hcol as (Hdom & HR & HP & _).
  assert (Hlen : (1 <= len c)%nat) by lia.
  destruct (lift_at c z) as (_ & A2 & _ & A4 & _); [lia |].
  destruct (lift_at c (z - 1)) as (_ & B2 & B3 & _); [lia |].
  rewrite A4, B3.
  pose proof (condensation_lowers_fraction c Hdom HP z Hz Hs) as Hstep.
  destruct z as [| k]; [lia |].
  replace (S k - 1)%nat with k in * by lia.
  destruct (composition_step c Hcol k) as (S1 & S2); [lia |].
  assert (HF : 0 < VF (lift_upto c (S k)) (S k) <= 1).
  { apply fraction_bounds; try assumption. lia. }
  destruct (level_condense c (S k)) as (_ & _ & _ & C4); [lia | assumption |].
  replace (S k - 1)%nat with k in C4 by lia.
  set (f1 := VF (lift_upto c k) k) in *.
  set (f := VF (lift_upto c (S k)) (S k)) in *.
  set (d1 := VComp (lift_upto c k) k) in *.
  set (d := VComp (lift_upto c (S k)) (S k)) in *.
  assert (Hden : 0 < f1 - f) by lra.
  rewrite C4. unfold mass_balance. rewrite !np_div_finite by lra.
  eexists. eexists. split; [reflexivity |].
  split.
  - apply Rmult_le_reg_r with (r := f1 - f); [assumption |].
    replace ((f1 * fst d1 - f * fst d) / (f1 - f) * (f1 - f))
      with (f1 * fst d1 - f * fst d) by (field; lra).
    nra.
  - apply Rmult_le_reg_r with (r := f1 - f); [assumption |].
    replace ((f1 * snd d1 - f * snd d) / (f1 - f) * (f1 - f))
      with (f1 * snd d1 - f * snd d) by (field; lra).
    nra.
Qed.

Lemma cooling_column_two_levels : cooling_column (two_levels 1013.25 (-12)).
Proof.
  assert (Hp : 0 < 1013.25) by lra.
  unfold cooling_column. rewrite len_two_levels.
  split; [apply in_domain_two_levels, Hp |].
  split; [simpl; lra |].
  split; [change (INR (2 - 1)) with 1; simpl P0; pose proof m2hPa_1_bounds; lra |].
  split; [intros z Hz; rewrite Tv_two_levels by assumption; lra |].
  split; [| simpl; lra].
  intros z Hz. rewrite !Tv_two_levels by lia. lra.
Qed.

Lemma precipitation_not_lighter_than_vapor_witness :
  exists x18 x2,
    Prec (lift (two_levels 1013.25 (-12))) 1 = (Fin x18, Fin x2) /\
    fst (VComp (lift (two_levels 1013.25 (-12))) (1 - 1)) <= x18 /\
    snd (VComp (lift (two_levels 1013.25 (-12))) (1 - 1)) <= x2.
Proof.
  assert (Hp : 0 < 1013.25) by lra.
  apply (precipitation_not_lighter_than_vapor (two_levels 1013.25 (-12)) 1).
  - exact cooling_column_two_levels.
  - rewrite len_two_levels. lia.
  - apply two_levels_saturated_1, Hp.
Defined.

End CompositionClaims.

(** ** Runs under the pressure condition *)

Section PressureCondition.

Import Py MetFun EqFracFact AltitudeEffect.

(** X21: when the reference pressure is at most 1.05 times [m2hPa] of the
    top level index, a level that condenses always ends with strictly less
    vapor and a strictly smaller vapor fraction than the level below, so the
    mass balance never divides by zero: both precipitation deltas of the
    level are finite. *)
Theorem condensation_strictly_lowers_fraction (c : settings) (z : nat) :
  in_domain c -> P0 c <= 1.05 * m2hPa (INR (len c - 1)) ->
  (1 <= z < len c)%nat -> saturated c z ->
  VC (lift c) z < VC (lift c) (z - 1) /\
  VF (lift c) z < VF (lift c) (z - 1) /\
  is_finite (fst (Prec (lift c) z)) /\
  is_finite (snd (Prec (lift c) z)).
Proof.
  intros Hdom HP Hz Hs.
  destruct (lift_at c z) as (A1 & A2 & _ & A4 & _); [lia |].
  destruct (lift_at c (z - 1)) as (B1 & B2 & _); [lia |].
  rewrite A1, A2, A4, B1, B2.
  pose proof (condensation_lowers_concentration c Hdom HP z Hz Hs) as Hvc.
  pose proof (condensation_lowers_fraction c Hdom HP z Hz Hs) as Hvf.
  split; [exact Hvc |]. split; [exact Hvf |].
  destruct (level_condense c z Hz Hs) as (_ & _ & _ & C4).
  rewrite C4. cbn [fst snd]. unfold mass_balance.
  rewrite !np_div_finite by lra.
  split; eexists; reflexivity.
Qed.

Lemma condensation_strictly_lowers_fraction_witness :
  VC (lift (two_levels 1013.25 (-12))) 1
    < VC (lift (two_levels 1013.25 (-12))) (1 - 1) /\
  VF (lift (two_levels 1013.25 (-12))) 1
    < VF (lift (two_levels 1013.25 (-12))) (1 - 1) /\
  is_finite (fst (Prec (lift (two_levels 1013.25 (-12))) 1)) /\
  is_finite (snd (Prec (lift (two_levels 1013.25 (-12))) 1)).
Proof.
  assert (Hp : 0 < 1013.25) by lra.
  apply (condensation_strictly_lowers_fraction (two_levels 1013.25 (-12)) 1).
  - apply in_domain_two_levels, Hp.
  - rewrite len_two_levels. change (INR (2 - 1)) with 1. simpl P0.
    pose proof m2hPa_1_bounds. lra.
  - rewrite len_two_levels. lia.
  - apply two_levels_saturated_1, Hp.
Defined.

(** The d18O of the first precipitation: between the initial delta of the
    vapor and that delta plus [(d0/1000 + 1) * 1000 * (alpha18 - 1)]. *)
Lemma first_precipitation_bounds (v d0 y : R) :
  0 < v < 1 -> 0 < y -> -1000 <= d0 ->
  let x := (1 * d0 - v * rayleigh_delta d0 (pow v y)) / (1 - v) in
  d0 <= x <= d0 + (d0 * 1e-3 + 1) * 1e3 * y.
Proof.
  intros Hv Hy Hd x. subst x.
  assert (Hw1 : pow v y <= 1) by (apply pow_le_1; lra).
  assert (Hw0 : 1 + y * (1 - 1 / v) <= pow v y).
  { rewrite pow_pos_base by lra. unfold Rpower.
    pose proof (exp_ineq1_le (y * ln v)) as He.
    pose proof (ln_ge v (proj1 Hv)) as Hl.
    assert (y * (1 - 1 / v) <= y * ln v) by (apply Rmult_le_compat_l; lra).
    lra. }
  set (w := pow v y) in *.
  assert (Hvw : v * (1 - w) <= y * (1 - v)).
  { assert (Hiv : v * (1 / v) = 1) by (field; lra).
    assert (H1 : 1 - w <= y * (1 / v - 1)) by lra.
    assert (H2 : v * (1 - w) <= v * (y * (1 / v - 1)))
      by (apply Rmult_le_compat_l; lra).
    replace (v * (y * (1 / v - 1))) with (y * (1 - v)) in H2 by (field; lra).
    exact H2. }
  set (k := d0 * 1e-3 + 1).
  assert (Hk : 0 <= k) by (unfold k; lra).
  assert (Hnum : 1 * d0 - v * rayleigh_delta d0 w
                 = d0 * (1 - v) + 1e3 * (k * (v * (1 - w)))).
  { unfold rayleigh_delta, k. lra. }
  assert (Hden : 0 < 1 - v) by lra.
  assert (Hx : (1 * d0 - v * rayleigh_delta d0 w) / (1 - v)
               = d0 + 1e3 * (k * (v * (1 - w))) / (1 - v)).
  { rewrite Hnum. field. lra. }
  rewrite Hx.
  assert (H0 : 0 <= k * (v * (1 - w))).
  { apply Rmult_le_pos; [assumption |]. apply Rmult_le_pos; lra. }
  assert (H1 : k * (v * (1 - w)) <= k * (y * (1 - v)))
    by (apply Rmult_le_compat_l; assumption).
  split.
  - assert (0 <= 1e3 * (k * (v * (1 - w))) / (1 - v)).
    { apply Rmult_le_pos; [lra | apply Rlt_le, Rinv_0_lt_compat; assumption]. }
    lra.
  - assert (1e3 * (k * (v * (1 - w))) / (1 - v) <= k * 1e3 * y).
    { apply Rmult_le_reg_r with (r := 1 - v); [assumption |].
      replace (1e3 * (k * (v * (1 - w))) / (1 - v) * (1 - v))
        with (1e3 * (k * (v * (1 - w)))) by (field; lra).
      lra. }
    lra.
Qed.

(** X22: along a cooling column whose first condensing level [f] is warm
    enough for [d18O0 + (d18O0/1000 + 1) * 1000 * (alpha18(T[f]) - 1)] to be
    negative, the run ends normally with index [f]: the precipitation
    composition is [nan] below [f] and finite from [f] on, and the d18O of
    the first precipitation lies between [d18O0] and that negative bound. *)
Theorem cooling_run_ends_at_first_condensation (c : settings) (f : nat) :
  cooling_column c -> guards_pass c ->
  (1 <= f < len c)%nat -> saturated c f ->
  (forall z, (1 <= z < f)%nat -> ~ saturated c z) ->
  d18O0 c + (d18O0 c * 1e-3 + 1) * 1e3 * (alpha18 (Tv c f) - 1) < 0 ->
  exists p x,
    run c = Done (p, f) /\
    (forall z, (z < f)%nat -> Prec p z = (NaN, NaN)) /\
    (forall z, (f <= z < len c)%nat ->
       is_finite (fst (Prec p z)) /\ is_finite (snd (Prec p z))) /\
    fst (Prec p f) = Fin x /\
    d18O0 c <= x <= d18O0 c + (d18O0 c * 1e-3 + 1) * 1e3 * (alpha18 (Tv c f) - 1).
Proof.
  intros Hcol HG Hf Hsf Hdry Hneg.
  pose proof Hcol as (Hdom & HR & HP & HT & _ & Hd18 & _).
  assert (Hlen : (1 <= len c)%nat) by lia.
  assert (Hfin : forall z, (f <= z < len c)%nat ->
            is_finite (fst (Prec (lift c) z)) /\ is_finite (snd (Prec (lift c) z))).
  { intros z Hz. destruct (lift_at c z) as (_ & _ & _ & A4 & _); [lia |].
    rewrite A4. apply (finite_from_first c Hlen f Hf Hsf); [| exact Hz].
    intros k Hk Hsk.
    pose proof (condensation_lowers_fraction c Hdom HP k) as Hlt.
    assert (Hk1 : (1 <= k < len c)%nat) by lia.
    specialize (Hlt Hk1 Hsk). lra. }
  pose proof (condensation_lowers_fraction c Hdom HP f Hf Hsf) as Hlt.
  destruct (carry_prefix c Hlen (f - 1)) as (_ & P2 & P3 & _);
    [lia | intros j Hj; apply Hdry; lia |].
  rewrite P2 in Hlt.
  assert (Hv : 0 < VF (lift_upto c f) f < 1).
  { split; [| exact Hlt]. apply fraction_bounds; auto. lia. }
  pose proof (alpha18_above_1 (Tv c f) (HT f (proj2 Hf))) as Ha.
  assert (Hy : 0 < alpha18 (Tv c f) - 1) by lra.
  pose proof (first_precipitation_bounds _ (d18O0 c) _ Hv Hy Hd18) as Hx.
  cbv zeta in Hx.
  destruct (level_condense c f Hf Hsf) as (_ & _ & _ & C4).
  rewrite P2, P3 in C4. cbn [fst snd] in C4.
  rewrite (condensed_composition c Hcol f Hf Hsf) in C4. cbn [fst snd] in C4.
  unfold mass_balance in C4. rewrite !np_div_finite in C4 by lra.
  destruct (lift_at c f) as (_ & _ & _ & A4 & _); [lia |].
  set (x := (1 * d18O0 c
             - VF (lift_upto c f) f
               * rayleigh_delta (d18O0 c)
                   (pow (VF (lift_upto c f) f) (alpha18 (Tv c f) - 1)))
            / (1 - VF (lift_upto c f) f)) in *.
  destruct (run_done c f HG (proj2 Hf)) as (p & Hrun & Hnan & Hkeep & _).
  - intros j Hj.
    destruct (lift_before_first c f j) as (_ & _ & _ & B4); try lia; [assumption |].
    rewrite B4. cbn [fst]. apply eq0_zero.
  - rewrite A4, C4. cbn [fst]. apply eq0_Fin_nonzero. lra.
  - exists p, x. split; [exact Hrun |]. split; [exact Hnan |].
    split; [intros z Hz; rewrite Hkeep by lia; apply Hfin, Hz |].
    split; [| exact Hx].
    rewrite Hkeep by lia. rewrite A4, C4. reflexivity.
Qed.

End PressureCondition.

(** ** The script's own run *)

Section DefaultRun.

Import Py MetFun EqFracFact AltitudeEffect.

Lemma alpha18_0_bound : alpha18 0 <= 1.0118.
Proof.
  unfold alpha18. cbv zeta.
  destruct (Rge_dec (0 + 273.15) 268.16) as [_ | Hn]; [| lra].
  unfold majoube18.
  set (q := 1137 / (0 + 273.15) ^ 2 - 0.4156 / (0 + 273.15) - 0.0020667).
  assert (Hq : 0 <= q <= 0.01166) by (unfold q; lra).
  pose proof (exp_le_inv q) as Hhi.
  assert (Hlt : q < 1) by lra. specialize (Hhi Hlt).
  assert (Hinv : 1 / (1 - q) <= 1.0118).
  { apply Rmult_le_reg_r with (r := 1 - q); [lra |].
    replace (1 / (1 - q) * (1 - q)) with 1 by (field; lra). lra. }
  lra.
Qed.

Lemma guards_pass_default : guards_pass default.
Proof.
  unfold guards_pass. rewrite len_default. simpl.
  repeat split; try lra. lia.
Qed.

Lemma default_first_condensation :
  exists f, (1 <= f < len default)%nat /\ saturated default f /\
            forall z, (1 <= z < f)%nat -> ~ saturated default z.
Proof.
  destruct default_condenses as (k & Hk & Hs).
  assert (Hlen : (1 <= len default)%nat) by (rewrite len_default; lia).
  destruct (first_saturated default Hlen k) as (f & Hf & Hsf & Hmin);
    [lia | assumption |].
  exists f. rewrite len_default. split; [lia |]. split; assumption.
Qed.

Lemma default_first_precipitation_negative (f : nat) :
  (f < len default)%nat ->
  d18O0 default
  + (d18O0 default * 1e-3 + 1) * 1e3 * (alpha18 (Tv default f) - 1) < 0.
Proof.
  intros Hf. rewrite len_default in Hf.
  pose proof (Tv_default_range f Hf) as HT.
  pose proof (alpha18_antitone 0 (Tv default f)) as Ha.
  specialize (Ha ltac:(lra) ltac:(lra) ltac:(lra)).
  pose proof alpha18_0_bound as Hb.
  simpl d18O0. lra.
Qed.

Lemma cooling_run_ends_at_first_condensation_witness :
  exists f p x,
    (1 <= f < len default)%nat /\
    run default = Done (p, f) /\
    (forall z, (z < f)%nat -> Prec p z = (NaN, NaN)) /\
    (forall z, (f <= z < len default)%nat ->
       is_finite (fst (Prec p z)) /\ is_finite (snd (Prec p z))) /\
    fst (Prec p f) = Fin x /\
    d18O0 default <= x
    <= d18O0 default
       + (d18O0 default * 1e-3 + 1) * 1e3 * (alpha18 (Tv default f) - 1).
Proof.
  destruct default_first_condensation as (f & Hf & Hsf & Hmin).
  destruct (cooling_run_ends_at_first_condensation default f
              cooling_column_default guards_pass_default Hf Hsf Hmin
              (default_first_precipitation_negative f (proj2 Hf)))
    as (p & x & H).
  exists f, p, x. split; [exact Hf | exact H].
Defined.

End DefaultRun.

(** ** Humidity and fraction around the first condensation *)

Section AroundFirstCondensation.

Import Py MetFun EqFracFact AltitudeEffect.

(** X23: under the pressure condition, from a level that condenses on, the
    vapor fraction stays strictly below 1. *)
Theorem fraction_below_1_after_condensation (c : settings) (f z : nat) :
  in_domain c -> P0 c <= 1.05 * m2hPa (INR (len c - 1)) ->
  (1 <= f)%nat -> (f <= z < len c)%nat -> saturated c f ->
  VF (lift c) z < 1.
Proof.
  intros Hdom HP Hf Hz Hs.
  assert (Hlen : (1 <= len c)%nat) by lia.
  destruct (lift_at c z) as (_ & A2 & _); [lia |].
  rewrite A2. clear A2.
  assert (Hbase : VF (lift_upto c f) f < 1).
  { pose proof (condensation_lowers_fraction c Hdom HP f) as Hlt.
    assert (Hf' : (1 <= f < len c)%nat) by lia.
    specialize (Hlt Hf' Hs).
    pose proof (saturated_below_pos c Hdom f Hs) as Hpos.
    destruct (fraction_invariant c Hdom Hlen (f - 1)) as (I1 & I2); [lia |].
    specialize (I2 Hpos).
    assert (Hle : VC (lift_upto c (f - 1)) (f - 1) <= VC (init c) 0).
    { apply concentration_below_initial; auto. lia. }
    assert (Hle' : VF (lift_upto c (f - 1)) (f - 1) <= 1).
    { apply Rmult_le_reg_r with (r := VC (init c) 0); [assumption |].
      rewrite I1. lra. }
    lra. }
  destruct Hz as (Hfz & Hzl).
  induction z as [| z IH]; [lia |].
  destruct (Nat.eq_dec f (S z)) as [<- | Hne]; [exact Hbase |].
  eapply Rle_lt_trans; [| apply IH; lia].
  apply fraction_step; auto.
  apply pressure_condition_at_level; auto.
Qed.

Lemma fraction_below_1_after_condensation_witness :
  VF (lift default) 399 < 1.
Proof.
  destruct default_condenses as (k & Hk & Hs).
  apply (fraction_below_1_after_condensation default k 399).
  - exact in_domain_default.
  - rewrite len_default. change (400 - 1)%nat with 399%nat. rewrite INR_399.
    exact m2hPa_399.
  - lia.
  - rewrite len_default. lia.
  - exact Hs.
Defined.

(** X24: in the finished arrays the relative humidity of a level [z >= 1] is
    the one computed from the vapor concentration of the level below, and
    it exceeds 1.05 exactly when the level took the condensation branch. *)
Theorem humidity_of_level (c : settings) (z : nat) :
  (1 <= z < len c)%nat ->
  RH (lift c) z
    = VC (lift c) (z - 1) / 1e6 * P0 c / SatVapPress (Tv c z) /\
  (saturated c z <-> RH (lift c) z > 1.05).
Proof.
  intros Hz.
  destruct (lift_at c z) as (_ & _ & _ & _ & A5); [lia |].
  destruct (lift_at c (z - 1)) as (B1 & _); [lia |].
  assert (HRH : RH (lift_upto c z) z = RH_at c (lift_upto c (z - 1)) z).
  { destruct z as [| k]; [lia |].
    replace (S k - 1)%nat with k by lia.
    rewrite lift_upto_S.
    apply (step_RH c (len c)); [apply rows_lift_upto | lia]. }
  rewrite A5, B1, HRH. split; [reflexivity |].
  unfold saturated. tauto.
Qed.

Lemma humidity_of_level_witness :
  RH (lift default) 1
    = VC (lift default) (1 - 1) / 1e6 * P0 default
      / SatVapPress (Tv default 1) /\
  (saturated default 1 <-> RH (lift default) 1 > 1.05).
Proof.
  apply (humidity_of_level default 1). rewrite len_default. lia.
Defined.

(** X25: as long as nothing has condensed below a level, the humidity
    computed there is [RH0 * SatVapPress(Tz0) / SatVapPress(T[z])]: the
    reference pressure cancels, and the level condenses exactly when this
    ratio exceeds 1.05; the levels below it repeat the initial concentration,
    the fraction 1 and the initial deltas. *)
Theorem humidity_before_condensation (c : settings) (z : nat) :
  P0 c <> 0 -> (1 <= z < len c)%nat ->
  (forall j, (1 <= j < z)%nat -> ~ saturated c j) ->
  RH (lift c) z = RH0 c * (SatVapPress (Tz0 c) / SatVapPress (Tv c z)) /\
  (saturated c z <->
   RH0 c * (SatVapPress (Tz0 c) / SatVapPress (Tv c z)) > 1.05) /\
  (forall j, (j < z)%nat ->
     VC (lift c) j = VC (lift c) 0 /\
     VF (lift c) j = 1 /\
     VComp (lift c) j = (d18O0 c, dD0 c)).
Proof.
  intros HP Hz Hdry.
  assert (Hlen : (1 <= len c)%nat) by lia.
  pose proof (RH_at_before_condensation c Hlen z HP Hz Hdry) as HRH.
  destruct (humidity_of_level c z Hz) as (H1 & H2).
  assert (Heq : RH (lift c) z
                = RH0 c * (SatVapPress (Tz0 c) / SatVapPress (Tv c z))).
  { rewrite <- HRH. destruct (lift_at c z) as (_ & _ & _ & _ & A5); [lia |].
    rewrite A5. destruct z as [| k]; [lia |].
    replace (S k - 1)%nat with k by lia. rewrite lift_upto_S.
    apply (step_RH c (len c)); [apply rows_lift_upto | lia]. }
  split; [exact Heq |]. split; [rewrite <- Heq; exact H2 |].
  intros j Hj.
  destruct (lift_before_first c z j) as (B1 & B2 & B3 & _); try lia;
    [assumption |].
  destruct (lift_at c 0) as (Z1 & _); [lia |].
  rewrite Z1, lift_upto_0. repeat split; assumption.
Qed.

Lemma humidity_before_condensation_witness :
  RH (lift low_ridge) 9
    = RH0 low_ridge
      * (SatVapPress (Tz0 low_ridge) / SatVapPress (Tv low_ridge 9)) /\
  (saturated low_ridge 9 <->
   RH0 low_ridge
   * (SatVapPress (Tz0 low_ridge) / SatVapPress (Tv low_ridge 9)) > 1.05) /\
  (forall j, (j < 9)%nat ->
     VC (lift low_ridge) j = VC (lift low_ridge) 0 /\
     VF (lift low_ridge) j = 1 /\
     VComp (lift low_ridge) j = (d18O0 low_ridge, dD0 low_ridge)).
Proof.
  apply (humidity_before_condensation low_ridge 9).
  - simpl. lra.
  - rewrite len_low_ridge. lia.
  - intros j Hj. apply low_ridge_never_saturated. rewrite len_low_ridge. lia.
Defined.

End AroundFirstCondensation.
